(** * WebGPU instanced-cubes demo: the pool rebuild and the frame loop of [Main]

    A shallow embedding of [src/webgpu-world/src/Main.ts]: the instance
    pool with its recycled [VertexUniform] objects ([resetInstance]), the
    per-frame function ([render]), start-up ([init]) and the browser's event
    dispatch, followed by the properties of the specification proved on
    them. *)

From Stdlib Require Import ZArith Lia PrimFloat SpecFloat FloatOps.
From Stdlib Require Reals Lra Psatz.
From stdpp Require Import base option list strings.

Set Warnings "-inexact-float".
Set Default Proof Using "Type".

(** ** JavaScript numbers

    A JS [number] is an IEEE 754 binary64 value: Rocq's primitive [float].
    [+], [-], [*], [/] and [Math.sqrt] are the correctly rounded binary64
    operations of [PrimFloat]. *)

Abbreviation number := float.

Module JSNum.

(** [Math.PI], the binary64 value nearest to pi. *)
Definition Math_PI : number := 0x1.921fb54442d18p+1%float.

(** A loop index or array length as a [number] (exact below 2^53). *)
Definition ofNat (n : nat) : number :=
  PrimFloat.of_uint63 (Uint63Axioms.of_Z (Z.of_nat n)).

(** [ToInt32] of ECMAScript, the conversion that [v << 0] applies to its
    left operand: NaN and the infinities give 0, a finite value is
    truncated towards zero and wrapped into [-2^31, 2^31). *)
Definition ToInt32 (v : number) : Z :=
  match Prim2SF v with
  | S754_finite s m e =>
      let mag := (if 0 <=? e then Z.pos m * 2 ^ e else Z.pos m / 2 ^ (- e))%Z in
      let n := (if s then - mag else mag)%Z in
      let r := (n mod 2 ^ 32)%Z in
      if (r <? 2 ^ 31)%Z then r else (r - 2 ^ 32)%Z
  | _ => 0%Z
  end.

(** [v << 0]. *)
Definition shl0 (v : number) : Z := ToInt32 v.

(** [n % d] on integer operands: the sign follows the dividend. *)
Definition remainder (n d : Z) : Z := Z.rem n d.

End JSNum.

(** ** Completions: a state monad with exceptions

    A JS statement list either runs to its end or throws; what it wrote to
    the heap before throwing stays written. *)

Inductive Completion (A : Type) : Type :=
| Normal (a : A)
| Throw (e : string).
Arguments Normal {A} a.
Arguments Throw {A} e.

Definition JS (S A : Type) : Type := S -> Completion A * S.

Definition ret {S A} (a : A) : JS S A := fun s => (Normal a, s).

Definition bind {S A B} (c : JS S A) (k : A -> JS S B) : JS S B :=
  fun s =>
    match c s with
    | (Normal a, s') => k a s'
    | (Throw e, s') => (Throw e, s')
    end.

Definition get {S} : JS S S := fun s => (Normal s, s).
Definition modify {S} (f : S -> S) : JS S unit := fun s => (Normal tt, f s).
Definition throw {S A} (e : string) : JS S A := fun s => (Throw e, s).

#[global] Instance JS_ret {S} : MRet (JS S) := @ret S.
#[global] Instance JS_bind {S} : MBind (JS S) := fun A B k c => bind c k.

(** Run a computation on a part [P] of the state [S]. *)
Definition zoom {S P A} (proj : S -> P) (inj : P -> S -> S) (c : JS P A) : JS S A :=
  fun s => let '(r, p) := c (proj s) in (r, inj p s).

(** The message of the [TypeError] raised by a property access on [null]
    or [undefined]. *)
Definition TypeError : string := "TypeError".

(** ** The objects of the scene *)

(** The identity of a [VertexUniform] object: its index in the list of all
    [VertexUniform]s constructed so far. *)
Abbreviation Ref := nat.

(** Handles of GPU buffers, textures and drawables. *)
Abbreviation GPUBuffer := nat.
Abbreviation Texture := nat.

Record Drawable : Type := { texture : Texture }.

Abbreviation Float32Array := (list float).

Record RGB : Type := { r : number; g : number; b : number }.

Record SceneObject : Type := {
  x : number; y : number; z : number;
  rotationX : number; rotationY : number; rotationZ : number;
  scaleX : number; scaleY : number; scaleZ : number;
  vertexUniform : option Ref
}.

Record Primitive : Type := { vertexBuffer : GPUBuffer; numVertices : nat }.

(** [gl-matrix]'s [mat4]: a [Float32Array] of 16 elements. *)
Abbreviation mat4 := (list float).

(** The fields of a [VertexUniform] ([project/VertexUniform]): the handle
    of its GPU buffer and the block that is written into it. *)
Record VertexUniform : Type := {
  buffer : option GPUBuffer;
  mvpMatrix : mat4;
  modelMatrix : mat4;
  baseColor : Float32Array;
  ambientLightColor : Float32Array;
  directionalLightColor : Float32Array;
  directionalLightDirection : Float32Array
}.

(** ** The GPU interface

    The enumerations of the WebGPU prototype that [Main.ts] names, and what
    a command buffer records. *)

Module WebGPULoadAction.
Inductive t : Type := clear | load.
End WebGPULoadAction.

Module WebGPUPrimitiveType.
Inductive t : Type := triangle | linestrip.
End WebGPUPrimitiveType.

(** A render pipeline state, known by the shader functions of its
    descriptor (lines 108-120); both pipelines have the same pixel
    formats. *)
Record WebGPURenderPipelineState : Type := {
  vertexFunction : string;
  fragmentFunction : string
}.

(** The fields of [this.renderPassDescriptor] that [render] writes. The
    store actions, clear values and depth texture are set once by [init]
    (lines 129-146) and left alone afterwards. *)
Record WebGPURenderPassDescriptor : Type := {
  color0_texture : option Texture;
  color0_loadAction : option WebGPULoadAction.t;
  depth_loadAction : option WebGPULoadAction.t
}.

Inductive Command : Type :=
| setRenderPipelineState (s : WebGPURenderPipelineState)
| setDepthStencilState
| setVertexBuffer (b : option GPUBuffer) (offset index : nat)
| drawPrimitives (t : WebGPUPrimitiveType.t) (start count : nat).

(** One render command encoder, from
    [createRenderCommandEncoderWithDescriptor] to [endEncoding]. The
    encoder takes the values the descriptor has when it is created (the
    descriptor object itself is shared by both passes and rewritten between
    them). *)
Record RenderPass : Type := {
  descriptor : WebGPURenderPassDescriptor;
  commands : list Command
}.

Record WebGPUCommandBuffer : Type := {
  passes : list RenderPass;
  presented : Drawable
}.

(** ** The collaborators of [Main]

    What [Main.ts] imports and what the JS runtime provides beyond IEEE
    arithmetic. None of it is in [Main.ts]; the program is embedded over any
    implementation of them. *)

Class Platform : Type := {
  (** [mat4.multiply(out, a, b)] with a fresh [out] *)
  mat4_multiply : mat4 -> mat4 -> mat4;
  (** [Math.cos], [Math.sin], [Math.atan2] *)
  Math_cos : number -> number;
  Math_sin : number -> number;
  Math_atan2 : number -> number -> number;
  (** the rounding to binary32 of a [Float32Array] element *)
  fround : number -> number;
  (** [RGB.createFromHSV(h, s, v)] *)
  createFromHSV : number -> number -> number -> RGB;
  (** the fields of [new SceneObject()], and [SceneObject.getModelMtx()] *)
  newSceneObject : SceneObject;
  getModelMtx : SceneObject -> mat4;
  (** the fields of [new VertexUniform()] *)
  newVertexUniform : VertexUniform;
  (** [Camera], [new Camera(...)] as [init] leaves it,
      [RoundCameraController.upDate(dt)], [Camera.getCameraMtx()] *)
  Camera : Type;
  newCamera : bool -> Camera;
  upDate : number -> Camera -> Camera;
  getCameraMtx : Camera -> mat4
}.

(** ** Field updates *)

Definition with_position (px py pz : number) (o : SceneObject) : SceneObject :=
  {| x := px; y := py; z := pz;
     rotationX := rotationX o; rotationY := rotationY o; rotationZ := rotationZ o;
     scaleX := scaleX o; scaleY := scaleY o; scaleZ := scaleZ o;
     vertexUniform := vertexUniform o |}.

Definition with_rotationX (v : number) (o : SceneObject) : SceneObject :=
  {| x := x o; y := y o; z := z o;
     rotationX := v; rotationY := rotationY o; rotationZ := rotationZ o;
     scaleX := scaleX o; scaleY := scaleY o; scaleZ := scaleZ o;
     vertexUniform := vertexUniform o |}.

Definition with_rotationY (v : number) (o : SceneObject) : SceneObject :=
  {| x := x o; y := y o; z := z o;
     rotationX := rotationX o; rotationY := v; rotationZ := rotationZ o;
     scaleX := scaleX o; scaleY := scaleY o; scaleZ := scaleZ o;
     vertexUniform := vertexUniform o |}.

Definition with_rotationZ (v : number) (o : SceneObject) : SceneObject :=
  {| x := x o; y := y o; z := z o;
     rotationX := rotationX o; rotationY := rotationY o; rotationZ := v;
     scaleX := scaleX o; scaleY := scaleY o; scaleZ := scaleZ o;
     vertexUniform := vertexUniform o |}.

Definition with_scale (s : number) (o : SceneObject) : SceneObject :=
  {| x := x o; y := y o; z := z o;
     rotationX := rotationX o; rotationY := rotationY o; rotationZ := rotationZ o;
     scaleX := s; scaleY := s; scaleZ := s;
     vertexUniform := vertexUniform o |}.

Definition with_vertexUniform (u : option Ref) (o : SceneObject) : SceneObject :=
  {| x := x o; y := y o; z := z o;
     rotationX := rotationX o; rotationY := rotationY o; rotationZ := rotationZ o;
     scaleX := scaleX o; scaleY := scaleY o; scaleZ := scaleZ o;
     vertexUniform := u |}.

Definition with_buffer (h : option GPUBuffer) (u : VertexUniform) : VertexUniform :=
  {| buffer := h; mvpMatrix := mvpMatrix u; modelMatrix := modelMatrix u;
     baseColor := baseColor u; ambientLightColor := ambientLightColor u;
     directionalLightColor := directionalLightColor u;
     directionalLightDirection := directionalLightDirection u |}.

Definition with_mvpMatrix (m : mat4) (u : VertexUniform) : VertexUniform :=
  {| buffer := buffer u; mvpMatrix := m; modelMatrix := modelMatrix u;
     baseColor := baseColor u; ambientLightColor := ambientLightColor u;
     directionalLightColor := directionalLightColor u;
     directionalLightDirection := directionalLightDirection u |}.

Definition with_modelMatrix (m : mat4) (u : VertexUniform) : VertexUniform :=
  {| buffer := buffer u; mvpMatrix := mvpMatrix u; modelMatrix := m;
     baseColor := baseColor u; ambientLightColor := ambientLightColor u;
     directionalLightColor := directionalLightColor u;
     directionalLightDirection := directionalLightDirection u |}.

Definition with_baseColor (c : Float32Array) (u : VertexUniform) : VertexUniform :=
  {| buffer := buffer u; mvpMatrix := mvpMatrix u; modelMatrix := modelMatrix u;
     baseColor := c; ambientLightColor := ambientLightColor u;
     directionalLightColor := directionalLightColor u;
     directionalLightDirection := directionalLightDirection u |}.

Definition with_ambientLightColor (c : Float32Array) (u : VertexUniform) : VertexUniform :=
  {| buffer := buffer u; mvpMatrix := mvpMatrix u; modelMatrix := modelMatrix u;
     baseColor := baseColor u; ambientLightColor := c;
     directionalLightColor := directionalLightColor u;
     directionalLightDirection := directionalLightDirection u |}.

Definition with_directionalLightColor (c : Float32Array) (u : VertexUniform) : VertexUniform :=
  {| buffer := buffer u; mvpMatrix := mvpMatrix u; modelMatrix := modelMatrix u;
     baseColor := baseColor u; ambientLightColor := ambientLightColor u;
     directionalLightColor := c;
     directionalLightDirection := directionalLightDirection u |}.

Definition with_directionalLightDirection (d : Float32Array) (u : VertexUniform) : VertexUniform :=
  {| buffer := buffer u; mvpMatrix := mvpMatrix u; modelMatrix := modelMatrix u;
     baseColor := baseColor u; ambientLightColor := ambientLightColor u;
     directionalLightColor := directionalLightColor u;
     directionalLightDirection := d |}.

(** ** The instance pool

    The part of [Main] and of its environment that [resetInstance] reads
    and writes: [this.useModel], [this.cubeNum], [this.cubeList],
    [this.cubeUniformList], the [VertexUniform] objects and GPU buffers made
    through [this.gpu], and [Math.random]. *)

Record Pool : Type := {
  useModel : bool;
  cubeNum : nat;
  cubeList : list SceneObject;
  (** the free list; [push] appends, [shift] takes the head. An entry is
      what [cubeList[i].vertexUniform as VertexUniform] evaluated to, which
      the cast does not keep from being [null]. *)
  cubeUniformList : list (option Ref);
  (** every [VertexUniform] constructed so far, in order of construction *)
  uniforms : list VertexUniform;
  (** the number of GPU buffers created so far through [this.gpu] *)
  gpuBuffers : nat;
  (** [Math.random]: the values it returns in this run, and how many have
      been drawn *)
  randomValues : nat -> number;
  randomDrawn : nat
}.

Definition set_useModel (v : bool) (p : Pool) : Pool :=
  {| useModel := v; cubeNum := cubeNum p; cubeList := cubeList p;
     cubeUniformList := cubeUniformList p; uniforms := uniforms p;
     gpuBuffers := gpuBuffers p; randomValues := randomValues p;
     randomDrawn := randomDrawn p |}.

Definition set_cubeNum (v : nat) (p : Pool) : Pool :=
  {| useModel := useModel p; cubeNum := v; cubeList := cubeList p;
     cubeUniformList := cubeUniformList p; uniforms := uniforms p;
     gpuBuffers := gpuBuffers p; randomValues := randomValues p;
     randomDrawn := randomDrawn p |}.

Definition set_cubeList (v : list SceneObject) (p : Pool) : Pool :=
  {| useModel := useModel p; cubeNum := cubeNum p; cubeList := v;
     cubeUniformList := cubeUniformList p; uniforms := uniforms p;
     gpuBuffers := gpuBuffers p; randomValues := randomValues p;
     randomDrawn := randomDrawn p |}.

Definition set_cubeUniformList (v : list (option Ref)) (p : Pool) : Pool :=
  {| useModel := useModel p; cubeNum := cubeNum p; cubeList := cubeList p;
     cubeUniformList := v; uniforms := uniforms p;
     gpuBuffers := gpuBuffers p; randomValues := randomValues p;
     randomDrawn := randomDrawn p |}.

Definition set_uniforms (v : list VertexUniform) (p : Pool) : Pool :=
  {| useModel := useModel p; cubeNum := cubeNum p; cubeList := cubeList p;
     cubeUniformList := cubeUniformList p; uniforms := v;
     gpuBuffers := gpuBuffers p; randomValues := randomValues p;
     randomDrawn := randomDrawn p |}.

Definition set_gpuBuffers (v : nat) (p : Pool) : Pool :=
  {| useModel := useModel p; cubeNum := cubeNum p; cubeList := cubeList p;
     cubeUniformList := cubeUniformList p; uniforms := uniforms p;
     gpuBuffers := v; randomValues := randomValues p;
     randomDrawn := randomDrawn p |}.

Definition set_randomDrawn (v : nat) (p : Pool) : Pool :=
  {| useModel := useModel p; cubeNum := cubeNum p; cubeList := cubeList p;
     cubeUniformList := cubeUniformList p; uniforms := uniforms p;
     gpuBuffers := gpuBuffers p; randomValues := randomValues p;
     randomDrawn := v |}.

Section Program.
Context `{Platform}.

Local Open Scope float_scope.

(** [new Float32Array([...])]. *)
Definition newFloat32Array (l : list number) : Float32Array := map fround l.

(** [a[i]] read as a number; out of range JS yields [undefined], which
    arithmetic turns into NaN. *)
Definition at_ (a : Float32Array) (i : nat) : number := nth i a nan.

(** ** Constants of [Main] (lines 16-22, 199-200) *)

Definition RAD : number := JSNum.Math_PI / 180.
Definition COLOR_AMBIENT_LIGHT : Float32Array := newFloat32Array [0.2; 0.2; 0.2; 1.0].
Definition COLOR_DIRECTIONAL_LIGHT : Float32Array := newFloat32Array [0.8; 0.8; 0.8; 1.0].
Definition cubeRange : number := 100.
Definition pi2 : number := JSNum.Math_PI * 2.

(** ** Heap operations on the pool *)

(** [Math.random()]. *)
Definition Math_random : JS Pool number :=
  fun p => (Normal (randomValues p (randomDrawn p)),
            set_randomDrawn (S (randomDrawn p)) p).

(** [new VertexUniform()]: the new object is the last one constructed. *)
Definition VertexUniform_new : JS Pool Ref :=
  fun p => (Normal (length (uniforms p)),
            set_uniforms (uniforms p ++ [newVertexUniform]) p).

(** Modelled from the spec: [VertexUniform.createBuffer(gpu)]
    ([project/VertexUniform] is not in [src/]) allocates one GPU buffer and
    keeps its handle in the object. *)
Definition createBuffer (u : Ref) : JS Pool unit :=
  fun p => (Normal tt,
            set_gpuBuffers (S (gpuBuffers p))
              (set_uniforms (alter (with_buffer (Some (gpuBuffers p))) u (uniforms p)) p)).

(** A property write [u.f = v] through a reference that may be [null]. A
    reference that is not [null] is the index of a constructed object. *)
Definition writeUniform (u : option Ref) (f : VertexUniform -> VertexUniform)
  : JS Pool unit :=
  match u with
  | None => throw TypeError
  | Some i => modify (fun p => set_uniforms (alter f i (uniforms p)) p)
  end.

(** ** [Main.resetInstance] (lines 183-227) *)

(** Lines 185-190: every object's [vertexUniform] is pushed on the free
    list. The objects themselves, whose field is then set to [null] and whose
    array entry to [undefined], are dropped with the array at line 202. *)
Fixpoint releaseLoop (objs : list SceneObject) (free : list (option Ref))
  : list (option Ref) :=
  match objs with
  | [] => free
  | obj :: rest => releaseLoop rest (free ++ [vertexUniform obj])
  end.

(** Line 221: the arguments of [RGB.createFromHSV], from [obj.x] and
    [obj.z]. *)
Definition hueArg (x z : number) : number :=
  Math_atan2 z x / RAD.

Definition saturationArg (x z : number) : number :=
  0.8 * PrimFloat.sqrt (x * x + z * z) / (cubeRange / 2).

(** Lines 221-222: the array assigned to [vertexUniform.baseColor]. *)
Definition placementColor (x z : number) : Float32Array :=
  let color := createFromHSV (hueArg x z) (saturationArg x z) 0.9 in
  newFloat32Array [r color; g color; b color; 1.0].

Definition instanceColor (obj : SceneObject) : Float32Array :=
  placementColor (x obj) (z obj).

(** Lines 204-225: one iteration of the second loop. *)
Definition buildInstance (cubeScale : number) : JS Pool unit :=
  let obj := with_scale cubeScale newSceneObject in
  rx ← Math_random;
  ry ← Math_random;
  rz ← Math_random;
  let obj := with_position ((rx - 0.5) * cubeRange) ((ry - 0.5) * cubeRange)
               ((rz - 0.5) * cubeRange) obj in
  rrx ← Math_random;
  let obj := with_rotationX (rrx * pi2) obj in
  rrz ← Math_random;
  let obj := with_rotationZ (rrz * pi2) obj in
  p ← get;
  vertexUniform ←
    match cubeUniformList p with
    | u :: rest => modify (set_cubeUniformList rest);; mret u
    | [] => u ← VertexUniform_new; createBuffer u;; mret (Some u)
    end;
  let obj := with_vertexUniform vertexUniform obj in
  writeUniform vertexUniform (with_baseColor (instanceColor obj));;
  writeUniform vertexUniform (with_ambientLightColor COLOR_AMBIENT_LIGHT);;
  writeUniform vertexUniform (with_directionalLightColor COLOR_DIRECTIONAL_LIGHT);;
  modify (fun p => set_cubeList (cubeList p ++ [obj]) p).

(** Lines 203-226: [for (i = 0; i < this.cubeNum; i++)]; the body does not
    use [i]. *)
Fixpoint buildLoop (n : nat) (cubeScale : number) : JS Pool unit :=
  match n with
  | O => mret tt
  | S k => buildInstance cubeScale;; buildLoop k cubeScale
  end.

Definition resetInstance : JS Pool unit :=
  modify (fun p => set_cubeUniformList (releaseLoop (cubeList p) (cubeUniformList p)) p);;
  p ← get;
  let cubeScale := if useModel p then 4.0 else 2.0 in
  modify (set_cubeList []);;
  buildLoop (cubeNum p) cubeScale.

(** ** The state of [Main] while it renders *)

Record World : Type := {
  pool : Pool;
  lightHelper : SceneObject;
  cube : Primitive;
  model : Primitive;
  camera : Camera;
  cubeRenderPipelineState : WebGPURenderPipelineState;
  lightHelperRenderPipelineState : WebGPURenderPipelineState;
  renderPassDescriptor : WebGPURenderPassDescriptor;
  time : number;
  (** the command buffers committed to [this.commandQueue], oldest first *)
  committed : list WebGPUCommandBuffer;
  (** the callbacks registered with [requestAnimationFrame] and not yet run *)
  animationFrameRequests : nat
}.

Definition set_pool (v : Pool) (w : World) : World :=
  {| pool := v; lightHelper := lightHelper w; cube := cube w; model := model w;
     camera := camera w; cubeRenderPipelineState := cubeRenderPipelineState w;
     lightHelperRenderPipelineState := lightHelperRenderPipelineState w;
     renderPassDescriptor := renderPassDescriptor w; time := time w;
     committed := committed w; animationFrameRequests := animationFrameRequests w |}.

Definition set_lightHelper (v : SceneObject) (w : World) : World :=
  {| pool := pool w; lightHelper := v; cube := cube w; model := model w;
     camera := camera w; cubeRenderPipelineState := cubeRenderPipelineState w;
     lightHelperRenderPipelineState := lightHelperRenderPipelineState w;
     renderPassDescriptor := renderPassDescriptor w; time := time w;
     committed := committed w; animationFrameRequests := animationFrameRequests w |}.

Definition set_camera (v : Camera) (w : World) : World :=
  {| pool := pool w; lightHelper := lightHelper w; cube := cube w; model := model w;
     camera := v; cubeRenderPipelineState := cubeRenderPipelineState w;
     lightHelperRenderPipelineState := lightHelperRenderPipelineState w;
     renderPassDescriptor := renderPassDescriptor w; time := time w;
     committed := committed w; animationFrameRequests := animationFrameRequests w |}.

Definition set_renderPassDescriptor (v : WebGPURenderPassDescriptor) (w : World) : World :=
  {| pool := pool w; lightHelper := lightHelper w; cube := cube w; model := model w;
     camera := camera w; cubeRenderPipelineState := cubeRenderPipelineState w;
     lightHelperRenderPipelineState := lightHelperRenderPipelineState w;
     renderPassDescriptor := v; time := time w;
     committed := committed w; animationFrameRequests := animationFrameRequests w |}.

Definition set_time (v : number) (w : World) : World :=
  {| pool := pool w; lightHelper := lightHelper w; cube := cube w; model := model w;
     camera := camera w; cubeRenderPipelineState := cubeRenderPipelineState w;
     lightHelperRenderPipelineState := lightHelperRenderPipelineState w;
     renderPassDescriptor := renderPassDescriptor w; time := v;
     committed := committed w; animationFrameRequests := animationFrameRequests w |}.

Definition set_committed (v : list WebGPUCommandBuffer) (w : World) : World :=
  {| pool := pool w; lightHelper := lightHelper w; cube := cube w; model := model w;
     camera := camera w; cubeRenderPipelineState := cubeRenderPipelineState w;
     lightHelperRenderPipelineState := lightHelperRenderPipelineState w;
     renderPassDescriptor := renderPassDescriptor w; time := time w;
     committed := v; animationFrameRequests := animationFrameRequests w |}.

Definition set_animationFrameRequests (v : nat) (w : World) : World :=
  {| pool := pool w; lightHelper := lightHelper w; cube := cube w; model := model w;
     camera := camera w; cubeRenderPipelineState := cubeRenderPipelineState w;
     lightHelperRenderPipelineState := lightHelperRenderPipelineState w;
     renderPassDescriptor := renderPassDescriptor w; time := time w;
     committed := committed w; animationFrameRequests := v |}.

(** A computation on the pool, run on the world. *)
Definition onPool {A} (c : JS Pool A) : JS World A := zoom pool set_pool c.

(** ** [Main.render] (lines 229-315) *)

(** Line 242: [((this.time + i * 7) / 50 << 0) % 10 === 0]. *)
Definition spinsY (time : number) (i : nat) : bool :=
  (JSNum.remainder (JSNum.shl0 ((time + JSNum.ofNat i * 7) / 50)) 10 =? 0)%Z.

(** Lines 241-247: the body of the animation loop. *)
Definition animate (time : number) (i : nat) (obj : SceneObject) : SceneObject :=
  if spinsY time i
  then with_rotationY (rotationY obj + 0.2) obj
  else with_rotationX (rotationX obj + 0.01) obj.

(** Lines 240-248: the loop, from index [i] on. Every element of
    [cubeList] is an object of its own (line 204), so writing to one leaves
    the others as they are. *)
Fixpoint animateLoop (time : number) (i : nat) (objs : list SceneObject)
  : list SceneObject :=
  match objs with
  | [] => []
  | obj :: rest => animate time i obj :: animateLoop time (S i) rest
  end.

(** [u.buffer] through a reference that may be [null]. *)
Definition uniformBuffer (u : option Ref) : JS Pool (option GPUBuffer) :=
  match u with
  | None => throw TypeError
  | Some i => p ← get; mret (uniforms p !! i ≫= buffer)
  end.

(** Lines 275-288: the draw loop of the first pass; [enc] is what the
    encoder has recorded so far. *)
Fixpoint drawLoop (cameraMatrix : mat4) (lightDirection : Float32Array)
    (geometry : Primitive) (objs : list SceneObject) (enc : list Command)
  : JS Pool (list Command) :=
  match objs with
  | [] => mret enc
  | obj :: rest =>
      let objMMatrix := getModelMtx obj in
      let objectMVPMatrix := mat4_multiply cameraMatrix objMMatrix in
      let vertexUniform := vertexUniform obj in
      writeUniform vertexUniform (with_mvpMatrix objectMVPMatrix);;
      writeUniform vertexUniform (with_modelMatrix objMMatrix);;
      writeUniform vertexUniform (with_directionalLightDirection lightDirection);;
      buf ← uniformBuffer vertexUniform;
      drawLoop cameraMatrix lightDirection geometry rest
        (enc ++ [setVertexBuffer buf 0 1;
                 drawPrimitives WebGPUPrimitiveType.triangle 0 (numVertices geometry)])
  end.

Definition set_loadActions (a : WebGPULoadAction.t) (d : WebGPURenderPassDescriptor)
  : WebGPURenderPassDescriptor :=
  {| color0_texture := color0_texture d;
     color0_loadAction := Some a;
     depth_loadAction := Some a |}.

Definition set_color0_texture (t : Texture) (d : WebGPURenderPassDescriptor)
  : WebGPURenderPassDescriptor :=
  {| color0_texture := Some t;
     color0_loadAction := color0_loadAction d;
     depth_loadAction := depth_loadAction d |}.

(** [render], given what [this.gpu.nextDrawable()] returns in this frame.
    [None] is a failed acquisition: no drawable is returned, and reading
    [drawable.texture] at line 259 throws. *)
Definition render (nextDrawable : option Drawable) : JS World unit :=
  (* lines 233-237 *)
  w ← get;
  let rad := time w / 100 in
  let lightDirection := newFloat32Array [Math_cos rad; 0.4; Math_sin rad] in
  modify (fun w => set_lightHelper
            (with_position (at_ lightDirection 0 * 80) (at_ lightDirection 1 * 80)
               (at_ lightDirection 2 * 80) (lightHelper w)) w);;
  (* lines 239-248 *)
  modify (fun w => set_pool
            (set_cubeList (animateLoop (time w) 0 (cubeList (pool w))) (pool w)) w);;
  (* line 250 *)
  modify (fun w => set_time (time w + 1) w);;
  (* lines 253-254 *)
  modify (fun w => set_camera (upDate 0.1 (camera w)) w);;
  w ← get;
  let cameraMatrix := getCameraMtx (camera w) in
  (* lines 257-259: [drawable.texture] throws when there is no drawable *)
  drawable ← match nextDrawable with
             | Some d => mret d
             | None => throw TypeError
             end;
  modify (fun w => set_renderPassDescriptor
            (set_color0_texture (texture drawable) (renderPassDescriptor w)) w);;
  (* lines 262-273 *)
  modify (fun w => set_renderPassDescriptor
            (set_loadActions WebGPULoadAction.clear (renderPassDescriptor w)) w);;
  w ← get;
  let cubeDescriptor := renderPassDescriptor w in
  let geometry := if useModel (pool w) then model w else cube w in
  (* lines 275-289 *)
  cubeCommands ← onPool
    (drawLoop cameraMatrix lightDirection geometry (cubeList (pool w))
       [setRenderPipelineState (cubeRenderPipelineState w);
        setDepthStencilState;
        setVertexBuffer (Some (vertexBuffer geometry)) 0 0]);
  (* lines 292-297 *)
  modify (fun w => set_renderPassDescriptor
            (set_loadActions WebGPULoadAction.load (renderPassDescriptor w)) w);;
  w ← get;
  let lightHelperDescriptor := renderPassDescriptor w in
  (* lines 299-306 *)
  let lightMMatrix := getModelMtx (lightHelper w) in
  let lightMVPMatrix := mat4_multiply cameraMatrix lightMMatrix in
  onPool (writeUniform (vertexUniform (lightHelper w)) (with_mvpMatrix lightMVPMatrix));;
  buf ← onPool (uniformBuffer (vertexUniform (lightHelper w)));
  let lightHelperCommands :=
    [setRenderPipelineState (lightHelperRenderPipelineState w);
     setDepthStencilState;
     setVertexBuffer (Some (vertexBuffer (cube w))) 0 0;
     setVertexBuffer buf 0 1;
     drawPrimitives WebGPUPrimitiveType.linestrip 0 (numVertices (cube w))] in
  (* lines 309-310 *)
  modify (fun w => set_committed
            (committed w ++
               [{| passes := [{| descriptor := cubeDescriptor; commands := cubeCommands |};
                              {| descriptor := lightHelperDescriptor;
                                 commands := lightHelperCommands |}];
                   presented := drawable |}]) w);;
  (* line 314 *)
  modify (fun w => set_animationFrameRequests (S (animationFrameRequests w)) w).

(** ** [Main.init] (lines 52-181) *)

(** What the browser presents to [init]. *)
Record Env : Type := {
  (** ['WebGPURenderingContext' in window] *)
  hasWebGPU : bool;
  (** [document.body.className] when the page has loaded *)
  bodyClassName : string;
  (** [panel.num] and [panel.useModel] of a new [GUIPanel] *)
  panelNum : nat;
  panelUseModel : bool;
  isIPhone : bool;
  (** whether [fetch('shader/defaultShader.metal')] is fulfilled *)
  shaderFetched : bool;
  (** [this.gpu.createLibrary(shader)]: the names of the functions of the
      library, [None] when there is no library *)
  shaderLibrary : option (list string);
  (** the vertex count of [Cube] *)
  cubeVertices : nat;
  (** [this.model.loadModel(...)]: the vertex count of the loaded mesh,
      [None] when the promise is rejected *)
  loadedModelVertices : option nat;
  (** the values [Math.random()] returns *)
  random : nat -> number;
  (** what [nextDrawable()] returns in the call of [render] at line 180 *)
  firstDrawable : option Drawable
}.

(** What [init] shows on the page: the class of [document.body], the
    [Stats] panel (line 61) and the GUI (line 64). *)
Record Page : Type := {
  className : string;
  statsShown : bool;
  guiShown : bool
}.

(** How [init] ends: before line 180, by [return] or by a rejected
    promise, or with [render] called. *)
Inductive InitOutcome : Type :=
| Aborted (rejected : bool)
| Running (w : World).

(** [library.functionWithName(name)]. *)
Definition functionWithName (library : list string) (name : string) : option string :=
  if decide (name ∈ library) then Some name else None.

(** Modelled from the spec: [Primitive.createBuffer(gpu)] of [Cube] and
    [GLTF] (not in [src/]) makes the geometry's vertex buffer. *)
Definition Primitive_createBuffer (vertices : nat) : JS Pool Primitive :=
  fun p => (Normal {| vertexBuffer := gpuBuffers p; numVertices := vertices |},
            set_gpuBuffers (S (gpuBuffers p)) p).

(** Lines 149-162. *)
Definition initObjects (vertices : nat) : JS Pool (Primitive * SceneObject) :=
  cube ← Primitive_createBuffer vertices;
  (* lines 152-154: the lists are empty, see [init] *)
  resetInstance;;
  let lightHelper := with_rotationX (45 * RAD) newSceneObject in
  let lightHelper := with_rotationZ (45 * RAD) lightHelper in
  vertexUniform ← VertexUniform_new;
  createBuffer vertexUniform;;
  let lightHelper := with_vertexUniform (Some vertexUniform) lightHelper in
  writeUniform (Some vertexUniform) (with_baseColor COLOR_DIRECTIONAL_LIGHT);;
  mret (cube, lightHelper).

Definition emptyDescriptor : WebGPURenderPassDescriptor :=
  {| color0_texture := None; color0_loadAction := None; depth_loadAction := None |}.

(** The pool [init] starts from: the two lists of lines 152-153, no
    [VertexUniform] and no GPU buffer made yet. *)
Definition initialPool (env : Env) : Pool :=
  {| useModel := panelUseModel env; cubeNum := panelNum env;
     cubeList := []; cubeUniformList := [];
     uniforms := []; gpuBuffers := 0;
     randomValues := random env; randomDrawn := 0 |}.

(** [init]. The GUI handlers are installed at lines 70-79, before the
    first [await]; the embedding delivers GUI events once [init] has ended. *)
Definition init (env : Env) : Page * InitOutcome :=
  if negb (hasWebGPU env) then
    (* lines 54-57 *)
    ({| className := "error"; statsShown := false; guiShown := false |}, Aborted false)
  else
    let page := {| className := bodyClassName env; statsShown := true; guiShown := true |} in
    if negb (shaderFetched env) then (page, Aborted true) else
    match shaderLibrary env with
    | None => (* line 99: [library.functionWithName] on no library *)
        (page, Aborted true)
    | Some library =>
        match functionWithName library "vertex_main",
              functionWithName library "vertex_main2",
              functionWithName library "fragment_main" with
        | Some vertexFunction, Some vertexFunction2, Some fragmentFunction =>
            match initObjects (cubeVertices env) (initialPool env) with
            | (Throw _, _) => (page, Aborted true)
            | (Normal (cube, lightHelper), p) =>
                match loadedModelVertices env with
                | None => (* line 165 *)
                    (page, Aborted true)
                | Some vertices =>
                    match Primitive_createBuffer vertices p with
                    | (Throw _, _) => (page, Aborted true)
                    | (Normal model, p') =>
                        let w :=
                          {| pool := p'; lightHelper := lightHelper; cube := cube;
                             model := model;
                             camera := newCamera (isIPhone env);
                             cubeRenderPipelineState :=
                               {| vertexFunction := vertexFunction;
                                  fragmentFunction := fragmentFunction |};
                             lightHelperRenderPipelineState :=
                               {| vertexFunction := vertexFunction2;
                                  fragmentFunction := fragmentFunction |};
                             renderPassDescriptor := emptyDescriptor;
                             time := 0;
                             committed := [];
                             animationFrameRequests := 0 |} in
                        (* line 180 *)
                        (page, Running (snd (render (firstDrawable env) w)))
                    end
                end
            end
        | _, _, _ => (* lines 103-105 *)
            (page, Aborted false)
        end
    end.

(** ** The events after [init] *)

Inductive Event : Type :=
| num_onFinishChange (value : nat)          (* lines 70-73 *)
| useModel_onFinishChange (value : bool)    (* lines 76-79 *)
| animationFrame (nextDrawable : option Drawable).

(** The browser runs one handler at a time, each to its end. An exception
    ends the handler; what it had written stays. An animation frame runs
    one registered callback, if there is one. *)
Definition dispatch (w : World) (e : Event) : World :=
  match e with
  | num_onFinishChange value =>
      snd (onPool resetInstance (set_pool (set_cubeNum value (pool w)) w))
  | useModel_onFinishChange value =>
      snd (onPool resetInstance (set_pool (set_useModel value (pool w)) w))
  | animationFrame nextDrawable =>
      match animationFrameRequests w with
      | O => w
      | S k => snd (render nextDrawable (set_animationFrameRequests k w))
      end
  end.

Definition dispatchAll (events : list Event) (w : World) : World :=
  foldl dispatch w events.

(** The program from page load on: [init], then the events. Where [init]
    ended before line 180 no handler can reach [render]. *)
Definition run (env : Env) (events : list Event) : Page * InitOutcome :=
  match init env with
  | (page, Running w) => (page, Running (dispatchAll events w))
  | (page, Aborted rejected) => (page, Aborted rejected)
  end.

(** What an outcome has committed to the GPU, and whether a frame callback
    is pending. *)
Definition framesOf (o : InitOutcome) : list WebGPUCommandBuffer :=
  match o with
  | Running w => committed w
  | Aborted _ => []
  end.

Definition renderEntered (o : InitOutcome) : bool :=
  match o with
  | Running _ => true
  | Aborted _ => false
  end.

End Program.

(** ** What the specification asks of the pool *)

Section Predicates.
Context `{Platform}.

(** The [VertexUniform] each live object is bound to, in pool order. *)
Definition liveRefs (p : Pool) : list (option Ref) := map vertexUniform (cubeList p).

(** Every [VertexUniform] constructed so far. *)
Definition allRefs (p : Pool) : list (option Ref) :=
  map Some (seq 0 (length (uniforms p))).

(** The live bindings, the free list and the bindings held outside the
    pool ([others]) list every [VertexUniform] ever constructed exactly once,
    and nothing else: in particular none of them is [null]. *)
Definition partitioned (others : list (option Ref)) (p : Pool) : Prop :=
  liveRefs p ++ cubeUniformList p ++ others ≡ₚ allRefs p.

(** The base colour held by the [VertexUniform] that [obj] is bound to,
    among the [VertexUniform]s [us]. *)
Definition baseColorOf (us : list VertexUniform) (obj : SceneObject)
  : option Float32Array :=
  i ← vertexUniform obj; u ← us !! i; Some (baseColor u).

(** Every live object's [VertexUniform] holds the colour of lines 221-222
    for the object's own [x] and [z]. *)
Definition coloured (p : Pool) : Prop :=
  Forall (fun obj => baseColorOf (uniforms p) obj = Some (instanceColor obj))
    (cubeList p).

Definition consistent (w : World) : Prop :=
  partitioned [vertexUniform (lightHelper w)] (pool w) /\ coloured (pool w).

(** [p'] is [p] after [n] iterations of the second loop of
    [resetInstance]: [n] more live objects, taken from the free list as long
    as it lasts and constructed after that. *)
Definition built (others : list (option Ref)) (n : nat) (p p' : Pool) : Prop :=
  partitioned others p' /\
  length (cubeList p') = length (cubeList p) + n /\
  length (cubeUniformList p') = length (cubeUniformList p) - n /\
  length (uniforms p') = length (uniforms p) + (n - length (cubeUniformList p)) /\
  gpuBuffers p' = gpuBuffers p + (n - length (cubeUniformList p)) /\
  useModel p' = useModel p /\ cubeNum p' = cubeNum p /\
  randomValues p' = randomValues p /\
  (coloured p -> coloured p').

(** What a frame may rewrite in a [VertexUniform]: the two matrices and
    the light direction. The buffer and the three colours stay. *)
Definition sameStatic (u u' : VertexUniform) : Prop :=
  buffer u' = buffer u /\ baseColor u' = baseColor u /\
  ambientLightColor u' = ambientLightColor u /\
  directionalLightColor u' = directionalLightColor u.

(** Two pools with the same objects, free list, buffers and random
    source, and the same [VertexUniform]s up to what a frame rewrites. *)
Definition sameSlots (p p' : Pool) : Prop :=
  useModel p' = useModel p /\ cubeNum p' = cubeNum p /\
  cubeList p' = cubeList p /\ cubeUniformList p' = cubeUniformList p /\
  gpuBuffers p' = gpuBuffers p /\
  randomValues p' = randomValues p /\ randomDrawn p' = randomDrawn p /\
  Forall2 sameStatic (uniforms p) (uniforms p').

(** Line 234. *)
Definition lightDirectionAt (t : number) : Float32Array :=
  newFloat32Array [Math_cos (t / 100); 0.4; Math_sin (t / 100)]%float.

(** The world after lines 233-254 of [render]. *)
Definition updated (w : World) : World :=
  let lightDirection := lightDirectionAt (time w) in
  set_camera (upDate 0.1 (camera w))
    (set_time (time w + 1)
       (set_pool (set_cubeList (animateLoop (time w) 0 (cubeList (pool w))) (pool w))
          (set_lightHelper
             (with_position (at_ lightDirection 0 * 80) (at_ lightDirection 1 * 80)
                (at_ lightDirection 2 * 80) (lightHelper w)) w)))%float.

(** [u.buffer] for the [VertexUniform] an object is bound to. *)
Definition bufferOf (us : list VertexUniform) (obj : SceneObject) : option GPUBuffer :=
  i ← vertexUniform obj; u ← us !! i; buffer u.

(** Lines 285-287: what the first pass records for one object. *)
Definition instanceCommands (us : list VertexUniform) (geometry : Primitive)
    (obj : SceneObject) : list Command :=
  [setVertexBuffer (bufferOf us obj) 0 1;
   drawPrimitives WebGPUPrimitiveType.triangle 0 (numVertices geometry)].

(** The load actions a pass was encoded with: colour, depth. *)
Definition loadActionsOf (pass : RenderPass)
  : option WebGPULoadAction.t * option WebGPULoadAction.t :=
  (color0_loadAction (descriptor pass), depth_loadAction (descriptor pass)).

(** A command buffer of two passes, the first encoded with [clear] for
    colour and depth, the second with [load] for both. *)
Definition clearsThenLoads (cb : WebGPUCommandBuffer) : Prop :=
  exists pass1 pass2,
    passes cb = [pass1; pass2] /\
    loadActionsOf pass1 = (Some WebGPULoadAction.clear, Some WebGPULoadAction.clear) /\
    loadActionsOf pass2 = (Some WebGPULoadAction.load, Some WebGPULoadAction.load).

(** A command buffer whose second pass binds the vertex buffer of
    [cube] at index 0, some uniform buffer at index 1, and draws the
    vertices of [cube] as one line strip. *)
Definition helperDrawsCube (cube : Primitive) (cb : WebGPUCommandBuffer) : Prop :=
  exists pass1 pass2 pipeline buf,
    passes cb = [pass1; pass2] /\
    commands pass2 =
      [setRenderPipelineState pipeline;
       setDepthStencilState;
       setVertexBuffer (Some (vertexBuffer cube)) 0 0;
       setVertexBuffer buf 0 1;
       drawPrimitives WebGPUPrimitiveType.linestrip 0 (numVertices cube)].

(** The geometry the first pass binds at index 0. *)
Definition firstPassBinds (geometry : Primitive) (cb : WebGPUCommandBuffer) : Prop :=
  exists pass1 pass2 pipeline rest,
    passes cb = [pass1; pass2] /\
    commands pass1 =
      setRenderPipelineState pipeline :: setDepthStencilState
        :: setVertexBuffer (Some (vertexBuffer geometry)) 0 0 :: rest.

(** Whether [init] gets past its guards and awaits: the API is there,
    the shader is fetched, the library has the three functions, the mesh
    loads. *)
Definition capable (env : Env) : bool :=
  hasWebGPU env && shaderFetched env
  && match shaderLibrary env with
     | Some library =>
         bool_decide ("vertex_main" ∈ library)
         && bool_decide ("vertex_main2" ∈ library)
         && bool_decide ("fragment_main" ∈ library)
     | None => false
     end
  && bool_decide (is_Some (loadedModelVertices env)).


(** What holds of the world of a running program after every event. *)
Definition runInvariant (env : Env) (w : World) : Prop :=
  consistent w /\
  animationFrameRequests w <= 1 /\
  length (cubeList (pool w)) = cubeNum (pool w) /\
  cube w = {| vertexBuffer := 0; numVertices := cubeVertices env |} /\
  vertexBuffer (model w) <> vertexBuffer (cube w) /\
  Forall clearsThenLoads (committed w) /\
  Forall (helperDrawsCube (cube w)) (committed w).

(** The pool holds exactly [N] live objects, each bound to a
    [VertexUniform], no two to the same one, and none to the light
    helper's. *)
Definition exactlyBound (N : nat) (w : World) : Prop :=
  length (cubeList (pool w)) = N /\
  Forall (fun obj => is_Some (vertexUniform obj)) (cubeList (pool w)) /\
  (forall i j oi oj,
      i <> j ->
      cubeList (pool w) !! i = Some oi -> cubeList (pool w) !! j = Some oj ->
      vertexUniform oi <> vertexUniform oj) /\
  (forall obj, obj ∈ cubeList (pool w) ->
      vertexUniform obj <> vertexUniform (lightHelper w)).

(** Two objects that differ at most in [rotationX] and [rotationY]. *)
Definition samePlacement (o o' : SceneObject) : Prop :=
  x o' = x o /\ y o' = y o /\ z o' = z o /\ rotationZ o' = rotationZ o /\
  scaleX o' = scaleX o /\ scaleY o' = scaleY o /\ scaleZ o' = scaleZ o /\
  vertexUniform o' = vertexUniform o.

(** A start-up failure: the API is absent, or the library lacks one of
    the three shader functions. *)
Definition startupFailure (env : Env) : Prop :=
  hasWebGPU env = false \/
  exists library name,
    shaderLibrary env = Some library /\
    name ∈ ["vertex_main"; "vertex_main2"; "fragment_main"]%string /\
    name ∉ library.

(** The specification's reading of start-up failures: each one makes
    [init] show the error class on the page and never call [render]. *)
Definition reportsStartupFailure : Prop :=
  forall env,
    startupFailure env ->
    className (fst (init env)) = "error"%string /\
    renderEntered (snd (init env)) = false.

(** The specification's reading of a failed drawable acquisition: with a
    frame callback pending, a frame without a drawable leaves a callback
    pending, and the next frame with a drawable is rendered. *)
Definition absorbsAcquisitionFailure : Prop :=
  forall env events w,
    snd (run env events) = Running w ->
    animationFrameRequests w = 1 ->
    let w' := dispatch w (animationFrame None) in
    animationFrameRequests w' = 1 /\
    forall d, length (committed (dispatch w' (animationFrame (Some d))))
              = S (length (committed w')).

(** The live objects and the free list after [i] iterations of the first
    loop of [resetInstance] (the first [i] entries of [cubeList] are
    [undefined] by then), and after the whole loop and line 202. *)
Definition duringRelease (i : nat) (p : Pool) : Pool :=
  set_cubeList (drop i (cubeList p))
    (set_cubeUniformList (releaseLoop (take i (cubeList p)) (cubeUniformList p)) p).

Definition afterRelease (p : Pool) : Pool :=
  set_cubeList []
    (set_cubeUniformList (releaseLoop (cubeList p) (cubeUniformList p)) p).



End Predicates.

(** ** A platform and an environment to evaluate the program on

    Stand-ins for the collaborators, chosen to compute; the theorems hold
    for every platform. *)

Definition demoPlatform : Platform :=
  {| mat4_multiply := fun a b => a ++ b;
     Math_cos := fun v => v;
     Math_sin := fun v => (1 - v)%float;
     Math_atan2 := fun zz xx => (zz - xx)%float;
     fround := fun v => v;
     createFromHSV := fun h s v => {| r := h; g := s; b := v |};
     newSceneObject :=
       {| x := 0; y := 0; z := 0; rotationX := 0; rotationY := 0; rotationZ := 0;
          scaleX := 1; scaleY := 1; scaleZ := 1; vertexUniform := None |};
     getModelMtx := fun o => [x o; y o; z o];
     newVertexUniform :=
       {| buffer := None; mvpMatrix := []; modelMatrix := [];
          baseColor := []; ambientLightColor := []; directionalLightColor := [];
          directionalLightDirection := [] |};
     Camera := nat;
     newCamera := fun _ => O;
     upDate := fun _ c => S c;
     getCameraMtx := fun c => [JSNum.ofNat c] |}.

Definition demoLibrary : list string :=
  ["vertex_main"; "vertex_main2"; "fragment_main"]%string.

Definition demoEnv (num : nat) (draws : nat -> float) : Env :=
  {| hasWebGPU := true; bodyClassName := EmptyString; panelNum := num; panelUseModel := false;
     isIPhone := false; shaderFetched := true; shaderLibrary := Some demoLibrary;
     cubeVertices := 36; loadedModelVertices := Some 2904;
     random := draws;
     firstDrawable := Some {| texture := 0 |} |}.

(** Draws that cycle through 0, 1/8, ..., 7/8. *)
Definition demoDraws (k : nat) : float := (JSNum.ofNat (k mod 8) / 8)%float.


(** A library without [vertex_main2]. *)
Definition brokenEnv : Env :=
  {| hasWebGPU := true; bodyClassName := EmptyString; panelNum := 2; panelUseModel := false;
     isIPhone := false; shaderFetched := true;
     shaderLibrary := Some ["vertex_main"; "fragment_main"]%string;
     cubeVertices := 36; loadedModelVertices := Some 2904;
     random := demoDraws;
     firstDrawable := Some {| texture := 0 |} |}.

(** A browser without the API. *)
Definition noGPUEnv : Env :=
  {| hasWebGPU := false; bodyClassName := EmptyString; panelNum := 2; panelUseModel := false;
     isIPhone := false; shaderFetched := true; shaderLibrary := Some demoLibrary;
     cubeVertices := 36; loadedModelVertices := Some 2904;
     random := demoDraws;
     firstDrawable := Some {| texture := 0 |} |}.

Definition demoEvents : list Event :=
  [animationFrame (Some {| texture := 1 |});
   num_onFinishChange 5;
   animationFrame (Some {| texture := 2 |});
   useModel_onFinishChange true;
   num_onFinishChange 2;
   animationFrame (Some {| texture := 3 |})].

(** A world with two objects, at frame 343. *)
Definition demoPool : Pool :=
  {| useModel := false; cubeNum := 2;
     cubeList :=
       [ {| x := 10; y := 0; z := -20; rotationX := 1; rotationY := 0;
            rotationZ := 2; scaleX := 2; scaleY := 2; scaleZ := 2;
            vertexUniform := Some 0 |};
         {| x := -30; y := 5; z := 40; rotationX := 3; rotationY := 0.5;
            rotationZ := 4; scaleX := 2; scaleY := 2; scaleZ := 2;
            vertexUniform := Some 1 |} ];
     cubeUniformList := [];
     uniforms := [@newVertexUniform demoPlatform; @newVertexUniform demoPlatform;
                  @newVertexUniform demoPlatform];
     gpuBuffers := 5; randomValues := demoDraws; randomDrawn := 10 |}.

Definition demoWorld : @World demoPlatform :=
  @Build_World demoPlatform
    demoPool
    (with_vertexUniform (Some 2) (@newSceneObject demoPlatform))
    {| vertexBuffer := 0; numVertices := 36 |}
    {| vertexBuffer := 4; numVertices := 2904 |}
    O
    {| vertexFunction := "vertex_main"; fragmentFunction := "fragment_main" |}
    {| vertexFunction := "vertex_main2"; fragmentFunction := "fragment_main" |}
    emptyDescriptor
    343%float
    []
    1.

(** ** The colour arguments over the real numbers

    Line 221 read with exact arithmetic: the same expressions as [hueArg]
    and [saturationArg], over [R] instead of binary64, with the two-argument
    arctangent that [Math.atan2] approximates. *)

Module RealReading.
Import Reals.
Local Open Scope R_scope.

(** The angle of the point [(x, y)], in (-PI, PI]. *)
Definition atan2 (y x : R) : R :=
  if Rlt_dec 0 x then atan (y / x)
  else if Rlt_dec x 0 then
    if Rle_dec 0 y then atan (y / x) + PI else atan (y / x) - PI
  else if Rlt_dec 0 y then PI / 2
  else if Rlt_dec y 0 then - (PI / 2)
  else 0.

Definition RAD : R := PI / 180.
Definition cubeRange : R := 100.

Definition hueArg (x z : R) : R := atan2 z x / RAD.

Definition saturationArg (x z : R) : R :=
  0.8 * sqrt (x * x + z * z) / (cubeRange / 2).


End RealReading.

(** ** What the further properties of the program speak of *)

Section Behaviour.
Context `{Platform}.

Local Open Scope float_scope.

(** Lines 204-210: the object an iteration of the second loop of
    [resetInstance] makes from the five draws that begin at draw [k],
    before line 219 binds it. *)
Definition placedObject (cubeScale : number) (draws : nat -> number) (k : nat)
  : SceneObject :=
  with_rotationZ (draws (4 + k)%nat * pi2)
    (with_rotationX (draws (3 + k)%nat * pi2)
       (with_position ((draws k - 0.5) * cubeRange)
          ((draws (1 + k)%nat - 0.5) * cubeRange)
          ((draws (2 + k)%nat - 0.5) * cubeRange)
          (with_scale cubeScale newSceneObject))).

(** The objects made from the draws that begin at [d], five apiece, bound
    to [refs] in order. *)
Definition placedObjects (cubeScale : number) (draws : nat -> number) (d : nat)
    (refs : list (option Ref)) : list SceneObject :=
  imap (fun k u => with_vertexUniform u (placedObject cubeScale draws (d + 5 * k)))
    refs.

(** The first [n] slots a pool hands out: its free list from the head,
    then [VertexUniform]s constructed for the purpose. *)
Definition slotSupply (p : Pool) (n : nat) : list (option Ref) :=
  take n (cubeUniformList p
          ++ map Some (seq (length (uniforms p)) (n - length (cubeUniformList p)))).

(** An object with the same scale [s] along the three axes. *)
Definition scaledBy (s : number) (obj : SceneObject) : Prop :=
  scaleX obj = s /\ scaleY obj = s /\ scaleZ obj = s.

(** Line 193-197. *)
Definition cubeScaleOf (useModel : bool) : number := if useModel then 4.0 else 2.0.

(** The GPU buffers in use: the vertex buffers [reserved] of the
    geometries and the buffer of every [VertexUniform]. Each exists, has been
    created through [this.gpu], and is used once. *)
Definition buffersInUse (reserved : list GPUBuffer) (p : Pool) : list (option GPUBuffer) :=
  map Some reserved ++ map buffer (uniforms p).

Definition buffersDistinct (reserved : list GPUBuffer) (p : Pool) : Prop :=
  NoDup (buffersInUse reserved p) /\
  Forall (fun b => exists h, b = Some h /\ h < gpuBuffers p) (buffersInUse reserved p).

(** What [nextDrawable()] returned in the frames among [events]. *)
Definition ticksOf (events : list Event) : list (option Drawable) :=
  omap (fun e => match e with
                 | animationFrame d => Some d
                 | _ => None
                 end) events.

(** The drawables acquired up to the first failed acquisition. *)
Fixpoint acquired (ticks : list (option Drawable)) : list Drawable :=
  match ticks with
  | Some d :: rest => d :: acquired rest
  | _ => []
  end.

(** Both passes of a command buffer render into the texture of the
    drawable it presents. *)
Definition targetsPresented (cb : WebGPUCommandBuffer) : Prop :=
  Forall (fun pass => color0_texture (descriptor pass) = Some (texture (presented cb)))
    (passes cb).

(** The [VertexUniform] of [obj] holds the matrices of [obj] under the
    camera matrix [cameraMatrix], and the light direction [lightDirection]. *)
Definition holdsMatricesOf (us : list VertexUniform) (cameraMatrix : mat4)
    (lightDirection : Float32Array) (obj : SceneObject) : Prop :=
  exists i u,
    vertexUniform obj = Some i /\ us !! i = Some u /\
    modelMatrix u = getModelMtx obj /\
    mvpMatrix u = mat4_multiply cameraMatrix (getModelMtx obj) /\
    directionalLightDirection u = lightDirection.

(** The light helper as lines 156-162 make it: a new [SceneObject] turned
    by 45 degrees about X and about Z, bound to a [VertexUniform] whose base
    colour is the colour of the light. [Main] writes only [mvpMatrix] to that
    [VertexUniform] afterwards: [modelMatrix], the two light colours and the
    light direction are those of a new [VertexUniform] ([createBuffer], as
    modelled, sets [buffer] alone). *)
Definition helperAsMade (w : World) : Prop :=
  rotationX (lightHelper w) = 45 * RAD /\
  rotationZ (lightHelper w) = 45 * RAD /\
  rotationY (lightHelper w) = rotationY newSceneObject /\
  scaleX (lightHelper w) = scaleX newSceneObject /\
  scaleY (lightHelper w) = scaleY newSceneObject /\
  scaleZ (lightHelper w) = scaleZ newSceneObject /\
  exists i u,
    vertexUniform (lightHelper w) = Some i /\ uniforms (pool w) !! i = Some u /\
    baseColor u = COLOR_DIRECTIONAL_LIGHT /\
    modelMatrix u = modelMatrix newVertexUniform /\
    ambientLightColor u = ambientLightColor newVertexUniform /\
    directionalLightColor u = directionalLightColor newVertexUniform /\
    directionalLightDirection u = directionalLightDirection newVertexUniform.

(** Lines 99-119 and 163-167: the two pipelines by the names of their
    shader functions, and the vertex counts of the two geometries. *)
Definition cubePipeline : WebGPURenderPipelineState :=
  {| vertexFunction := "vertex_main"; fragmentFunction := "fragment_main" |}.

Definition lightHelperPipeline : WebGPURenderPipelineState :=
  {| vertexFunction := "vertex_main2"; fragmentFunction := "fragment_main" |}.

Definition wired (env : Env) (w : World) : Prop :=
  cubeRenderPipelineState w = cubePipeline /\
  lightHelperRenderPipelineState w = lightHelperPipeline /\
  numVertices (cube w) = cubeVertices env /\
  loadedModelVertices env = Some (numVertices (model w)).

(** Lines 285-287 for an object whose uniform buffer is [b]. *)
Definition instanceDraw (geometry : Primitive) (b : GPUBuffer) : list Command :=
  [setVertexBuffer (Some b) 0 1;
   drawPrimitives WebGPUPrimitiveType.triangle 0 (numVertices geometry)].

(** A command buffer as [render] encodes it in a running program: the
    first pass, with the pipeline of [vertex_main], binds one of the two
    geometries and draws it once per uniform buffer of [bufs]; the second,
    with the pipeline of [vertex_main2], draws the cube as a line strip with
    the light helper's uniform buffer. No buffer is bound for two purposes:
    the two vertex buffers, the helper's uniform buffer and the uniform
    buffers of the instances are pairwise distinct. *)
Definition wellEncoded (cube model : Primitive) (cb : WebGPUCommandBuffer) : Prop :=
  exists geometry bufs helperBuf descriptor1 descriptor2,
    (geometry = cube \/ geometry = model) /\
    passes cb =
      [{| descriptor := descriptor1;
          commands :=
            [setRenderPipelineState cubePipeline;
             setDepthStencilState;
             setVertexBuffer (Some (vertexBuffer geometry)) 0 0]
            ++ flat_map (instanceDraw geometry) bufs |};
       {| descriptor := descriptor2;
          commands :=
            [setRenderPipelineState lightHelperPipeline;
             setDepthStencilState;
             setVertexBuffer (Some (vertexBuffer cube)) 0 0;
             setVertexBuffer (Some helperBuf) 0 1;
             drawPrimitives WebGPUPrimitiveType.linestrip 0 (numVertices cube)] |}] /\
    NoDup (vertexBuffer cube :: vertexBuffer model :: helperBuf :: bufs).

(** What holds of the world of a running program after every event,
    beyond [runInvariant]. *)
Definition keptInvariant (env : Env) (w : World) : Prop :=
  helperAsMade w /\
  buffersDistinct [vertexBuffer (cube w); vertexBuffer (model w)] (pool w) /\
  wired env w /\
  Forall (wellEncoded (cube w) (model w)) (committed w) /\
  Forall targetsPresented (committed w).

Definition behaviourInvariant (env : Env) (w : World) : Prop :=
  Forall (scaledBy (cubeScaleOf (useModel (pool w)))) (cubeList (pool w)) /\
  keptInvariant env w.

(** The settings the GUI has asked for: those of the panel ([first]), or
    the value of the last change since. *)
Definition cubeNumAfter (first : nat) (events : list Event) : nat :=
  foldl (fun n e => match e with
                    | num_onFinishChange value => value
                    | _ => n
                    end) first events.

Definition useModelAfter (first : bool) (events : list Event) : bool :=
  foldl (fun m e => match e with
                    | useModel_onFinishChange value => value
                    | _ => m
                    end) first events.

(** The frame callbacks pending after the frames [ticks]: one as long as
    every frame has acquired its drawable, none from the first failure on. *)
Definition pendingAfter (ticks : list (option Drawable)) : nat :=
  if bool_decide (Forall is_Some ticks) then 1 else 0.

(** Whether [init] ends in a rejected promise rather than by [return] or
    in [render]: the API is there, and the shader cannot be fetched, or
    there is no library (line 99 throws), or the library has the three
    functions and the mesh cannot be loaded. *)
Definition rejects (env : Env) : bool :=
  hasWebGPU env
  && (negb (shaderFetched env)
      || match shaderLibrary env with
         | None => true
         | Some library =>
             bool_decide ("vertex_main" ∈ library)
             && bool_decide ("vertex_main2" ∈ library)
             && bool_decide ("fragment_main" ∈ library)
             && negb (bool_decide (is_Some (loadedModelVertices env)))
         end).

(** [o'] is placed as [o]: the same position, rotation about Z and
    scale. The rotations about X and Y are what frames change. *)
Definition placedAs (o o' : SceneObject) : Prop :=
  x o' = x o /\ y o' = y o /\ z o' = z o /\ rotationZ o' = rotationZ o /\
  scaleX o' = scaleX o /\ scaleY o' = scaleY o /\ scaleZ o' = scaleZ o.

(** The live objects are those of the last rebuild: the object at index
    [k] is placed as the last [5 * cubeNum] draws made place it, five draws
    apiece. *)
Definition placedFromDraws (p : Pool) : Prop :=
  5 * cubeNum p <= randomDrawn p /\
  forall k obj,
    cubeList p !! k = Some obj ->
    placedAs (placedObject (cubeScaleOf (useModel p)) (randomValues p)
                (randomDrawn p - 5 * cubeNum p + 5 * k))
      obj.

(** The number of objects the rebuilds among [events] make, [num] being
    [cubeNum] before them: each change of the slider or of the checkbox
    rebuilds the pool at the count then set. *)
Fixpoint builtAfter (num : nat) (events : list Event) : nat :=
  match events with
  | [] => 0
  | num_onFinishChange value :: rest => value + builtAfter value rest
  | useModel_onFinishChange _ :: rest => num + builtAfter num rest
  | animationFrame _ :: rest => builtAfter num rest
  end.

(** The number of calls of [render] made for the frames [ticks]: one per
    frame up to and including the first one without a drawable. *)
Fixpoint framesEntered (ticks : list (option Drawable)) : nat :=
  match ticks with
  | [] => 0
  | Some _ :: rest => S (framesEntered rest)
  | None :: _ => 1
  end.

(** Lines 223-224: the [VertexUniform] of [obj] holds the two light
    colours of [Main]. *)
Definition litAs (us : list VertexUniform) (obj : SceneObject) : Prop :=
  exists i u,
    vertexUniform obj = Some i /\ us !! i = Some u /\
    ambientLightColor u = COLOR_AMBIENT_LIGHT /\
    directionalLightColor u = COLOR_DIRECTIONAL_LIGHT.

Definition lit (p : Pool) : Prop := Forall (litAs (uniforms p)) (cubeList p).

End Behaviour.

(** * Proofs *)

(** ** The embedding on concrete values *)

Example ToInt32_truncates : JSNum.ToInt32 12345.9 = 12345%Z.
Proof. by vm_compute. Qed.

Example ToInt32_truncates_towards_zero : JSNum.ToInt32 (-12345.9) = (-12345)%Z.
Proof. by vm_compute. Qed.

Example ToInt32_wraps : JSNum.ToInt32 4294967297.5 = 1%Z.
Proof. by vm_compute. Qed.

Example ToInt32_wraps_to_negative : JSNum.ToInt32 2147483648 = (-2147483648)%Z.
Proof. by vm_compute. Qed.

Example ToInt32_of_nan : JSNum.ToInt32 nan = 0%Z.
Proof. by vm_compute. Qed.

(** Line 242 at frames 0, 49, 50 and 500 for the first object, and at
    frame 343 for the second. *)
Example spinsY_frame_0 : spinsY 0 0 = true.
Proof. by vm_compute. Qed.

Example spinsY_frame_49 : spinsY 49 0 = true.
Proof. by vm_compute. Qed.

Example spinsY_frame_50 : spinsY 50 0 = false.
Proof. by vm_compute. Qed.

Example spinsY_frame_500 : spinsY 500 0 = true.
Proof. by vm_compute. Qed.

Example spinsY_frame_343_second : spinsY 343 1 = false.
Proof. by vm_compute. Qed.

Example init_without_API :
  @init demoPlatform noGPUEnv
    = ({| className := "error"; statsShown := false; guiShown := false |},
       Aborted false).
Proof. reflexivity. Qed.

Example init_without_vertex_main2 :
  @init demoPlatform brokenEnv
    = ({| className := EmptyString; statsShown := true; guiShown := true |}, Aborted false).
Proof. reflexivity. Qed.

(** The rebuild of [init] for three instances, then the first frame: three
    live objects bound to the first three [VertexUniform]s, the light helper
    to the fourth, one command buffer committed, one callback pending. *)
Example init_three_instances :
  match snd (@init demoPlatform (demoEnv 3 demoDraws)) with
  | Running w =>
      map vertexUniform (cubeList (pool w)) = [Some 0; Some 1; Some 2] /\
      cubeUniformList (pool w) = [] /\
      vertexUniform (lightHelper w) = Some 3 /\
      length (uniforms (pool w)) = 4 /\
      length (committed w) = 1 /\
      animationFrameRequests w = 1
  | Aborted _ => False
  end.
Proof. by vm_compute. Qed.

(** Shrinking to one instance, then growing to two: the free list is
    taken from its head, in the order the slots were released. *)
Example shrink_then_grow :
  match snd (@run demoPlatform (demoEnv 3 demoDraws)
               [num_onFinishChange 1; num_onFinishChange 2]) with
  | Running w =>
      map vertexUniform (cubeList (pool w)) = [Some 1; Some 2] /\
      cubeUniformList (pool w) = [Some 0] /\
      length (uniforms (pool w)) = 4
  | Aborted _ => False
  end.
Proof. by vm_compute. Qed.

Ltac js_unfold :=
  unfold mbind, mret, JS_bind, JS_ret, bind, ret, modify, get, throw, zoom in *.

Section PoolProofs.
Context `{Platform}.

Lemma releaseLoop_app objs free :
  releaseLoop objs free = free ++ map vertexUniform objs.
Proof.
  revert free. induction objs as [|obj rest IH]; intros free; simpl.
  - by rewrite app_nil_r.
  - rewrite IH. by rewrite <- app_assoc.
Qed.

Lemma allRefs_NoDup p : NoDup (allRefs p).
Proof.
  unfold allRefs. apply NoDup_fmap_2; [intros ?? [=]; done | apply NoDup_seq].
Qed.

Lemma elem_of_allRefs p u :
  u ∈ allRefs p <-> exists i, u = Some i /\ i < length (uniforms p).
Proof.
  unfold allRefs. rewrite list_elem_of_fmap. split.
  - intros (i & -> & Hi). apply elem_of_seq in Hi. exists i. split; [done | lia].
  - intros (i & -> & Hi). exists i. split; [done | apply elem_of_seq; lia].
Qed.

Lemma partitioned_NoDup others p :
  partitioned others p -> NoDup (liveRefs p ++ cubeUniformList p ++ others).
Proof. intros Hp. rewrite Hp. apply allRefs_NoDup. Qed.

Lemma partitioned_valid others p u :
  partitioned others p ->
  u ∈ liveRefs p ++ cubeUniformList p ++ others ->
  exists i, u = Some i /\ i < length (uniforms p).
Proof. intros Hp Hu. rewrite Hp in Hu. by apply elem_of_allRefs. Qed.


Lemma baseColorOf_alter_ne f i us obj :
  vertexUniform obj <> Some i ->
  baseColorOf (alter f i us) obj = baseColorOf us obj.
Proof.
  intros Hne. unfold baseColorOf.
  destruct (vertexUniform obj) as [j|]; simpl; [|done].
  rewrite list_lookup_alter_ne; [done | congruence].
Qed.

Lemma baseColorOf_alter_keep f i us obj :
  (forall u, baseColor (f u) = baseColor u) ->
  baseColorOf (alter f i us) obj = baseColorOf us obj.
Proof.
  intros Hf. unfold baseColorOf.
  destruct (vertexUniform obj) as [j|]; simpl; [|done].
  destruct (decide (i = j)) as [->|Hne].
  - rewrite list_lookup_alter_eq. destruct (us !! j) as [u|]; [|done]. cbn. by rewrite Hf.
  - by rewrite list_lookup_alter_ne.
Qed.

Lemma baseColorOf_app us extra obj j :
  vertexUniform obj = Some j -> j < length us ->
  baseColorOf (us ++ extra) obj = baseColorOf us obj.
Proof.
  intros Hj Hlt. unfold baseColorOf. rewrite Hj. simpl.
  by rewrite lookup_app_l.
Qed.

Lemma buildInstance_reuse cubeScale p i rest :
  cubeUniformList p = Some i :: rest ->
  exists obj p',
    buildInstance cubeScale p = (Normal tt, p') /\
    vertexUniform obj = Some i /\
    cubeList p' = cubeList p ++ [obj] /\
    uniforms p' =
      alter (with_directionalLightColor COLOR_DIRECTIONAL_LIGHT) i
        (alter (with_ambientLightColor COLOR_AMBIENT_LIGHT) i
           (alter (with_baseColor (instanceColor obj)) i (uniforms p))) /\
    cubeUniformList p' = rest /\
    gpuBuffers p' = gpuBuffers p /\
    useModel p' = useModel p /\ cubeNum p' = cubeNum p /\
    randomValues p' = randomValues p.
Proof.
  intros Hfree. unfold buildInstance. js_unfold.
  unfold Math_random. simpl. rewrite Hfree. simpl.
  eexists _, _. split; [reflexivity|]. by repeat split.
Qed.

Lemma buildInstance_fresh cubeScale p :
  cubeUniformList p = [] ->
  let i := length (uniforms p) in
  exists obj p',
    buildInstance cubeScale p = (Normal tt, p') /\
    vertexUniform obj = Some i /\
    cubeList p' = cubeList p ++ [obj] /\
    uniforms p' =
      alter (with_directionalLightColor COLOR_DIRECTIONAL_LIGHT) i
        (alter (with_ambientLightColor COLOR_AMBIENT_LIGHT) i
           (alter (with_baseColor (instanceColor obj)) i
              (alter (with_buffer (Some (gpuBuffers p))) i
                 (uniforms p ++ [newVertexUniform])))) /\
    cubeUniformList p' = [] /\
    gpuBuffers p' = S (gpuBuffers p) /\
    useModel p' = useModel p /\ cubeNum p' = cubeNum p /\
    randomValues p' = randomValues p.
Proof.
  intros Hfree i. unfold buildInstance. js_unfold.
  unfold Math_random, VertexUniform_new, createBuffer. simpl. rewrite Hfree. simpl.
  eexists _, _. split; [reflexivity|]. simpl. rewrite Hfree. by repeat split.
Qed.

Lemma baseColorOf_alter_set c i us obj :
  vertexUniform obj = Some i -> i < length us ->
  baseColorOf (alter (with_baseColor c) i us) obj = Some c.
Proof.
  intros Hobj Hlt. unfold baseColorOf. rewrite Hobj. simpl.
  rewrite list_lookup_alter_eq.
  destruct (lookup_lt_is_Some_2 us i Hlt) as [u ->]. done.
Qed.

Lemma buildInstance_built others cubeScale p :
  partitioned others p ->
  exists p', buildInstance cubeScale p = (Normal tt, p') /\ built others 1 p p'.
Proof.
  intros Hp. pose proof (partitioned_NoDup _ _ Hp) as Hnd.
  destruct (cubeUniformList p) as [|u rest] eqn:Hfree.
  - destruct (buildInstance_fresh cubeScale p Hfree)
      as (obj & p' & -> & Hobj & Hlist & Hus & Hfree' & Hbuf & Hmodel & Hnum & Hrand).
    exists p'. split; [reflexivity|].
    assert (Hold : forall o, o ∈ cubeList p ->
              exists j, vertexUniform o = Some j /\ j < length (uniforms p)).
    { intros o Ho. apply (partitioned_valid others p); [done|].
      apply elem_of_app. left. unfold liveRefs. by apply list_elem_of_fmap_2. }
    unfold built, partitioned, liveRefs, allRefs, coloured.
    rewrite Hlist, Hus, Hfree, Hfree', !length_alter, !length_app. simpl.
    repeat split; try done; try lia.
    + rewrite map_app. simpl. rewrite Hobj.
      replace (length (uniforms p) + 1) with (S (length (uniforms p))) by lia.
      rewrite seq_S, fmap_app. simpl.
      unfold partitioned, liveRefs, allRefs in Hp. rewrite Hfree in Hp. simpl in Hp.
      rewrite <- Hp. rewrite <- !app_assoc. apply Permutation_app_head.
      simpl. apply Permutation_cons_append.
    + intros Hc. apply Forall_app. split.
      * rewrite Forall_forall in Hc |- *. intros o Ho.
        destruct (Hold o Ho) as (j & Hj & Hlt).
        rewrite !baseColorOf_alter_ne by (rewrite Hj; intros [=]; lia).
        rewrite (baseColorOf_app _ _ _ j) by done. by apply Hc.
      * apply Forall_singleton.
        rewrite !baseColorOf_alter_keep by done.
        apply baseColorOf_alter_set; [done|].
        rewrite length_alter, length_app. simpl. lia.
  - assert (Hu : exists i, u = Some i /\ i < length (uniforms p)).
    { apply (partitioned_valid others p); [done|]. rewrite Hfree.
      apply elem_of_app. right. apply elem_of_app. left. by left. }
    destruct Hu as (i & -> & Hi).
    destruct (buildInstance_reuse cubeScale p i rest Hfree)
      as (obj & p' & -> & Hobj & Hlist & Hus & Hfree' & Hbuf & Hmodel & Hnum & Hrand).
    exists p'. split; [reflexivity|].
    unfold built, partitioned, liveRefs, allRefs, coloured.
    rewrite Hlist, Hus, Hfree, Hfree', !length_alter, !length_app. simpl.
    repeat split; try done; try lia.
    + rewrite map_app. simpl. rewrite Hobj.
      unfold partitioned, liveRefs, allRefs in Hp. rewrite Hfree in Hp.
      rewrite <- Hp. rewrite <- !app_assoc. done.
    + intros Hc. apply Forall_app. split.
      * rewrite Forall_forall in Hc |- *. intros o Ho.
        assert (vertexUniform o <> Some i) as Hne.
        { intros Heq.
          apply NoDup_app in Hnd as (_ & Hdis & _).
          apply (Hdis (Some i)).
          - unfold liveRefs. rewrite <- Heq. by apply list_elem_of_fmap_2.
          - apply elem_of_app. left. by left. }
        rewrite !baseColorOf_alter_ne by done. by apply Hc.
      * apply Forall_singleton.
        rewrite !baseColorOf_alter_keep by done.
        by apply baseColorOf_alter_set.
Qed.

Lemma built_step others n p p' p'' :
  built others 1 p p' -> built others n p' p'' -> built others (S n) p p''.
Proof.
  unfold built. intros (_ & H1 & H2 & H3 & H4 & H5 & H6 & H7 & H8)
    (Hp & K1 & K2 & K3 & K4 & K5 & K6 & K7 & K8).
  repeat split; try congruence; try lia. auto.
Qed.

Lemma buildLoop_built others cubeScale n p :
  partitioned others p ->
  exists p', buildLoop n cubeScale p = (Normal tt, p') /\ built others n p p'.
Proof.
  revert p. induction n as [|n IH]; intros p Hp.
  - exists p. split; [done|]. unfold built. repeat split; try done; lia.
  - destruct (buildInstance_built others cubeScale p Hp) as (p1 & Hrun & Hb).
    destruct (IH p1) as (p2 & Hrun2 & Hb2); [apply Hb|].
    exists p2. split; [|by eapply built_step].
    simpl. js_unfold. by rewrite Hrun.
Qed.

(** The rebuild on a pool whose slots are partitioned. *)
Lemma resetInstance_spec others p :
  partitioned others p ->
  exists p',
    resetInstance p = (Normal tt, p') /\
    partitioned others p' /\
    coloured p' /\
    length (cubeList p') = cubeNum p /\
    length (cubeUniformList p')
      = length (cubeList p) + length (cubeUniformList p) - cubeNum p /\
    length (uniforms p')
      = length (uniforms p)
        + (cubeNum p - (length (cubeList p) + length (cubeUniformList p))) /\
    gpuBuffers p'
      = gpuBuffers p
        + (cubeNum p - (length (cubeList p) + length (cubeUniformList p))) /\
    useModel p' = useModel p /\ cubeNum p' = cubeNum p /\
    randomValues p' = randomValues p.
Proof.
  intros Hp.
  set (p1 := set_cubeList []
               (set_cubeUniformList (releaseLoop (cubeList p) (cubeUniformList p)) p)).
  assert (Hp1 : partitioned others p1).
  { unfold partitioned, liveRefs, allRefs in *. simpl.
    rewrite releaseLoop_app. rewrite <- Hp.
    rewrite <- app_assoc. apply Permutation_app_swap_app. }
  destruct (buildLoop_built others (if useModel p then 4.0 else 2.0)%float
              (cubeNum p) p1 Hp1)
    as (p' & Hrun & Hb & H1 & H2 & H3 & H4 & H5 & H6 & H7 & H8).
  exists p'. split; [exact Hrun|].
  simpl in *. rewrite releaseLoop_app, length_app, length_map in *.
  repeat split; try done; try lia.
  apply H8. unfold coloured. simpl. constructor.
Qed.

End PoolProofs.

Section RenderProofs.
Context `{Platform}.

Lemma sameStatic_refl u : sameStatic u u.
Proof. by unfold sameStatic. Qed.

Lemma sameStatic_trans u1 u2 u3 :
  sameStatic u1 u2 -> sameStatic u2 u3 -> sameStatic u1 u3.
Proof. unfold sameStatic. intros (?&?&?&?) (?&?&?&?). repeat split; congruence. Qed.

Lemma Forall2_sameStatic_refl us : Forall2 sameStatic us us.
Proof. induction us; constructor; auto using sameStatic_refl. Qed.

Lemma Forall2_sameStatic_trans us1 us2 us3 :
  Forall2 sameStatic us1 us2 -> Forall2 sameStatic us2 us3 ->
  Forall2 sameStatic us1 us3.
Proof.
  intros H12. revert us3. induction H12; intros us3 H23; inversion H23; subst.
  - constructor.
  - constructor; eauto using sameStatic_trans.
Qed.

Lemma Forall2_sameStatic_alter f i us :
  (forall u, sameStatic u (f u)) -> Forall2 sameStatic us (alter f i us).
Proof.
  intros Hf. revert i. induction us as [|u us IH]; intros [|i]; simpl.
  - constructor.
  - constructor.
  - constructor; [apply Hf | apply Forall2_sameStatic_refl].
  - constructor; [apply sameStatic_refl | apply IH].
Qed.

Lemma sameSlots_refl p : sameSlots p p.
Proof. unfold sameSlots. repeat split; try done. apply Forall2_sameStatic_refl. Qed.

Lemma sameSlots_trans p1 p2 p3 :
  sameSlots p1 p2 -> sameSlots p2 p3 -> sameSlots p1 p3.
Proof.
  unfold sameSlots. intros (?&?&?&?&?&?&?&?) (?&?&?&?&?&?&?&?).
  repeat split; try congruence. by eapply Forall2_sameStatic_trans.
Qed.

Lemma sameSlots_length p p' : sameSlots p p' -> length (uniforms p') = length (uniforms p).
Proof. intros (_&_&_&_&_&_&_&Hus). symmetry. by eapply Forall2_length. Qed.

Lemma sameStatic_lookup {A} (field : VertexUniform -> A) us us' i :
  (forall u u', sameStatic u u' -> field u' = field u) ->
  Forall2 sameStatic us us' ->
  field <$> us' !! i = field <$> us !! i.
Proof.
  intros Hfield Hus. revert i. induction Hus as [|u u' us us' Hu Hus IH]; intros [|i]; simpl; try done.
  by rewrite (Hfield u u').
Qed.

Lemma bufferOf_sameStatic us us' obj :
  Forall2 sameStatic us us' -> bufferOf us' obj = bufferOf us obj.
Proof.
  intros Hus. unfold bufferOf. destruct (vertexUniform obj) as [i|]; [|done]. simpl.
  pose proof (sameStatic_lookup buffer us us' i) as Hb.
  destruct (us' !! i), (us !! i); simpl in *;
    specialize (Hb ltac:(by intros ?? (?&_)) Hus); congruence.
Qed.

Lemma baseColorOf_sameStatic us us' obj :
  Forall2 sameStatic us us' -> baseColorOf us' obj = baseColorOf us obj.
Proof.
  intros Hus. unfold baseColorOf. destruct (vertexUniform obj) as [i|]; [|done]. simpl.
  pose proof (sameStatic_lookup baseColor us us' i) as Hb.
  destruct (us' !! i), (us !! i); simpl in *;
    specialize (Hb ltac:(by intros ?? (?&?&_)) Hus); congruence.
Qed.

(** A write of a matrix or of the light direction. *)
Lemma writeUniform_frame u f p :
  (forall v, sameStatic v (f v)) ->
  sameSlots p (snd (writeUniform u f p)).
Proof.
  intros Hf. destruct u as [i|]; simpl.
  - unfold sameSlots. simpl. repeat split; try done. by apply Forall2_sameStatic_alter.
  - apply sameSlots_refl.
Qed.

Lemma writeUniform_Some i f p :
  writeUniform (Some i) f p = (Normal tt, set_uniforms (alter f i (uniforms p)) p).
Proof. reflexivity. Qed.

Lemma drawLoop_frame cameraMatrix lightDirection geometry objs enc p :
  sameSlots p (snd (drawLoop cameraMatrix lightDirection geometry objs enc p)).
Proof.
  revert enc p. induction objs as [|obj rest IH]; intros enc p; simpl.
  - apply sameSlots_refl.
  - js_unfold. destruct (vertexUniform obj) as [i|]; simpl.
    + eapply sameSlots_trans; [|apply IH].
      unfold sameSlots. simpl. repeat split; try done.
      eapply Forall2_sameStatic_trans; [|apply Forall2_sameStatic_alter; by intros []].
      eapply Forall2_sameStatic_trans; [|apply Forall2_sameStatic_alter; by intros []].
      apply Forall2_sameStatic_alter; by intros [].
    + apply sameSlots_refl.
Qed.

Lemma drawLoop_ok cameraMatrix lightDirection geometry objs enc p :
  Forall (fun obj => is_Some (vertexUniform obj)) objs ->
  fst (drawLoop cameraMatrix lightDirection geometry objs enc p)
    = Normal (enc ++ flat_map (instanceCommands (uniforms p) geometry) objs).
Proof.
  revert enc p. induction objs as [|obj rest IH]; intros enc p Hobjs; simpl.
  - by rewrite app_nil_r.
  - inversion Hobjs as [|? ? [i Hi] Hrest]; subst.
    js_unfold. rewrite Hi. simpl. rewrite IH by done. simpl.
    rewrite <- app_assoc. simpl. f_equal. f_equal.
    unfold instanceCommands, bufferOf. rewrite Hi. simpl. f_equal.
    + f_equal. rewrite !list_lookup_alter_eq. by destruct (uniforms p !! i).
    + f_equal. apply flat_map_ext. intros o. unfold instanceCommands. f_equal. f_equal.
      apply bufferOf_sameStatic.
      eapply Forall2_sameStatic_trans; [|apply Forall2_sameStatic_alter; by intros []].
      eapply Forall2_sameStatic_trans; [|apply Forall2_sameStatic_alter; by intros []].
      apply Forall2_sameStatic_alter; by intros [].
Qed.


Lemma drawLoop_prefix cameraMatrix lightDirection geometry objs enc p cmds :
  fst (drawLoop cameraMatrix lightDirection geometry objs enc p) = Normal cmds ->
  exists rest, cmds = enc ++ rest.
Proof.
  revert enc p. induction objs as [|obj rest IH]; intros enc p; simpl.
  - intros [= <-]. exists nil. by rewrite app_nil_r.
  - js_unfold. destruct (vertexUniform obj) as [i|]; simpl; [|done].
    intros Hrun. apply IH in Hrun as (more & ->).
    eexists. by rewrite <- app_assoc.
Qed.

Lemma drawLoop_throws cameraMatrix lightDirection geometry objs enc p e :
  fst (drawLoop cameraMatrix lightDirection geometry objs enc p) = Throw e ->
  e = TypeError.
Proof.
  revert enc p. induction objs as [|obj rest IH]; intros enc p; simpl; [done|].
  js_unfold. destruct (vertexUniform obj) as [i|]; simpl.
  - apply IH.
  - by intros [= <-].
Qed.

Lemma animateLoop_refs t i objs :
  map vertexUniform (animateLoop t i objs) = map vertexUniform objs.
Proof.
  revert i. induction objs as [|obj rest IH]; intros i; simpl; [done|].
  rewrite IH. f_equal. unfold animate. by destruct (spinsY t i).
Qed.

Lemma animateLoop_lookup t i objs k obj :
  objs !! k = Some obj ->
  animateLoop t i objs !! k = Some (animate t (i + k) obj).
Proof.
  revert i k. induction objs as [|o rest IH]; intros i [|k]; simpl; try done.
  - intros [= ->]. by rewrite Nat.add_0_r.
  - intros Hk. rewrite (IH (S i) k Hk). by replace (S i + k) with (i + S k) by lia.
Qed.

Lemma animateLoop_length t i objs : length (animateLoop t i objs) = length objs.
Proof. revert i. induction objs; intros i; simpl; auto. Qed.

Lemma render_None w : render None w = (Throw TypeError, updated w).
Proof. reflexivity. Qed.

Ltac render_cases w d :=
  unfold render, onPool; js_unfold; simpl;
  match goal with
  | |- context [drawLoop ?a ?b ?c ?d ?e ?f] =>
      pose proof (drawLoop_frame a b c d e f) as Hframe;
      pose proof (drawLoop_prefix a b c d e f) as Hprefix;
      pose proof (drawLoop_throws a b c d e f) as Hthrows;
      destruct (drawLoop a b c d e f) as [[cmds|e'] p2]
  end; simpl in *;
  [ destruct (vertexUniform (lightHelper w)) as [lh|]; simpl | ].

(** What [render] leaves as [updated] made it, whatever its completion. *)
Lemma render_frame d w :
  let w' := snd (render d w) in
  sameSlots (pool (updated w)) (pool w') /\
  lightHelper w' = lightHelper (updated w) /\
  cube w' = cube w /\ model w' = model w /\
  cubeRenderPipelineState w' = cubeRenderPipelineState w /\
  lightHelperRenderPipelineState w' = lightHelperRenderPipelineState w /\
  time w' = time (updated w) /\ camera w' = camera (updated w).
Proof.
  destruct d as [d|]; [|rewrite render_None; simpl; repeat split; try done; apply sameSlots_refl].
  render_cases w d; (split; [|by repeat split]); try exact Hframe.
  eapply sameSlots_trans; [exact Hframe|].
  unfold sameSlots; simpl. repeat split; try done.
  apply Forall2_sameStatic_alter. by intros [].
Qed.

(** What [render] commits and requests. *)
Lemma render_commits d w :
  let '(c, w') := render d w in
  (c = Throw TypeError /\ committed w' = committed w /\
   animationFrameRequests w' = animationFrameRequests w) \/
  (exists dr rest buf,
     d = Some dr /\ c = Normal tt /\
     animationFrameRequests w' = S (animationFrameRequests w) /\
     committed w' = committed w ++
       [{| passes :=
             [{| descriptor :=
                   {| color0_texture := Some (texture dr);
                      color0_loadAction := Some WebGPULoadAction.clear;
                      depth_loadAction := Some WebGPULoadAction.clear |};
                 commands :=
                   setRenderPipelineState (cubeRenderPipelineState w)
                   :: setDepthStencilState
                   :: setVertexBuffer
                        (Some (vertexBuffer
                                 (if useModel (pool w) then model w else cube w))) 0 0
                   :: rest |};
              {| descriptor :=
                   {| color0_texture := Some (texture dr);
                      color0_loadAction := Some WebGPULoadAction.load;
                      depth_loadAction := Some WebGPULoadAction.load |};
                 commands :=
                   [setRenderPipelineState (lightHelperRenderPipelineState w);
                    setDepthStencilState;
                    setVertexBuffer (Some (vertexBuffer (cube w))) 0 0;
                    setVertexBuffer buf 0 1;
                    drawPrimitives WebGPUPrimitiveType.linestrip 0
                      (numVertices (cube w))] |}];
           presented := dr |}]).
Proof.
  destruct d as [d|]; [|rewrite render_None; left; by repeat split].
  render_cases w d.
  - right. destruct (Hprefix cmds eq_refl) as (rest & ->).
    eexists d, rest, _. repeat split; done.
  - left. by repeat split.
  - left. rewrite (Hthrows e' eq_refl). by repeat split.
Qed.

(** With every binding in place, a frame with a drawable runs to its end. *)
Lemma render_completes d w :
  Forall (fun obj => is_Some (vertexUniform obj)) (cubeList (pool w)) ->
  is_Some (vertexUniform (lightHelper w)) ->
  fst (render (Some d) w) = Normal tt.
Proof.
  intros Hlive [lh Hlh]. unfold render, onPool. js_unfold. simpl.
  match goal with
  | |- context [drawLoop ?a ?b ?c ?d ?e ?f] =>
      pose proof (drawLoop_ok a b c d e f) as Hok;
      destruct (drawLoop a b c d e f) as [[cmds|e'] p2]
  end; simpl in *.
  - by rewrite Hlh.
  - exfalso. enough (Hall : Forall (fun obj => is_Some (vertexUniform obj))
                             (animateLoop (time w) 0 (cubeList (pool w))))
      by (specialize (Hok Hall); discriminate).
    apply (Forall_fmap vertexUniform is_Some). rewrite animateLoop_refs.
    by apply (Forall_fmap vertexUniform is_Some).
Qed.

End RenderProofs.

Section RunProofs.
Context `{Platform}.

Lemma animateLoop_Forall (P Q : SceneObject -> Prop) t i objs :
  (forall k o, P o -> Q (animate t k o)) ->
  Forall P objs -> Forall Q (animateLoop t i objs).
Proof.
  intros HPQ Hobjs. revert i. induction Hobjs; intros i; simpl; constructor; auto.
Qed.

Lemma animate_placement t i obj :
  x (animate t i obj) = x obj /\ y (animate t i obj) = y obj /\
  z (animate t i obj) = z obj /\ rotationZ (animate t i obj) = rotationZ obj /\
  scaleX (animate t i obj) = scaleX obj /\ scaleY (animate t i obj) = scaleY obj /\
  scaleZ (animate t i obj) = scaleZ obj /\
  vertexUniform (animate t i obj) = vertexUniform obj.
Proof. unfold animate. by destruct (spinsY t i). Qed.

(** A frame keeps a consistent world consistent. *)
Lemma render_consistent d w :
  consistent w -> consistent (snd (render d w)).
Proof.
  intros [Hpart Hcol].
  destruct (render_frame d w) as ((_&_&Hlist&Hfree&_&_&_&Hus) & Hlh & _).
  split.
  - unfold partitioned, liveRefs, allRefs in *.
    rewrite Hlist, Hfree, Hlh, <- (Forall2_length _ _ _ Hus). simpl.
    by rewrite animateLoop_refs.
  - unfold coloured in *. rewrite Hlist. simpl.
    eapply animateLoop_Forall; [|exact Hcol].
    intros k o Ho. simpl in Ho.
    rewrite (baseColorOf_sameStatic _ _ _ Hus). simpl.
    destruct (animate_placement (time w) k o) as (Hx&_&Hz&_&_&_&_&Hv).
    unfold instanceColor, baseColorOf in *. by rewrite Hx, Hz, Hv.
Qed.

(** A rebuild keeps a consistent world consistent, and runs to its end. *)
Lemma rebuild_consistent w :
  consistent w ->
  exists p',
    onPool resetInstance w = (Normal tt, set_pool p' w) /\
    consistent (set_pool p' w) /\
    length (cubeList p') = cubeNum (pool w) /\
    length (cubeList p') + length (cubeUniformList p')
      = Nat.max (cubeNum (pool w))
          (length (cubeList (pool w)) + length (cubeUniformList (pool w))) /\
    cubeNum p' = cubeNum (pool w).
Proof.
  intros [Hpart _].
  destruct (resetInstance_spec _ _ Hpart)
    as (p' & Hrun & Hpart' & Hcol' & Hlen & Hfree & _ & _ & _ & Hnum & _).
  exists p'. unfold onPool, zoom. rewrite Hrun. repeat split; try done. lia.
Qed.

Lemma dispatch_consistent w e : consistent w -> consistent (dispatch w e).
Proof.
  intros Hw. destruct e as [value|value|d]; simpl.
  - destruct (rebuild_consistent (set_pool (set_cubeNum value (pool w)) w)) as (p' & -> & Hc & _).
    + exact Hw.
    + exact Hc.
  - destruct (rebuild_consistent (set_pool (set_useModel value (pool w)) w)) as (p' & -> & Hc & _).
    + exact Hw.
    + exact Hc.
  - destruct (animationFrameRequests w); [done|].
    apply render_consistent. exact Hw.
Qed.

Lemma dispatchAll_consistent events w :
  consistent w -> consistent (dispatchAll events w).
Proof.
  revert w. induction events as [|e events IH]; intros w Hw; simpl; [done|].
  apply IH. by apply dispatch_consistent.
Qed.


Lemma initObjects_spec env :
  exists p lightHelper,
    initObjects (cubeVertices env) (initialPool env)
      = (Normal ({| vertexBuffer := 0; numVertices := cubeVertices env |}, lightHelper), p) /\
    partitioned [vertexUniform lightHelper] p /\ coloured p /\
    length (cubeList p) = panelNum env /\ cubeUniformList p = [] /\
    cubeNum p = panelNum env /\ gpuBuffers p <> 0.
Proof.
  set (p0 := set_gpuBuffers 1 (initialPool env)).
  assert (Hp0 : partitioned [] p0) by (unfold partitioned; reflexivity).
  destruct (resetInstance_spec _ _ Hp0)
    as (p1 & Hrun & Hpart & Hcol & Hlen & Hfree & _ & _ & _ & Hnum & _).
  simpl in Hlen, Hfree, Hnum.
  unfold initObjects. js_unfold. unfold Primitive_createBuffer. simpl.
  fold p0. rewrite Hrun. simpl.
  eexists _, _. split; [reflexivity|]. simpl.
  assert (Hnil : cubeUniformList p1 = []) by (apply length_zero_iff_nil; lia).
  repeat split; try done.
  - unfold partitioned, liveRefs, allRefs in *. simpl.
    rewrite !length_alter, length_app. simpl.
    replace (length (uniforms p1) + 1) with (S (length (uniforms p1))) by lia.
    rewrite seq_S, fmap_app. simpl. rewrite <- Hpart.
    rewrite Hnil. simpl. by rewrite !app_nil_r.
  - unfold coloured in *. simpl.
    rewrite Forall_forall in Hcol |- *. intros o Ho.
    destruct (partitioned_valid [] p1 (vertexUniform o) Hpart) as (j & Hj & Hlt).
    { apply elem_of_app. left. unfold liveRefs. by apply list_elem_of_fmap_2. }
    rewrite !baseColorOf_alter_ne by (rewrite Hj; intros [=]; lia).
    rewrite (baseColorOf_app _ _ _ j) by done. by apply Hcol.
Qed.

Lemma functionWithName_Some library name :
  functionWithName library name
    = if bool_decide (name ∈ library) then Some name else None.
Proof. unfold functionWithName. by destruct (decide (name ∈ library)) as [?|?]; [rewrite bool_decide_true | rewrite bool_decide_false]. Qed.

Lemma render_runInvariant env d w :
  runInvariant env w -> animationFrameRequests w = 0 ->
  runInvariant env (snd (render d w)).
Proof.
  intros (Hc & _ & Hlen & Hcube & Hmodel & Hloads & Hhelper) Hzero.
  destruct (render_frame d w) as ((_&Hnum&Hlist&_) & _ & Hcube' & Hmodel' & _).
  pose proof (render_commits d w) as Hcommits.
  pose proof (render_consistent d w Hc) as Hc'.
  destruct (render d w) as [c w']. simpl in *.
  assert (Hlen' : length (cubeList (pool w')) = cubeNum (pool w'))
    by (by rewrite Hlist, Hnum, animateLoop_length).
  destruct Hcommits as [(_ & Hsame & Hreq)|(dr & rest & buf & _ & _ & Hreq & Hmore)].
  - split; [exact Hc'|]. split; [lia|]. split; [done|]. split; [congruence|].
    split; [congruence|]. by rewrite Hcube', Hsame.
  - split; [exact Hc'|]. split; [lia|]. split; [done|]. split; [congruence|].
    split; [congruence|]. rewrite Hcube', Hmore. split.
    + apply Forall_app. split; [done|]. apply Forall_singleton.
      eexists _, _. by repeat split.
    + apply Forall_app. split; [done|]. apply Forall_singleton.
      eexists _, _, _, _. by split.
Qed.

Lemma dispatch_runInvariant env w e :
  runInvariant env w -> runInvariant env (dispatch w e).
Proof.
  intros Hw. destruct e as [value|value|d]; simpl.
  - destruct Hw as (Hc & Hreq & Hlen & Hcube & Hframes).
    destruct (rebuild_consistent (set_pool (set_cubeNum value (pool w)) w) Hc)
      as (p' & -> & Hc' & Hlen' & _ & Hnum').
    split; [exact Hc'|]. simpl in *. split; [done|]. split; [congruence|]. done.
  - destruct Hw as (Hc & Hreq & Hlen & Hcube & Hframes).
    destruct (rebuild_consistent (set_pool (set_useModel value (pool w)) w) Hc)
      as (p' & -> & Hc' & Hlen' & _ & Hnum').
    split; [exact Hc'|]. simpl in *. split; [done|]. split; [congruence|]. done.
  - destruct (animationFrameRequests w) as [|k] eqn:Hk; [exact Hw|].
    destruct Hw as (Hc & Hreq & Hlen & Hcube & Hframes).
    assert (k = 0) as -> by lia.
    apply render_runInvariant; [|done].
    split; [exact Hc|]. simpl. split; [lia|]. done.
Qed.

Lemma dispatchAll_runInvariant env events w :
  runInvariant env w -> runInvariant env (dispatchAll events w).
Proof.
  revert w. induction events as [|e events IH]; intros w Hw; simpl; [done|].
  apply IH. by apply dispatch_runInvariant.
Qed.

(** [init] on a capable environment: everything is set up and [render]
    is called. *)
Lemma init_capable env :
  capable env = true ->
  exists w0,
    init env = ({| className := bodyClassName env; statsShown := true; guiShown := true |},
                Running (snd (render (firstDrawable env) w0))) /\
    runInvariant env w0 /\ animationFrameRequests w0 = 0 /\ committed w0 = [] /\
    cubeNum (pool w0) = panelNum env /\ cubeUniformList (pool w0) = [].
Proof.
  unfold capable. intros Hcap.
  destruct (shaderLibrary env) as [library|] eqn:Hlib;
    [|by rewrite andb_false_r in Hcap].
  rewrite !andb_true_iff, !bool_decide_eq_true in Hcap.
  destruct Hcap as [[[Hgpu Hfetch] [[Hv1 Hv2] Hf]] [vertices Hmodel]].
  destruct (initObjects_spec env)
    as (p & lh & Hobjs & Hpart & Hcol & Hlen & Hfree & Hnum & Hbuf).
  unfold init. rewrite Hgpu, Hfetch, Hlib, !functionWithName_Some.
  rewrite !bool_decide_true by done. rewrite Hobjs, Hmodel.
  simpl. eexists. split; [reflexivity|]. simpl.
  repeat split; try done; simpl; try lia.
Qed.

(** [init] on any other environment ends before line 180. *)
Lemma init_incapable env :
  capable env = false ->
  exists page rejected, init env = (page, Aborted rejected).
Proof.
  unfold capable, init. intros Hcap.
  destruct (hasWebGPU env); simpl in *; [|by eexists _, _].
  destruct (shaderFetched env); simpl in *; [|by eexists _, _].
  destruct (shaderLibrary env) as [library|]; [|by eexists _, _].
  rewrite !functionWithName_Some.
  destruct (bool_decide ("vertex_main" ∈ library)); simpl in *; [|by eexists _, _].
  destruct (bool_decide ("vertex_main2" ∈ library)); simpl in *; [|by eexists _, _].
  destruct (bool_decide ("fragment_main" ∈ library)); simpl in *; [|by eexists _, _].
  destruct (initObjects_spec env) as (p & lh & -> & _).
  destruct (loadedModelVertices env); [|by eexists _, _].
  by vm_compute in Hcap.
Qed.

(** A running program: its world after any events satisfies the
    invariant. *)
Lemma run_capable env events :
  capable env = true ->
  exists w,
    run env events
      = ({| className := bodyClassName env; statsShown := true; guiShown := true |},
         Running w) /\
    runInvariant env w.
Proof.
  intros Hcap. destruct (init_capable env Hcap) as (w0 & Hinit & Hinv & Hzero & _).
  unfold run. rewrite Hinit. eexists. split; [reflexivity|].
  apply dispatchAll_runInvariant. by apply render_runInvariant.
Qed.

End RunProofs.

Module RealProofs.
Import Reals Lra Psatz RealReading.
Local Open Scope R_scope.










End RealProofs.

(** * The claims of the specification *)

Section Claims.
Context `{Platform}.

Lemma consistent_exactlyBound w :
  consistent w -> exactlyBound (length (cubeList (pool w))) w.
Proof.
  intros [Hpart _]. pose proof (partitioned_NoDup _ _ Hpart) as Hnd.
  split; [done|]. split; [|split].
  - rewrite Forall_forall. intros obj Hobj.
    destruct (partitioned_valid _ _ (vertexUniform obj) Hpart) as (i & -> & _); [|done].
    apply elem_of_app. left. unfold liveRefs. by apply list_elem_of_fmap_2.
  - intros i j oi oj Hij Hi Hj Heq.
    apply NoDup_app in Hnd as (Hlive & _).
    apply Hij. eapply (NoDup_lookup _ i j (vertexUniform oi) Hlive);
      unfold liveRefs; rewrite list_lookup_fmap.
    + by rewrite Hi.
    + rewrite Hj. simpl. by rewrite Heq.
  - intros obj Hobj Heq.
    apply NoDup_app in Hnd as (_ & Hdis & _).
    apply (Hdis (vertexUniform obj)).
    + unfold liveRefs. by apply list_elem_of_fmap_2.
    + rewrite Heq. apply elem_of_app. right. by left.
Qed.

(** C1: after any sequence of events of a running program, a rebuild for
    an instance count [N] (any [N], so every count of the slider's range
    1000-6000) runs to its end and leaves exactly [N] live objects in
    [cubeList], each bound to a [VertexUniform] (none is [null]), no two of
    them to the same one. *)
Theorem resetInstance_exactly_N_unique env events N :
  capable env = true ->
  exists w,
    snd (run env events) = Running w /\
    fst (onPool resetInstance (set_pool (set_cubeNum N (pool w)) w)) = Normal tt /\
    exactlyBound N (dispatch w (num_onFinishChange N)).
Proof.
  intros Hcap. destruct (run_capable env events Hcap) as (w & Hrun & Hinv).
  exists w. rewrite Hrun. split; [done|].
  destruct Hinv as (Hc & _).
  destruct (rebuild_consistent (set_pool (set_cubeNum N (pool w)) w) Hc)
    as (p' & Hreset & Hc' & Hlen & _).
  simpl. rewrite Hreset. split; [done|]. simpl.
  simpl in Hlen. rewrite <- Hlen. by apply (consistent_exactlyBound _ Hc').
Qed.






Lemma resetInstance_loops p :
  resetInstance p
    = buildLoop (cubeNum p) (if useModel p then 4.0 else 2.0)%float (afterRelease p).
Proof. reflexivity. Qed.

Lemma duringRelease_partitioned others i p :
  partitioned others p -> partitioned others (duringRelease i p).
Proof.
  unfold partitioned, liveRefs, allRefs. simpl. intros Hp.
  rewrite releaseLoop_app, <- Hp.
  rewrite <- (take_drop i (cubeList p)) at 3. rewrite !map_app.
  generalize (map vertexUniform (take i (cubeList p)))
             (map vertexUniform (drop i (cubeList p))) (cubeUniformList p).
  intros taken kept free. solve_Permutation.
Qed.

Lemma afterRelease_partitioned others p :
  partitioned others p -> partitioned others (afterRelease p).
Proof.
  intros Hp. pose proof (duringRelease_partitioned others (length (cubeList p)) p Hp) as Hd.
  unfold duringRelease in Hd. by rewrite drop_all, firstn_all in Hd.
Qed.



Lemma onPool_committed {A} (c : JS Pool A) w :
  committed (snd (onPool c w)) = committed w /\
  animationFrameRequests (snd (onPool c w)) = animationFrameRequests w.
Proof. unfold onPool, zoom. by destruct (c (pool w)). Qed.

(** With no frame callback pending nothing is rendered any more. *)
Lemma idle_forever later w :
  animationFrameRequests w = 0 ->
  committed (dispatchAll later w) = committed w /\
  animationFrameRequests (dispatchAll later w) = 0.
Proof.
  revert w. induction later as [|e later IH]; intros w Hzero; simpl; [done|].
  assert (committed (dispatch w e) = committed w /\
          animationFrameRequests (dispatch w e) = 0) as [Hsame Hzero'].
  { destruct e as [value|value|d]; simpl.
    - destruct (onPool_committed resetInstance (set_pool (set_cubeNum value (pool w)) w))
        as [-> ->]. done.
    - destruct (onPool_committed resetInstance (set_pool (set_useModel value (pool w)) w))
        as [-> ->]. done.
    - by rewrite Hzero. }
  destruct (IH _ Hzero') as [-> ->]. done.
Qed.

(** C3, as the code has it: when [nextDrawable()] yields no drawable,
    [render] throws at line 259, after the objects, the frame counter and
    the camera have been updated (the state is [updated w]) and before
    anything else is written; nothing is encoded or committed; and since
    line 314 is not reached, no frame callback is pending afterwards: the
    loop has stopped, and no later event renders a frame. *)
Theorem failed_acquisition_stops_the_loop env events :
  capable env = true ->
  exists w,
    snd (run env events) = Running w /\
    render None w = (Throw TypeError, updated w) /\
    forall later,
      let w' := dispatch w (animationFrame None) in
      committed (dispatchAll later w') = committed w /\
      animationFrameRequests (dispatchAll later w') = 0.
Proof.
  intros Hcap. destruct (run_capable env events Hcap) as (w & Hrun & Hinv).
  exists w. rewrite Hrun. split; [done|]. split; [apply render_None|].
  intros later. cbv zeta. unfold dispatch.
  destruct Hinv as (_ & Hreq & _).
  destruct (animationFrameRequests w) as [|k] eqn:Hk.
  - by apply idle_forever.
  - assert (k = 0) as -> by lia. rewrite render_None. cbn [snd].
    by apply (idle_forever later (updated (set_animationFrameRequests 0 w))).
Qed.

Lemma startupFailure_incapable env : startupFailure env -> capable env = false.
Proof.
  unfold capable. intros [Hgpu|(library & name & Hlib & Hname & Hmiss)].
  - by rewrite Hgpu.
  - rewrite Hlib. apply andb_false_iff. left. apply andb_false_iff. right.
    rewrite !andb_false_iff, !bool_decide_eq_false.
    repeat (apply elem_of_cons in Hname as [->|Hname]); [tauto..|].
    by apply elem_of_nil in Hname.
Qed.

Lemma init_className env :
  hasWebGPU env = true -> className (fst (init env)) = bodyClassName env.
Proof.
  intros Hgpu. unfold init. rewrite Hgpu. simpl.
  destruct (shaderFetched env); [|done]. simpl.
  destruct (shaderLibrary env) as [library|]; [|done].
  destruct (functionWithName library "vertex_main"); [|done].
  destruct (functionWithName library "vertex_main2"); [|done].
  destruct (functionWithName library "fragment_main"); [|done].
  destruct (initObjects_spec env) as (p & lh & -> & _).
  by destruct (loadedModelVertices env).
Qed.

Lemma run_page env events : fst (run env events) = fst (init env).
Proof. unfold run. by destruct (init env) as [page [rejected|w]]. Qed.

(** C4, as the code has it: a start-up failure (the API absent, or one of
    [vertex_main], [vertex_main2], [fragment_main] missing from the library)
    ends [init] before [render] is called, and no event renders a frame
    afterwards. With the API absent the page's body gets the class [error]
    (line 55); with a shader function missing [init] returns at line 104
    having shown no message: the class of the body is what it was. *)
Theorem startup_failure_aborts env events :
  startupFailure env ->
  renderEntered (snd (run env events)) = false /\
  framesOf (snd (run env events)) = [] /\
  (hasWebGPU env = false ->
     fst (run env events)
       = {| className := "error"; statsShown := false; guiShown := false |}) /\
  (hasWebGPU env = true ->
     className (fst (run env events)) = bodyClassName env).
Proof.
  intros Hfail. apply startupFailure_incapable in Hfail.
  destruct (init_incapable env Hfail) as (page & rejected & Hinit).
  rewrite run_page. unfold run. rewrite Hinit. simpl.
  repeat split.
  - intros Hgpu. unfold init in Hinit. rewrite Hgpu in Hinit. simpl in Hinit. congruence.
  - intros Hgpu. rewrite <- (init_className env Hgpu). by rewrite Hinit.
Qed.


(** A frame with a drawable on a consistent world: what is committed. *)
Lemma render_Some_commits d w :
  consistent w ->
  exists w' cb,
    render (Some d) w = (Normal tt, w') /\
    committed w' = committed w ++ [cb] /\
    animationFrameRequests w' = S (animationFrameRequests w) /\
    clearsThenLoads cb /\
    helperDrawsCube (cube w) cb /\
    firstPassBinds (if useModel (pool w) then model w else cube w) cb.
Proof.
  intros Hc. destruct (consistent_exactlyBound w Hc) as (_ & Hlive & _).
  assert (Hlh : is_Some (vertexUniform (lightHelper w))).
  { destruct Hc as [Hpart _].
    destruct (partitioned_valid _ _ (vertexUniform (lightHelper w)) Hpart)
      as (i & -> & _); [|done].
    apply elem_of_app. right. apply elem_of_app. right. by left. }
  pose proof (render_completes d w Hlive Hlh) as Hok.
  pose proof (render_commits (Some d) w) as Hcommits.
  destruct (render (Some d) w) as [c w']. simpl in Hok. subst c.
  destruct Hcommits as [(Hthrow & _)|(dr & rest & buf & _ & _ & Hreq & Hmore)];
    [discriminate Hthrow|].
  eexists w', _. split; [reflexivity|]. split; [exact Hmore|]. split; [exact Hreq|].
  split; [|split].
  - eexists _, _. by repeat split.
  - eexists _, _, _, _. by split.
  - eexists _, _, _, _. by split.
Qed.

(** C5: in every command buffer a running program has committed, tick 0
    included, and in the one any further frame commits, the first pass is
    encoded with load action [clear] for colour and depth, the second with
    [load] for both, in this order. *)
Theorem first_pass_clears_second_loads env events :
  capable env = true ->
  exists w,
    snd (run env events) = Running w /\
    Forall clearsThenLoads (committed w) /\
    forall d, exists w' cb,
      render (Some d) w = (Normal tt, w') /\
      committed w' = committed w ++ [cb] /\
      clearsThenLoads cb.
Proof.
  intros Hcap. destruct (run_capable env events Hcap) as (w & Hrun & Hinv).
  exists w. rewrite Hrun. split; [done|].
  destruct Hinv as (Hc & _ & _ & _ & _ & Hloads & _). split; [exact Hloads|].
  intros d. destruct (render_Some_commits d w Hc) as (w' & cb & Hr & Hm & _ & Hcl & _).
  by exists w', cb.
Qed.

(** C6: a frame applies to the object at index [i] exactly one of the two
    branches of line 242, chosen by [(time + i * 7) / 50 << 0) % 10 === 0]:
    either [rotationY] gets [+ 0.2] and [rotationX] is left alone, or
    [rotationX] gets [+ 0.01] and [rotationY] is left alone. *)
Theorem animation_branches_exclusive d w i obj :
  cubeList (pool w) !! i = Some obj ->
  exists obj',
    cubeList (pool (snd (render d w))) !! i = Some obj' /\
    samePlacement obj obj' /\
    ((spinsY (time w) i = true /\
      rotationY obj' = (rotationY obj + 0.2)%float /\ rotationX obj' = rotationX obj)
     \/
     (spinsY (time w) i = false /\
      rotationX obj' = (rotationX obj + 0.01)%float /\ rotationY obj' = rotationY obj)).
Proof.
  intros Hi. destruct (render_frame d w) as ((_&_&Hlist&_) & _).
  exists (animate (time w) i obj). split.
  - rewrite Hlist. simpl. by rewrite (animateLoop_lookup _ _ _ _ _ Hi).
  - split; [apply animate_placement|].
    unfold animate. destruct (spinsY (time w) i); [left|right]; by repeat split.
Qed.


(** C8: in every command buffer of a running program, whatever
    [useModel] was when it was encoded, the second pass binds the vertex
    buffer of the cube (the first GPU buffer made, handle 0) and draws the
    cube's vertex count as a line strip; the first pass of a further frame
    binds the loaded mesh when [useModel] is set, the cube otherwise, and the
    mesh's vertex buffer is not the cube's. *)
Theorem light_helper_draws_the_cube env events :
  capable env = true ->
  exists w,
    snd (run env events) = Running w /\
    cube w = {| vertexBuffer := 0; numVertices := cubeVertices env |} /\
    vertexBuffer (model w) <> vertexBuffer (cube w) /\
    Forall (helperDrawsCube (cube w)) (committed w) /\
    forall d, exists w' cb,
      render (Some d) w = (Normal tt, w') /\
      committed w' = committed w ++ [cb] /\
      helperDrawsCube (cube w) cb /\
      firstPassBinds (if useModel (pool w) then model w else cube w) cb.
Proof.
  intros Hcap. destruct (run_capable env events Hcap) as (w & Hrun & Hinv).
  exists w. rewrite Hrun. split; [done|].
  destruct Hinv as (Hc & _ & _ & Hcube & Hmodel & _ & Hhelper).
  split; [exact Hcube|]. split; [exact Hmodel|]. split; [exact Hhelper|].
  intros d.
  destruct (render_Some_commits d w Hc) as (w' & cb & Hr & Hm & _ & _ & Hh & Hf).
  by exists w', cb.
Qed.



End Claims.

Section Claim10.
Context `{Platform}.
Import Reals Lra.


End Claim10.

(** * The claims on concrete runs *)

Section Witnesses.
#[local] Existing Instance demoPlatform.
Import Reals Lra.

Lemma resetInstance_exactly_N_unique_witness :
  capable (demoEnv 3 demoDraws) = true /\
  exists w,
    snd (run (demoEnv 3 demoDraws) demoEvents) = Running w /\
    fst (onPool resetInstance (set_pool (set_cubeNum 1000 (pool w)) w)) = Normal tt /\
    exactlyBound 1000 (dispatch w (num_onFinishChange 1000)).
Proof.
  split; [reflexivity|].
  apply (resetInstance_exactly_N_unique (demoEnv 3 demoDraws) demoEvents 1000).
  reflexivity.
Defined.


Lemma failed_acquisition_stops_the_loop_witness :
  capable (demoEnv 3 demoDraws) = true /\
  exists w,
    snd (run (demoEnv 3 demoDraws) demoEvents) = Running w /\
    render None w = (Throw TypeError, updated w) /\
    forall later,
      let w' := dispatch w (animationFrame None) in
      committed (dispatchAll later w') = committed w /\
      animationFrameRequests (dispatchAll later w') = 0.
Proof.
  split; [reflexivity|].
  apply (failed_acquisition_stops_the_loop (demoEnv 3 demoDraws) demoEvents).
  reflexivity.
Defined.

(** The specification's reading of C3 fails: after a frame without a
    drawable no callback is pending. *)
Lemma acquisition_failure_not_absorbed : ~ absorbsAcquisitionFailure.
Proof.
  intros Habsorbs.
  pose proof (Habsorbs (demoEnv 2 demoDraws) []) as Hc.
  destruct (snd (run (demoEnv 2 demoDraws) [])) as [rejected|w] eqn:Hrun;
    vm_compute in Hrun; [discriminate Hrun|].
  injection Hrun as <-.
  destruct (Hc _ eq_refl eq_refl) as [Hpending _].
  vm_compute in Hpending. discriminate Hpending.
Qed.

Lemma brokenEnv_fails : startupFailure brokenEnv.
Proof.
  right. exists ["vertex_main"; "fragment_main"]%string, "vertex_main2"%string.
  split; [reflexivity|]. split.
  - apply elem_of_cons. right. apply elem_of_cons. by left.
  - intros Hin. repeat (apply elem_of_cons in Hin as [Hin|Hin]; [discriminate Hin|]).
    by apply elem_of_nil in Hin.
Qed.

Lemma startup_failure_aborts_witness :
  startupFailure brokenEnv /\
  renderEntered (snd (run brokenEnv demoEvents)) = false /\
  framesOf (snd (run brokenEnv demoEvents)) = [] /\
  (hasWebGPU brokenEnv = false ->
     fst (run brokenEnv demoEvents)
       = {| className := "error"; statsShown := false; guiShown := false |}) /\
  (hasWebGPU brokenEnv = true ->
     className (fst (run brokenEnv demoEvents)) = bodyClassName brokenEnv).
Proof.
  split; [exact brokenEnv_fails|].
  apply (startup_failure_aborts brokenEnv demoEvents). exact brokenEnv_fails.
Defined.

(** The specification's reading of C4 fails: a library without
    [vertex_main2] makes [init] return with the body's class untouched. *)
Lemma missing_shader_not_reported : ~ reportsStartupFailure.
Proof.
  intros Hreports. destruct (Hreports brokenEnv brokenEnv_fails) as [Hclass _].
  vm_compute in Hclass. discriminate Hclass.
Qed.


Lemma first_pass_clears_second_loads_witness :
  capable (demoEnv 3 demoDraws) = true /\
  exists w,
    snd (run (demoEnv 3 demoDraws) demoEvents) = Running w /\
    Forall clearsThenLoads (committed w) /\
    forall d, exists w' cb,
      render (Some d) w = (Normal tt, w') /\
      committed w' = committed w ++ [cb] /\
      clearsThenLoads cb.
Proof.
  split; [reflexivity|].
  apply (first_pass_clears_second_loads (demoEnv 3 demoDraws) demoEvents).
  reflexivity.
Defined.

(** At frame 343 the object at index 1 is in the [rotationX] branch:
    [(343 + 7) / 50 << 0] is 7. *)
Lemma animation_branches_exclusive_witness :
  cubeList (pool demoWorld) !! 1
    = Some {| x := -30; y := 5; z := 40; rotationX := 3; rotationY := 0.5;
              rotationZ := 4; scaleX := 2; scaleY := 2; scaleZ := 2;
              vertexUniform := Some 1 |} /\
  spinsY (time demoWorld) 1 = false /\
  exists obj',
    cubeList (pool (snd (render None demoWorld))) !! 1 = Some obj' /\
    rotationX obj' = 3.01%float /\ rotationY obj' = 0.5%float.
Proof.
  split; [reflexivity|]. split; [by vm_compute|].
  destruct (animation_branches_exclusive None demoWorld 1 _ eq_refl)
    as (obj' & Hobj' & _ & [(Hspin & _)|(_ & HX & HY)]).
  - vm_compute in Hspin. discriminate Hspin.
  - exists obj'. split; [exact Hobj'|]. split.
    + rewrite HX. by vm_compute.
    + rewrite HY. reflexivity.
Defined.


Lemma light_helper_draws_the_cube_witness :
  capable (demoEnv 3 demoDraws) = true /\
  exists w,
    snd (run (demoEnv 3 demoDraws) demoEvents) = Running w /\
    cube w = {| vertexBuffer := 0; numVertices := 36 |} /\
    vertexBuffer (model w) <> vertexBuffer (cube w) /\
    Forall (helperDrawsCube (cube w)) (committed w) /\
    forall d, exists w' cb,
      render (Some d) w = (Normal tt, w') /\
      committed w' = committed w ++ [cb] /\
      helperDrawsCube (cube w) cb /\
      firstPassBinds (if useModel (pool w) then model w else cube w) cb.
Proof.
  split; [reflexivity|].
  apply (light_helper_draws_the_cube (demoEnv 3 demoDraws) demoEvents).
  reflexivity.
Defined.


End Witnesses.

(** * Further properties of the program *)

Section RebuildBehaviour.
Context `{Platform}.

(** One iteration of the second loop, on a free list without [null]. *)
Lemma buildInstance_result cubeScale p :
  Forall is_Some (cubeUniformList p) ->
  exists p',
    buildInstance cubeScale p = (Normal tt, p') /\
    cubeList p'
      = cubeList p
        ++ placedObjects cubeScale (randomValues p) (randomDrawn p) (slotSupply p 1) /\
    cubeUniformList p' = drop 1 (cubeUniformList p) /\
    length (uniforms p') = length (uniforms p) + (1 - length (cubeUniformList p)) /\
    randomDrawn p' = randomDrawn p + 5 /\
    randomValues p' = randomValues p /\
    useModel p' = useModel p /\ cubeNum p' = cubeNum p.
Proof.
  intros Hfree. unfold slotSupply, placedObjects.
  destruct (cubeUniformList p) as [|u rest] eqn:Hlist.
  - unfold buildInstance. js_unfold.
    unfold Math_random, VertexUniform_new, createBuffer. simpl. rewrite Hlist. simpl.
    eexists. split; [reflexivity|]. simpl.
    rewrite !length_alter, length_app, Nat.add_0_r. simpl. repeat split; try done; lia.
  - inversion Hfree as [|? ? [i ->] _]; subst.
    unfold buildInstance. js_unfold. unfold Math_random. simpl. rewrite Hlist. simpl.
    eexists. split; [reflexivity|]. simpl.
    rewrite !length_alter, Nat.add_0_r, drop_0. simpl. repeat split; try done; lia.
Qed.

Lemma slotSupply_step p p' n :
  cubeUniformList p' = drop 1 (cubeUniformList p) ->
  length (uniforms p') = length (uniforms p) + (1 - length (cubeUniformList p)) ->
  slotSupply p (S n) = slotSupply p 1 ++ slotSupply p' n.
Proof.
  unfold slotSupply. intros -> ->.
  destruct (cubeUniformList p) as [|u rest]; simpl.
  - by rewrite Nat.sub_0_r, Nat.add_1_r.
  - rewrite drop_0. replace (0 - length rest) with 0 by lia. by rewrite Nat.add_0_r.
Qed.

Lemma placedObjects_app cubeScale draws d refs refs' :
  placedObjects cubeScale draws d (refs ++ refs')
    = placedObjects cubeScale draws d refs
      ++ placedObjects cubeScale draws (d + 5 * length refs) refs'.
Proof.
  unfold placedObjects. rewrite imap_app. f_equal.
  apply imap_ext. intros k u _. simpl. do 2 f_equal. lia.
Qed.

Lemma slotSupply_length_1 p : length (slotSupply p 1) = 1.
Proof.
  unfold slotSupply. destruct (cubeUniformList p); simpl; rewrite ?take_0; done.
Qed.

(** The second loop, on a free list without [null]. *)
Lemma buildLoop_result cubeScale n p :
  Forall is_Some (cubeUniformList p) ->
  exists p',
    buildLoop n cubeScale p = (Normal tt, p') /\
    cubeList p'
      = cubeList p
        ++ placedObjects cubeScale (randomValues p) (randomDrawn p) (slotSupply p n) /\
    cubeUniformList p' = drop n (cubeUniformList p) /\
    randomDrawn p' = randomDrawn p + 5 * n /\
    randomValues p' = randomValues p /\
    useModel p' = useModel p /\ cubeNum p' = cubeNum p.
Proof.
  revert p. induction n as [|n IH]; intros p Hfree.
  - exists p. split; [done|]. unfold slotSupply, placedObjects. rewrite take_0. simpl.
    rewrite app_nil_r, drop_0. repeat split; try done; lia.
  - destruct (buildInstance_result cubeScale p Hfree)
      as (p1 & Hrun1 & Hlist1 & Hfree1 & Hus1 & Hdrawn1 & Hvals1 & Hmodel1 & Hnum1).
    destruct (IH p1) as (p2 & Hrun2 & Hlist2 & Hfree2 & Hdrawn2 & Hvals2 & Hmodel2 & Hnum2).
    { rewrite Hfree1. by apply Forall_drop. }
    exists p2. split; [simpl; js_unfold; by rewrite Hrun1|].
    rewrite Hlist2, Hlist1, Hfree2, Hfree1, Hdrawn2, Hdrawn1, Hvals2, Hvals1.
    rewrite (slotSupply_step p p1 n Hfree1 Hus1), placedObjects_app, slotSupply_length_1.
    rewrite <- app_assoc, drop_drop. repeat split; try congruence; try lia.
Qed.

(** What a rebuild computes, on a pool without [null] bindings. *)
Lemma resetInstance_result p :
  Forall is_Some (cubeUniformList p ++ liveRefs p) ->
  exists p',
    resetInstance p = (Normal tt, p') /\
    cubeList p'
      = placedObjects (cubeScaleOf (useModel p)) (randomValues p) (randomDrawn p)
          (slotSupply (afterRelease p) (cubeNum p)) /\
    cubeUniformList p' = drop (cubeNum p) (cubeUniformList p ++ liveRefs p) /\
    randomDrawn p' = randomDrawn p + 5 * cubeNum p /\
    randomValues p' = randomValues p /\
    useModel p' = useModel p /\ cubeNum p' = cubeNum p.
Proof.
  intros Hrefs.
  destruct (buildLoop_result (cubeScaleOf (useModel p)) (cubeNum p) (afterRelease p))
    as (p' & Hrun & Hlist & Hfree & Hdrawn & Hvals & Hmodel & Hnum).
  { simpl. by rewrite releaseLoop_app. }
  exists p'. split; [exact Hrun|]. simpl in *. rewrite releaseLoop_app in Hfree.
  by repeat split.
Qed.

End RebuildBehaviour.

Section RebuildTheorems.
Context `{Platform}.

Lemma liveRefs_placedObjects cubeScale draws d refs :
  map vertexUniform (placedObjects cubeScale draws d refs) = refs.
Proof.
  apply list_eq. intros i. change (map vertexUniform ?l) with (vertexUniform <$> l).
  unfold placedObjects. rewrite list_lookup_fmap, list_lookup_imap.
  by destruct (refs !! i).
Qed.

Lemma slotSupply_length p n : length (slotSupply p n) = n.
Proof.
  unfold slotSupply. rewrite length_take, length_app, length_map, length_seq. lia.
Qed.

Lemma slotSupply_enough p n :
  n <= length (cubeUniformList p) -> slotSupply p n = take n (cubeUniformList p).
Proof.
  intros Hn. unfold slotSupply. replace (n - length (cubeUniformList p)) with 0 by lia.
  simpl. by rewrite app_nil_r.
Qed.

(** X1: a rebuild on a pool without [null] bindings hands out the
    [VertexUniform]s first in, first out. The released bindings (the free
    list, then those of the objects released, in pool order) are taken from
    the head, one per new object; when they run out, [VertexUniform]s are
    constructed, in order. What is left of the released bindings is the new
    free list. So a rebuild that asks for no more than there is binds
    released [VertexUniform]s only, and with an empty free list and an
    unchanged count the object at each index is bound to the
    [VertexUniform] of its predecessor. *)
Theorem rebuild_recycles_in_order p :
  Forall is_Some (cubeUniformList p ++ liveRefs p) ->
  let released := cubeUniformList p ++ liveRefs p in
  exists p',
    resetInstance p = (Normal tt, p') /\
    liveRefs p'
      = take (cubeNum p)
          (released
           ++ map Some (seq (length (uniforms p)) (cubeNum p - length released))) /\
    cubeUniformList p' = drop (cubeNum p) released /\
    (cubeNum p <= length released -> liveRefs p' = take (cubeNum p) released) /\
    (cubeUniformList p = [] -> cubeNum p = length (cubeList p) ->
     liveRefs p' = liveRefs p).
Proof.
  intros Hrefs released.
  destruct (resetInstance_result p Hrefs) as (p' & Hrun & Hlist & Hfree & _).
  exists p'. split; [exact Hrun|].
  assert (Hlive : liveRefs p' = slotSupply (afterRelease p) (cubeNum p)).
  { unfold liveRefs. rewrite Hlist. apply liveRefs_placedObjects. }
  assert (Hreleased : cubeUniformList (afterRelease p) = released).
  { simpl. by rewrite releaseLoop_app. }
  split; [|split; [exact Hfree|split]].
  - rewrite Hlive. unfold slotSupply. by rewrite Hreleased.
  - intros Hn. rewrite Hlive, slotSupply_enough by (by rewrite Hreleased).
    by rewrite Hreleased.
  - intros Hempty Hn. rewrite Hlive, slotSupply_enough.
    + rewrite Hreleased. unfold released. rewrite Hempty. simpl.
      apply take_ge. unfold liveRefs. rewrite length_map. lia.
    + rewrite Hreleased. unfold released, liveRefs. rewrite Hempty. simpl.
      rewrite length_map. lia.
Qed.

(** X2: a rebuild on a pool without [null] bindings makes [cubeNum]
    objects and calls [Math.random] five times for each, for [x], [y], [z],
    [rotationX] and [rotationZ] in that order: the object at index [k] is
    [placedObject] of the draws that begin at draw [5 * k] of the rebuild,
    with the scale for [useModel], bound to a [VertexUniform]. Its
    [rotationY] is that of a new [SceneObject]: what the frames had added
    is gone. *)
Theorem rebuild_places_from_draws p :
  Forall is_Some (cubeUniformList p ++ liveRefs p) ->
  exists p',
    resetInstance p = (Normal tt, p') /\
    length (cubeList p') = cubeNum p /\
    randomDrawn p' = randomDrawn p + 5 * cubeNum p /\
    randomValues p' = randomValues p /\
    forall k obj,
      cubeList p' !! k = Some obj ->
      obj = with_vertexUniform (vertexUniform obj)
              (placedObject (cubeScaleOf (useModel p)) (randomValues p)
                 (randomDrawn p + 5 * k)).
Proof.
  intros Hrefs.
  destruct (resetInstance_result p Hrefs) as (p' & Hrun & Hlist & _ & Hdrawn & Hvals & _).
  exists p'. split; [exact Hrun|]. rewrite Hlist. unfold placedObjects.
  rewrite length_imap, slotSupply_length. repeat split; try done.
  intros k obj Hk. rewrite list_lookup_imap in Hk.
  destruct (slotSupply (afterRelease p) (cubeNum p) !! k) as [u|]; [|done].
  simpl in Hk. by injection Hk as <-.
Qed.

End RebuildTheorems.

Section SlotProofs.
Context `{Platform}.

Lemma alter_alter {A} (f g : A -> A) i (l : list A) :
  alter f i (alter g i l) = alter (f ∘ g) i l.
Proof. revert i. induction l as [|a l IH]; intros [|i]; simpl; f_equal; try done; apply IH. Qed.

Lemma alter_snoc {A} (f : A -> A) (l : list A) a :
  alter f (length l) (l ++ [a]) = l ++ [f a].
Proof. induction l as [|b l IH]; simpl; f_equal; try done; apply IH. Qed.

Lemma map_alter_keep {A B} (field : A -> B) (f : A -> A) i (l : list A) :
  (forall a, field (f a) = field a) -> map field (alter f i l) = map field l.
Proof.
  intros Hf. revert i. induction l as [|a l IH]; intros [|i]; simpl; f_equal; try done;
    first [apply Hf | apply IH].
Qed.

(** What one iteration of the second loop does to the free list and to
    the [VertexUniform]s, however it ends. *)
Lemma buildInstance_slots cubeScale p :
  let p' := snd (buildInstance cubeScale p) in
  (exists f,
      cubeUniformList p = [] /\ cubeUniformList p' = [] /\
      gpuBuffers p' = S (gpuBuffers p) /\
      uniforms p' = uniforms p ++ [f (with_buffer (Some (gpuBuffers p)) newVertexUniform)] /\
      forall u, buffer (f u) = buffer u) \/
  (exists i rest f,
      cubeUniformList p = Some i :: rest /\ cubeUniformList p' = rest /\
      gpuBuffers p' = gpuBuffers p /\
      uniforms p' = alter f i (uniforms p) /\
      forall u, buffer (f u) = buffer u) \/
  (exists rest,
      cubeUniformList p = None :: rest /\ cubeUniformList p' = rest /\
      gpuBuffers p' = gpuBuffers p /\ uniforms p' = uniforms p).
Proof.
  destruct (cubeUniformList p) as [|[i|] rest] eqn:Hfree.
  - left. destruct (buildInstance_fresh cubeScale p Hfree)
      as (obj & p' & Hrun & _ & _ & Hus & Hfree' & Hbuf & _).
    rewrite Hrun. simpl. rewrite !alter_alter, alter_snoc in Hus.
    eexists. split; [done|]. split; [done|]. split; [done|]. split; [exact Hus|].
    by intros [].
  - right. left. destruct (buildInstance_reuse cubeScale p i rest Hfree)
      as (obj & p' & Hrun & _ & _ & Hus & Hfree' & Hbuf & _).
    rewrite Hrun. simpl. rewrite !alter_alter in Hus.
    eexists i, rest, _. split; [done|]. split; [done|]. split; [done|].
    split; [exact Hus|]. by intros [].
  - right. right. exists rest. split; [done|].
    unfold buildInstance. js_unfold. unfold Math_random. simpl. rewrite Hfree. simpl.
    by repeat split.
Qed.

Lemma buildLoop_preserves (P : Pool -> Prop) cubeScale n p :
  (forall q, P q -> P (snd (buildInstance cubeScale q))) ->
  P p -> P (snd (buildLoop n cubeScale p)).
Proof.
  intros Hstep. revert p. induction n as [|n IH]; intros p Hp; simpl; [done|].
  js_unfold. specialize (Hstep p Hp).
  destruct (buildInstance cubeScale p) as [[[]|e] p1]; simpl in *; [by apply IH | done].
Qed.

Lemma resetInstance_preserves (P : Pool -> Prop) p :
  (forall cubeScale q, P q -> P (snd (buildInstance cubeScale q))) ->
  P (afterRelease p) -> P (snd (resetInstance p)).
Proof.
  intros Hstep Hp.
  exact (buildLoop_preserves P _ (cubeNum p) (afterRelease p) (Hstep _) Hp).
Qed.

(** A [VertexUniform] that is not on the free list is left as it is. *)
Lemma buildInstance_untouched cubeScale j p :
  Some j ∉ cubeUniformList p -> j < length (uniforms p) ->
  let p' := snd (buildInstance cubeScale p) in
  (Some j ∉ cubeUniformList p') /\ j < length (uniforms p') /\
  uniforms p' !! j = uniforms p !! j.
Proof.
  intros Hj Hlt. cbv zeta.
  destruct (buildInstance_slots cubeScale p)
    as [(f & Hfree & -> & _ & -> & _)
       |[(i & rest & f & Hfree & -> & _ & -> & _)|(rest & Hfree & -> & _ & ->)]];
    rewrite Hfree in Hj.
  - rewrite length_app, lookup_app_l by done. split; [done|]. split; [lia|done].
  - apply not_elem_of_cons in Hj as [Hne Hj]. rewrite length_alter.
    rewrite list_lookup_alter_ne by congruence. done.
  - apply not_elem_of_cons in Hj as [_ Hj]. done.
Qed.

Lemma resetInstance_untouched j p :
  Some j ∉ cubeUniformList p ++ liveRefs p -> j < length (uniforms p) ->
  uniforms (snd (resetInstance p)) !! j = uniforms p !! j.
Proof.
  intros Hj Hlt.
  apply (resetInstance_preserves
           (fun q => (Some j ∉ cubeUniformList q) /\ j < length (uniforms q) /\
                     uniforms q !! j = uniforms p !! j)).
  - intros cubeScale q (Hq & Hlt' & Heq).
    destruct (buildInstance_untouched cubeScale j q Hq Hlt') as (? & ? & ?).
    split; [done|]. split; [done|]. congruence.
  - simpl. by rewrite releaseLoop_app.
Qed.

(** GPU buffers: one is created with each constructed [VertexUniform],
    and none otherwise. *)
Lemma buildInstance_buffers cubeScale p :
  let p' := snd (buildInstance cubeScale p) in
  (map buffer (uniforms p') = map buffer (uniforms p) /\ gpuBuffers p' = gpuBuffers p) \/
  (map buffer (uniforms p') = map buffer (uniforms p) ++ [Some (gpuBuffers p)] /\
   gpuBuffers p' = S (gpuBuffers p)).
Proof.
  cbv zeta.
  destruct (buildInstance_slots cubeScale p)
    as [(f & _ & _ & -> & -> & Hf)
       |[(i & rest & f & _ & _ & -> & -> & Hf)|(rest & _ & _ & -> & ->)]].
  - right. rewrite map_app. simpl. by rewrite Hf.
  - left. by rewrite map_alter_keep.
  - by left.
Qed.

Lemma buffersDistinct_grow reserved p p' :
  buffersDistinct reserved p ->
  (map buffer (uniforms p') = map buffer (uniforms p) /\ gpuBuffers p' = gpuBuffers p) \/
  (map buffer (uniforms p') = map buffer (uniforms p) ++ [Some (gpuBuffers p)] /\
   gpuBuffers p' = S (gpuBuffers p)) ->
  buffersDistinct reserved p'.
Proof.
  unfold buffersDistinct, buffersInUse. intros [Hnd Hall] [[-> ->]|[-> ->]]; [done|].
  rewrite app_assoc. split.
  - apply NoDup_app. split; [done|]. split; [|apply NoDup_singleton].
    intros b Hb Hin. apply list_elem_of_singleton in Hin as ->.
    rewrite Forall_forall in Hall. destruct (Hall _ Hb) as (h & [= <-] & Hlt). lia.
  - apply Forall_app. split.
    + eapply Forall_impl; [exact Hall|]. intros b (h & -> & Hlt). exists h. split; [done|lia].
    + constructor; [|constructor]. eexists. split; [done|lia].
Qed.

Lemma resetInstance_buffersDistinct reserved p :
  buffersDistinct reserved p -> buffersDistinct reserved (snd (resetInstance p)).
Proof.
  intros Hp. apply (resetInstance_preserves (buffersDistinct reserved)); [|exact Hp].
  intros cubeScale q Hq. eapply buffersDistinct_grow; [exact Hq|].
  apply buildInstance_buffers.
Qed.

End SlotProofs.

Section FrameProofs.
Context `{Platform}.

(** The draw loop writes only through the bindings of its objects. *)
Lemma drawLoop_untouched cameraMatrix lightDirection geometry objs enc p j :
  Some j ∉ map vertexUniform objs ->
  uniforms (snd (drawLoop cameraMatrix lightDirection geometry objs enc p)) !! j
    = uniforms p !! j.
Proof.
  revert enc p. induction objs as [|obj rest IH]; intros enc p Hj; simpl; [done|].
  simpl in Hj. apply not_elem_of_cons in Hj as [Hne Hj].
  js_unfold. destruct (vertexUniform obj) as [i|]; simpl; [|done].
  rewrite IH by done. simpl. rewrite !list_lookup_alter_ne by congruence. done.
Qed.

(** With no two objects bound to one [VertexUniform], the loop leaves in
    each object's [VertexUniform] what it wrote for that object. *)
Lemma drawLoop_written cameraMatrix lightDirection geometry objs enc p :
  NoDup (map vertexUniform objs) ->
  Forall (fun obj => exists i, vertexUniform obj = Some i /\ i < length (uniforms p)) objs ->
  Forall (holdsMatricesOf
            (uniforms (snd (drawLoop cameraMatrix lightDirection geometry objs enc p)))
            cameraMatrix lightDirection) objs.
Proof.
  revert enc p. induction objs as [|obj rest IH]; intros enc p Hnd Hobjs; [constructor|].
  simpl in Hnd. apply NoDup_cons in Hnd as [Hfresh Hnd].
  inversion Hobjs as [|? ? (i & Hi & Hlt) Hrest]; subst.
  rewrite Hi in Hfresh. simpl. js_unfold. rewrite Hi. simpl. constructor.
  - destruct (lookup_lt_is_Some_2 (uniforms p) i Hlt) as [u Hu].
    eexists i, _. split; [done|]. split.
    + rewrite drawLoop_untouched by done. simpl.
      rewrite !list_lookup_alter_eq, Hu. reflexivity.
    + done.
  - apply IH; [done|]. simpl. by rewrite !length_alter.
Qed.

Lemma flat_map_instanceCommands us geometry objs objs' :
  map vertexUniform objs' = map vertexUniform objs ->
  flat_map (instanceCommands us geometry) objs'
    = flat_map (instanceCommands us geometry) objs.
Proof.
  revert objs'. induction objs as [|obj rest IH]; intros [|obj' rest']; simpl; try done.
  intros [= Hhead Hrest]. rewrite (IH _ Hrest).
  unfold instanceCommands, bufferOf. by rewrite Hhead.
Qed.

Lemma consistent_bound w :
  consistent w ->
  NoDup (liveRefs (pool w)) /\
  Forall (fun obj => exists i, vertexUniform obj = Some i /\ i < length (uniforms (pool w)))
    (cubeList (pool w)) /\
  exists lh,
    vertexUniform (lightHelper w) = Some lh /\ lh < length (uniforms (pool w)) /\
    Some lh ∉ cubeUniformList (pool w) ++ liveRefs (pool w).
Proof.
  intros [Hpart _]. pose proof (partitioned_NoDup _ _ Hpart) as Hnd.
  apply NoDup_app in Hnd as (Hlive & Hdisj & Hnd).
  apply NoDup_app in Hnd as (Hfree & Hdisj' & _).
  split; [exact Hlive|]. split.
  - rewrite Forall_forall. intros obj Hobj.
    apply (partitioned_valid _ _ _ Hpart), elem_of_app. left.
    unfold liveRefs. by apply list_elem_of_fmap_2.
  - destruct (partitioned_valid _ _ (vertexUniform (lightHelper w)) Hpart)
      as (lh & Hlh & Hlt).
    { apply elem_of_app. right. apply elem_of_app. right. by left. }
    exists lh. split; [done|]. split; [done|]. rewrite <- Hlh.
    apply not_elem_of_app. split.
    + intros Hin. apply (Hdisj' _ Hin). by left.
    + intros Hin. apply (Hdisj _ Hin). apply elem_of_app. right. by left.
Qed.

(** A frame with a drawable on a consistent world, in full. *)
Lemma render_Some_exact d w :
  consistent w ->
  let w1 := updated w in
  let geometry := if useModel (pool w) then model w else cube w in
  let drawn :=
    snd (drawLoop (getCameraMtx (camera w1)) (lightDirectionAt (time w)) geometry
           (cubeList (pool w1))
           [setRenderPipelineState (cubeRenderPipelineState w);
            setDepthStencilState;
            setVertexBuffer (Some (vertexBuffer geometry)) 0 0]
           (pool w1)) in
  exists w' lh,
    render (Some d) w = (Normal tt, w') /\
    vertexUniform (lightHelper w) = Some lh /\
    cubeList (pool w') = cubeList (pool w1) /\
    lightHelper w' = lightHelper w1 /\
    camera w' = camera w1 /\
    uniforms (pool w')
      = alter (with_mvpMatrix
                 (mat4_multiply (getCameraMtx (camera w1)) (getModelMtx (lightHelper w1))))
          lh (uniforms drawn) /\
    animationFrameRequests w' = S (animationFrameRequests w) /\
    committed w' = committed w ++
      [{| passes :=
            [{| descriptor :=
                  {| color0_texture := Some (texture d);
                     color0_loadAction := Some WebGPULoadAction.clear;
                     depth_loadAction := Some WebGPULoadAction.clear |};
                commands :=
                  [setRenderPipelineState (cubeRenderPipelineState w);
                   setDepthStencilState;
                   setVertexBuffer (Some (vertexBuffer geometry)) 0 0]
                  ++ flat_map (instanceCommands (uniforms (pool w)) geometry)
                       (cubeList (pool w)) |};
             {| descriptor :=
                  {| color0_texture := Some (texture d);
                     color0_loadAction := Some WebGPULoadAction.load;
                     depth_loadAction := Some WebGPULoadAction.load |};
                commands :=
                  [setRenderPipelineState (lightHelperRenderPipelineState w);
                   setDepthStencilState;
                   setVertexBuffer (Some (vertexBuffer (cube w))) 0 0;
                   setVertexBuffer (bufferOf (uniforms (pool w)) (lightHelper w)) 0 1;
                   drawPrimitives WebGPUPrimitiveType.linestrip 0
                     (numVertices (cube w))] |}];
          presented := d |}].
Proof.
  intros Hc w1 geometry drawn.
  destruct (consistent_bound w Hc) as (_ & Hlive & lh & Hlh & _).
  assert (Hall : Forall (fun obj => is_Some (vertexUniform obj)) (cubeList (pool w1))).
  { simpl. apply (Forall_fmap vertexUniform is_Some). rewrite animateLoop_refs.
    apply (Forall_fmap vertexUniform is_Some).
    eapply Forall_impl; [exact Hlive|]. intros obj (i & Hi & _). by exists i. }
  pose proof (drawLoop_ok (getCameraMtx (camera w1)) (lightDirectionAt (time w)) geometry
                (cubeList (pool w1))
                [setRenderPipelineState (cubeRenderPipelineState w);
                 setDepthStencilState;
                 setVertexBuffer (Some (vertexBuffer geometry)) 0 0]
                (pool w1) Hall) as Hok.
  pose proof (drawLoop_frame (getCameraMtx (camera w1)) (lightDirectionAt (time w)) geometry
                (cubeList (pool w1))
                [setRenderPipelineState (cubeRenderPipelineState w);
                 setDepthStencilState;
                 setVertexBuffer (Some (vertexBuffer geometry)) 0 0]
                (pool w1)) as Hframe.
  subst drawn.
  remember (drawLoop (getCameraMtx (camera w1)) (lightDirectionAt (time w)) geometry
              (cubeList (pool w1))
              [setRenderPipelineState (cubeRenderPipelineState w);
               setDepthStencilState;
               setVertexBuffer (Some (vertexBuffer geometry)) 0 0]
              (pool w1)) as drawn eqn:Hdrawn.
  unfold render, onPool. js_unfold. simpl.
  match goal with
  | |- context [drawLoop ?a ?b ?c ?d ?e ?f] =>
      replace (drawLoop a b c d e f) with drawn by (by rewrite Hdrawn)
  end.
  clear Hdrawn. destruct drawn as [[cmds|e'] p2]; simpl in *; [|discriminate Hok].
  injection Hok as ->. rewrite Hlh. simpl.
  eexists _, lh. split; [reflexivity|]. simpl.
  destruct Hframe as (_&_&Hlist&_&_&_&_&Hus). simpl in Hlist, Hus.
  split; [done|]. split; [exact Hlist|]. do 4 (split; [done|]).
  rewrite (flat_map_instanceCommands (uniforms (pool w)) geometry (cubeList (pool w))
             (animateLoop (time w) 0 (cubeList (pool w)))) by apply animateLoop_refs.
  unfold bufferOf. rewrite Hlh. simpl. rewrite list_lookup_alter_eq.
  pose proof (sameStatic_lookup buffer _ _ lh ltac:(by intros ?? (?&_)) Hus) as Hb.
  destruct (uniforms p2 !! lh), (uniforms (pool w) !! lh); simpl in *;
    try discriminate Hb; try (injection Hb as ->); reflexivity.
Qed.

End FrameProofs.

Section InvariantProofs.
Context `{Platform}.

Lemma scaledBy_placedObjects cubeScale draws d refs :
  Forall (scaledBy cubeScale) (placedObjects cubeScale draws d refs).
Proof.
  apply Forall_lookup. intros k obj Hk. unfold placedObjects in Hk.
  rewrite list_lookup_imap in Hk. destruct (refs !! k) as [u|]; [|done].
  simpl in Hk. injection Hk as <-. by repeat split.
Qed.

Lemma sameStatic_buffers us us' :
  Forall2 sameStatic us us' -> map buffer us' = map buffer us.
Proof.
  induction 1 as [|u u' us us' (Hb & _) _ IH]; simpl; [done|]. by rewrite Hb, IH.
Qed.

Lemma consistent_refs w :
  consistent w -> Forall is_Some (cubeUniformList (pool w) ++ liveRefs (pool w)).
Proof.
  intros [Hpart _]. rewrite Forall_forall. intros u Hu.
  destruct (partitioned_valid _ _ u Hpart) as (i & -> & _); [|done].
  apply elem_of_app in Hu as [Hu|Hu].
  - apply elem_of_app. right. apply elem_of_app. by left.
  - apply elem_of_app. by left.
Qed.

(** The buffers bound by a frame: one per live object and one for the
    light helper, pairwise distinct and none a vertex buffer. *)
Lemma bound_buffers w :
  consistent w ->
  buffersDistinct [vertexBuffer (cube w); vertexBuffer (model w)] (pool w) ->
  exists bufs helperBuf,
    map (bufferOf (uniforms (pool w))) (cubeList (pool w)) = map Some bufs /\
    bufferOf (uniforms (pool w)) (lightHelper w) = Some helperBuf /\
    NoDup (vertexBuffer (cube w) :: vertexBuffer (model w) :: helperBuf :: bufs).
Proof.
  intros [Hpart _] [Hnd Hall]. unfold buffersInUse in *.
  pose proof (partitioned_NoDup _ _ Hpart) as Hrefs.
  assert (Hvalid : forall u, u ∈ vertexUniform (lightHelper w) :: liveRefs (pool w) ->
            exists i, u = Some i /\ i < length (uniforms (pool w))).
  { intros u Hu. apply (partitioned_valid _ _ _ Hpart).
    apply elem_of_cons in Hu as [->|Hu].
    - apply elem_of_app. right. apply elem_of_app. right. by left.
    - apply elem_of_app. by left. }
  assert (Hrefs' : NoDup (vertexUniform (lightHelper w) :: liveRefs (pool w))).
  { apply NoDup_app in Hrefs as (Hlive & Hdisj & _). apply NoDup_cons. split; [|done].
    intros Hin. apply (Hdisj _ Hin). apply elem_of_app. right. by left. }
  assert (Hobjs : exists all,
            map (bufferOf (uniforms (pool w))) (lightHelper w :: cubeList (pool w))
              = map Some all /\
            NoDup all /\
            forall b, b ∈ all -> Some b ∈ map buffer (uniforms (pool w))).
  { unfold liveRefs in *.
    change (vertexUniform (lightHelper w) :: map vertexUniform (cubeList (pool w)))
      with (map vertexUniform (lightHelper w :: cubeList (pool w))) in *.
    generalize dependent (lightHelper w :: cubeList (pool w)). clear Hpart Hrefs.
    intros objs. induction objs as [|obj objs IH]; intros Hvalid Hrefs.
    - exists nil. split; [done|]. split; [constructor|]. intros b Hb.
      by apply elem_of_nil in Hb.
    - simpl in Hrefs. apply NoDup_cons in Hrefs as [Hfresh Hrefs].
      destruct IH as (all & Hmap & Hall' & Hin); [|done|].
      { intros u Hu. apply Hvalid. simpl. by right. }
      destruct (Hvalid (vertexUniform obj)) as (i & Hi & Hlt); [simpl; by left|].
      destruct (lookup_lt_is_Some_2 _ _ Hlt) as [u Hu].
      assert (Hbuf : buffer u ∈ map buffer (uniforms (pool w))).
      { apply list_elem_of_fmap. exists u. split; [done|].
        apply list_elem_of_lookup. by exists i. }
      rewrite Forall_forall in Hall.
      destruct (Hall (buffer u)) as (h & Hh & _).
      { apply elem_of_app. by right. }
      exists (h :: all). simpl. rewrite Hmap. unfold bufferOf at 1. rewrite Hi. simpl.
      rewrite Hu. simpl. split; [by rewrite Hh|]. split.
      + apply NoDup_cons. split; [|done]. intros Hdup.
        assert (Hsome : Some h ∈ map (bufferOf (uniforms (pool w))) objs).
        { rewrite Hmap. by apply list_elem_of_fmap_2. }
        apply list_elem_of_fmap in Hsome as (obj' & Hb' & Hobj').
        destruct (Hvalid (vertexUniform obj')) as (j & Hj & Hlt').
        { simpl. right. by apply list_elem_of_fmap_2. }
        unfold bufferOf in Hb'. rewrite Hj in Hb'. simpl in Hb'.
        destruct (lookup_lt_is_Some_2 _ _ Hlt') as [u' Hu']. rewrite Hu' in Hb'.
        simpl in Hb'.
        apply NoDup_app in Hnd as (_ & _ & Hnd).
        assert (i = j).
        { apply (NoDup_lookup (map buffer (uniforms (pool w))) i j (Some h)); [done| |].
          - change (map buffer ?l) with (buffer <$> l).
            by rewrite list_lookup_fmap, Hu, <- Hh.
          - change (map buffer ?l) with (buffer <$> l).
            by rewrite list_lookup_fmap, Hu', Hb'. }
        subst j. apply Hfresh. rewrite Hi, <- Hj. by apply list_elem_of_fmap_2.
      + intros b Hb. apply elem_of_cons in Hb as [->|Hb]; [|by apply Hin].
        by rewrite <- Hh. }
  destruct Hobjs as ([|helperBuf bufs] & Hmap & Hall' & Hin); [discriminate Hmap|].
  simpl in Hmap. injection Hmap as Hhelper Hmap.
  exists bufs, helperBuf. split; [done|]. split; [done|].
  apply NoDup_app in Hnd as (Hres & Hdisj & _). simpl in Hres, Hdisj.
  apply NoDup_cons in Hres as [Hne _].
  assert (Hout : forall b, b ∈ helperBuf :: bufs ->
            b <> vertexBuffer (cube w) /\ b <> vertexBuffer (model w)).
  { intros b Hb. specialize (Hin b Hb). split; intros ->.
    - apply (Hdisj (Some (vertexBuffer (cube w)))); [by left | done].
    - apply (Hdisj (Some (vertexBuffer (model w)))); [right; by left | done]. }
  apply NoDup_cons. split.
  - intros Hc. apply elem_of_cons in Hc as [Hc|Hc].
    + apply Hne. rewrite Hc. by left.
    + destruct (Hout _ Hc) as [Hx _]. done.
  - apply NoDup_cons. split; [|done].
    intros Hc. destruct (Hout _ Hc) as [_ Hx]. done.
Qed.

End InvariantProofs.

Section KeptProofs.
Context `{Platform}.

Lemma instanceCommands_bufs us geometry objs bufs :
  map (bufferOf us) objs = map Some bufs ->
  flat_map (instanceCommands us geometry) objs = flat_map (instanceDraw geometry) bufs.
Proof.
  revert bufs. induction objs as [|obj objs IH]; intros [|b bufs]; simpl; try done.
  intros [= Hb Hrest]. rewrite (IH _ Hrest). unfold instanceCommands, instanceDraw.
  by rewrite Hb.
Qed.

Lemma scaledBy_animateLoop s t i objs :
  Forall (scaledBy s) objs -> Forall (scaledBy s) (animateLoop t i objs).
Proof.
  apply animateLoop_Forall. intros k o (Hx & Hy & Hz).
  destruct (animate_placement t k o) as (_&_&_&_&Hx'&Hy'&Hz'&_).
  unfold scaledBy. by rewrite Hx', Hy', Hz'.
Qed.

(** The updates of lines 233-254 keep what [init] has set up. *)
Lemma updated_behaviour env w :
  behaviourInvariant env w -> behaviourInvariant env (updated w).
Proof.
  intros (Hscaled & Hhelper & Hrest). split; [|split].
  - simpl. by apply scaledBy_animateLoop.
  - exact Hhelper.
  - exact Hrest.
Qed.

(** A frame keeps it too, and what it commits is well encoded. *)
Lemma render_behaviour env d w :
  consistent w -> behaviourInvariant env w ->
  behaviourInvariant env (snd (render d w)).
Proof.
  intros Hc Hinv.
  destruct d as [d|]; [|rewrite render_None; by apply updated_behaviour].
  destruct Hinv as (Hscaled & Hhelper & Hbufs & Hwired & Hframes & Htargets).
  destruct (render_frame (Some d) w)
    as ((Hmodel&_&Hlist&_&Hgpu&_&_&Hus) & _ & Hcube & Hmesh & Hp1 & Hp2 & _).
  destruct (render_Some_exact d w Hc)
    as (w' & lh & Hrun & Hlh & _ & Hlh' & _ & Hus' & _ & Hcommitted).
  rewrite Hrun in *. simpl in *.
  destruct (consistent_bound w Hc) as (_ & _ & lh0 & Hlh0 & Hlt & Hout).
  assert (lh0 = lh) as -> by congruence.
  split; [|split; [|split; [|split; [|split]]]].
  - rewrite Hlist, Hmodel. by apply scaledBy_animateLoop.
  - destruct Hhelper as (Hrx & Hrz & Hry & Hsx & Hsy & Hsz & i & u & Hi & Hu & Hfields).
    assert (i = lh) as -> by congruence.
    unfold helperAsMade. rewrite Hlh'. simpl.
    do 6 (split; [done|]).
    eexists lh, _. split; [done|]. split.
    + rewrite Hus', list_lookup_alter_eq, drawLoop_untouched.
      * simpl. rewrite Hu. reflexivity.
      * simpl. rewrite animateLoop_refs. intros Hin. apply Hout.
        apply elem_of_app. by right.
    + exact Hfields.
  - unfold buffersDistinct, buffersInUse in *.
    by rewrite Hcube, Hmesh, (sameStatic_buffers _ _ Hus), Hgpu.
  - destruct Hwired as (Hw1 & Hw2 & Hw3 & Hw4). unfold wired.
    by rewrite Hp1, Hp2, Hcube, Hmesh.
  - rewrite Hcommitted, Hcube, Hmesh. apply Forall_app. split; [exact Hframes|].
    constructor; [|constructor].
    destruct (bound_buffers w Hc Hbufs) as (bufs & helperBuf & Hmap & Hhb & Hnd).
    destruct Hwired as (Hw1 & Hw2 & _).
    exists (if useModel (pool w) then model w else cube w), bufs, helperBuf.
    eexists _, _. split; [by destruct (useModel (pool w)); [right|left]|].
    split; [|exact Hnd]. simpl.
    by rewrite Hw1, Hw2, Hhb, (instanceCommands_bufs _ _ _ _ Hmap).
  - rewrite Hcommitted. apply Forall_app. split; [exact Htargets|].
    constructor; [|constructor]. unfold targetsPresented. simpl.
    constructor; [done|]. constructor; [done|]. constructor.
Qed.

(** A rebuild keeps what does not depend on the settings, and scales the
    new objects by the setting it finds. *)
Lemma rebuild_behaviour env w :
  consistent w -> keptInvariant env w ->
  behaviourInvariant env (snd (onPool resetInstance w)).
Proof.
  intros Hc (Hhelper & Hbufs & Hwired & Hframes & Htargets).
  destruct (resetInstance_result (pool w) (consistent_refs w Hc))
    as (p' & Hrun & Hlist & _ & _ & _ & Hmodel & _).
  pose proof (resetInstance_buffersDistinct _ _ Hbufs) as Hbufs'.
  destruct (consistent_bound w Hc) as (_ & _ & lh & Hlh & Hlt & Hout).
  pose proof (resetInstance_untouched lh (pool w) Hout Hlt) as Hsame.
  unfold onPool, zoom. rewrite Hrun in *. simpl in *.
  split; [|split; [|split; [|split; [|split]]]]; try done.
  - simpl. rewrite Hlist, Hmodel. apply scaledBy_placedObjects.
  - destruct Hhelper as (Hrx & Hrz & Hry & Hsx & Hsy & Hsz & i & u & Hi & Hu & Hfields).
    unfold helperAsMade. simpl. do 6 (split; [done|]).
    exists i, u. split; [done|]. split; [|done].
    assert (i = lh) as -> by congruence. by rewrite Hsame.
Qed.

Lemma dispatch_behaviour env w e :
  consistent w -> behaviourInvariant env w -> behaviourInvariant env (dispatch w e).
Proof.
  intros Hc Hinv. destruct e as [value|value|d]; simpl.
  - apply rebuild_behaviour; [exact Hc | exact (proj2 Hinv)].
  - apply rebuild_behaviour; [exact Hc | exact (proj2 Hinv)].
  - destruct (animationFrameRequests w) as [|k]; [done|].
    by apply (render_behaviour env d (set_animationFrameRequests k w)).
Qed.

Lemma dispatchAll_behaviour env events w :
  consistent w -> behaviourInvariant env w ->
  behaviourInvariant env (dispatchAll events w).
Proof.
  revert w. induction events as [|e events IH]; intros w Hc Hinv; simpl; [done|].
  apply IH; [by apply dispatch_consistent | by apply dispatch_behaviour].
Qed.

End KeptProofs.

Section LightProofs.
Context `{Platform}.

Lemma buildInstance_lit others cubeScale p :
  partitioned others p -> lit p -> lit (snd (buildInstance cubeScale p)).
Proof.
  intros Hpart Hlit. pose proof (partitioned_NoDup _ _ Hpart) as Hnd.
  unfold lit in *.
  destruct (cubeUniformList p) as [|[i|] rest] eqn:Hfree.
  - destruct (buildInstance_fresh cubeScale p Hfree)
      as (obj & p' & Hrun & Hobj & Hlist & Hus & _).
    rewrite Hrun. simpl. rewrite Hlist, Hus, !alter_alter, alter_snoc.
    apply Forall_app. split.
    + eapply Forall_impl; [exact Hlit|]. intros o (j & u & Hj & Hu & Hfields).
      exists j, u. split; [done|]. split; [|done].
      rewrite lookup_app_l; [done|]. by eapply lookup_lt_Some.
    + constructor; [|constructor]. eexists _, _. split; [exact Hobj|]. split.
      * by apply list_lookup_middle.
      * done.
  - destruct (buildInstance_reuse cubeScale p i rest Hfree)
      as (obj & p' & Hrun & Hobj & Hlist & Hus & _).
    rewrite Hrun. simpl. rewrite Hlist, Hus, !alter_alter.
    destruct (partitioned_valid _ _ (Some i) Hpart) as (i' & [= <-] & Hlt).
    { apply elem_of_app. right. apply elem_of_app. left. rewrite Hfree. by left. }
    apply Forall_app. split.
    + rewrite Forall_forall in Hlit |- *. intros o Ho.
      destruct (Hlit o Ho) as (j & u & Hj & Hu & Hfields).
      exists j, u. split; [done|]. split; [|done].
      rewrite list_lookup_alter_ne; [done|]. intros <-.
      apply NoDup_app in Hnd as (_ & Hdisj & _).
      apply (Hdisj (Some i)).
      * unfold liveRefs. rewrite <- Hj. by apply list_elem_of_fmap_2.
      * apply elem_of_app. left. by left.
    + constructor; [|constructor].
      destruct (lookup_lt_is_Some_2 _ _ Hlt) as [u Hu].
      eexists i, _. split; [exact Hobj|]. split.
      * rewrite list_lookup_alter_eq, Hu. reflexivity.
      * done.
  - destruct (partitioned_valid _ _ None Hpart) as (i & [=] & _).
    apply elem_of_app. right. apply elem_of_app. left. rewrite Hfree. by left.
Qed.

Lemma buildLoop_lit others cubeScale n p :
  partitioned others p -> lit p -> lit (snd (buildLoop n cubeScale p)).
Proof.
  revert p. induction n as [|n IH]; intros p Hpart Hlit; [done|].
  destruct (buildInstance_built others cubeScale p Hpart) as (p1 & Hrun & Hpart1 & _).
  pose proof (buildInstance_lit others cubeScale p Hpart Hlit) as Hlit1.
  simpl. js_unfold. rewrite Hrun in *. simpl in *. by apply IH.
Qed.

(** A rebuild gives every object it makes the two light colours. *)
Lemma resetInstance_lit others p :
  partitioned others p -> lit (snd (resetInstance p)).
Proof.
  intros Hpart. rewrite resetInstance_loops.
  apply (buildLoop_lit others); [by apply afterRelease_partitioned|].
  unfold lit. simpl. constructor.
Qed.

Lemma render_lit d w : lit (pool w) -> lit (pool (snd (render d w))).
Proof.
  intros Hlit. destruct (render_frame d w) as ((_&_&Hlist&_&_&_&_&Hus) & _).
  unfold lit in *. rewrite Hlist. simpl.
  eapply animateLoop_Forall; [|exact Hlit].
  intros k o (i & u & Hi & Hu & Ha & Hd). simpl in Hus.
  destruct (animate_placement (time w) k o) as (_&_&_&_&_&_&_&Hv).
  pose proof (sameStatic_lookup ambientLightColor _ _ i
                ltac:(by intros ?? (?&?&?&?)) Hus) as Hamb.
  pose proof (sameStatic_lookup directionalLightColor _ _ i
                ltac:(by intros ?? (?&?&?&?)) Hus) as Hdir.
  rewrite Hu in Hamb, Hdir.
  destruct (uniforms (pool (snd (render d w))) !! i) as [u'|] eqn:Hu'; [|done].
  simpl in Hamb, Hdir. injection Hamb as Hamb. injection Hdir as Hdir.
  exists i, u'. rewrite Hv. split; [done|]. split; [exact Hu'|]. split; congruence.
Qed.

Lemma dispatch_lit w e : consistent w -> lit (pool w) -> lit (pool (dispatch w e)).
Proof.
  intros [Hpart _] Hlit. destruct e as [value|value|d]; simpl.
  - unfold onPool, zoom. simpl.
    pose proof (resetInstance_lit _ (set_cubeNum value (pool w)) Hpart) as Hlit'.
    by destruct (resetInstance _).
  - unfold onPool, zoom. simpl.
    pose proof (resetInstance_lit _ (set_useModel value (pool w)) Hpart) as Hlit'.
    by destruct (resetInstance _).
  - destruct (animationFrameRequests w) as [|k]; [done|].
    by apply (render_lit d (set_animationFrameRequests k w)).
Qed.

Lemma dispatchAll_lit events w :
  consistent w -> lit (pool w) -> lit (pool (dispatchAll events w)).
Proof.
  revert w. induction events as [|e events IH]; intros w Hc Hlit; [done|].
  simpl. apply IH; [by apply dispatch_consistent | by apply dispatch_lit].
Qed.

Lemma initObjects_lit env :
  lit (snd (initObjects (cubeVertices env) (initialPool env))).
Proof.
  set (p0 := set_gpuBuffers 1 (initialPool env)).
  assert (Hp0 : partitioned [] p0) by (unfold partitioned; reflexivity).
  pose proof (resetInstance_lit [] p0 Hp0) as Hlit.
  destruct (resetInstance_spec _ _ Hp0) as (p1 & Hrun & Hpart & _).
  rewrite Hrun in Hlit. simpl in Hlit.
  unfold initObjects. js_unfold. unfold Primitive_createBuffer. simpl.
  fold p0. rewrite Hrun. simpl.
  unfold lit in *. simpl. rewrite !alter_alter, alter_snoc.
  eapply Forall_impl; [exact Hlit|]. intros o (j & u & Hj & Hu & Hfields).
  exists j, u. split; [done|]. split; [|done].
  rewrite lookup_app_l; [done|]. by eapply lookup_lt_Some.
Qed.

End LightProofs.

Section InitProofs.
Context `{Platform}.

(** The vertex buffer of a geometry made next is a buffer of its own. *)
Lemma buffersDistinct_reserve reserved p :
  buffersDistinct reserved p ->
  buffersDistinct (reserved ++ [gpuBuffers p]) (set_gpuBuffers (S (gpuBuffers p)) p).
Proof.
  unfold buffersDistinct, buffersInUse. simpl. intros [Hnd Hall].
  rewrite map_app. simpl.
  assert (Hperm : (map Some reserved ++ [Some (gpuBuffers p)]) ++ map buffer (uniforms p)
                    ≡ₚ Some (gpuBuffers p)
                       :: (map Some reserved ++ map buffer (uniforms p)))
    by solve_Permutation.
  rewrite Hperm. split.
  - apply NoDup_cons. split; [|done]. intros Hin.
    rewrite Forall_forall in Hall. destruct (Hall _ Hin) as (h & [= <-] & Hlt). lia.
  - constructor; [eexists; split; [done|lia]|].
    eapply Forall_impl; [exact Hall|]. intros b (h & -> & Hlt). exists h. split; [done|lia].
Qed.

Lemma initObjects_behaviour env :
  exists p lightHelper,
    initObjects (cubeVertices env) (initialPool env)
      = (Normal ({| vertexBuffer := 0; numVertices := cubeVertices env |}, lightHelper), p) /\
    Forall (scaledBy (cubeScaleOf (panelUseModel env))) (cubeList p) /\
    useModel p = panelUseModel env /\
    randomValues p = random env /\ randomDrawn p = 5 * panelNum env /\
    placedFromDraws p /\
    buffersDistinct [0] p /\
    (rotationX lightHelper = 45 * RAD /\ rotationZ lightHelper = 45 * RAD /\
     rotationY lightHelper = rotationY newSceneObject /\
     scaleX lightHelper = scaleX newSceneObject /\
     scaleY lightHelper = scaleY newSceneObject /\
     scaleZ lightHelper = scaleZ newSceneObject)%float /\
    exists i u,
      vertexUniform lightHelper = Some i /\ uniforms p !! i = Some u /\
      baseColor u = COLOR_DIRECTIONAL_LIGHT /\
      modelMatrix u = modelMatrix newVertexUniform /\
      ambientLightColor u = ambientLightColor newVertexUniform /\
      directionalLightColor u = directionalLightColor newVertexUniform /\
      directionalLightDirection u = directionalLightDirection newVertexUniform.
Proof.
  set (p0 := set_gpuBuffers 1 (initialPool env)).
  destruct (resetInstance_result p0)
    as (p1 & Hrun & Hlist & _ & Hdrawn & Hvals & Hmodel & Hnum); [constructor|].
  assert (Hbufs0 : buffersDistinct [0] p0).
  { split; simpl.
    - apply NoDup_singleton.
    - constructor; [|constructor]. exists 0. split; [done|lia]. }
  pose proof (resetInstance_buffersDistinct _ _ Hbufs0) as Hbufs1.
  rewrite Hrun in Hbufs1. simpl in Hbufs1, Hmodel, Hdrawn, Hvals, Hnum.
  unfold initObjects. js_unfold. unfold Primitive_createBuffer. simpl.
  fold p0. rewrite Hrun. simpl.
  eexists _, _. split; [reflexivity|]. simpl.
  split; [rewrite Hlist; apply scaledBy_placedObjects|].
  split; [exact Hmodel|]. split; [exact Hvals|]. split; [rewrite Hdrawn; lia|].
  split; [|split; [|split; [by repeat split|]]].
  - unfold placedFromDraws. simpl. rewrite Hdrawn, Hnum, Hmodel, Hvals. split; [lia|].
    intros k obj Hk. rewrite Hlist in Hk. unfold placedObjects in Hk.
    rewrite list_lookup_imap in Hk.
    destruct (_ !! k) as [u|] in Hk; [|done].
    simpl in Hk. injection Hk as <-.
    match goal with
    | |- placedAs (placedObject _ _ ?a) (with_vertexUniform _ (placedObject _ _ ?b)) =>
        replace a with b by lia
    end.
    by repeat split.
  - eapply buffersDistinct_grow; [exact Hbufs1|]. right. simpl.
    rewrite alter_alter, alter_snoc, map_app. done.
  - eexists _, _. split; [reflexivity|]. split.
    + rewrite alter_alter, alter_snoc. by apply list_lookup_middle.
    + done.
Qed.

(** [init] on a capable environment, with what it sets up. *)
Lemma init_capable_behaviour env :
  capable env = true ->
  exists w0,
    init env = ({| className := bodyClassName env; statsShown := true; guiShown := true |},
                Running (snd (render (firstDrawable env) w0))) /\
    runInvariant env w0 /\ behaviourInvariant env w0 /\
    animationFrameRequests w0 = 0 /\ committed w0 = [] /\
    cubeNum (pool w0) = panelNum env /\ useModel (pool w0) = panelUseModel env /\
    randomValues (pool w0) = random env /\ placedFromDraws (pool w0) /\
    randomDrawn (pool w0) = 5 * panelNum env /\
    time w0 = 0%float /\ camera w0 = newCamera (isIPhone env) /\
    lit (pool w0).
Proof.
  unfold capable. intros Hcap.
  destruct (shaderLibrary env) as [library|] eqn:Hlib;
    [|by rewrite andb_false_r in Hcap].
  rewrite !andb_true_iff, !bool_decide_eq_true in Hcap.
  destruct Hcap as [[[Hgpu Hfetch] [[Hv1 Hv2] Hf]] [vertices Hmodel]].
  destruct (initObjects_spec env)
    as (p & lh & Hobjs & Hpart & Hcol & Hlen & Hfree & Hnum & Hbuf).
  destruct (initObjects_behaviour env)
    as (p' & lh' & Hobjs' & Hscaled & Huse & Hvals & Hdrawn & Hdraws & Hbufs & Hplaced
        & Huniform).
  rewrite Hobjs in Hobjs'. injection Hobjs' as <- <-.
  pose proof (initObjects_lit env) as Hlit. rewrite Hobjs in Hlit. simpl in Hlit.
  unfold init. rewrite Hgpu, Hfetch, Hlib, !functionWithName_Some.
  rewrite !bool_decide_true by done. rewrite Hobjs, Hmodel.
  simpl. eexists. split; [reflexivity|]. simpl.
  split; [repeat split; try done; simpl; lia|].
  split; [|by repeat (split; [done|])].
  - split; [simpl; by rewrite Huse|]. split; [|split; [|split]].
    + destruct Hplaced as (?&?&?&?&?&?). by repeat split.
    + apply (buffersDistinct_reserve [0] p Hbufs).
    + by repeat split.
    + split; constructor.
Qed.

End InitProofs.

Section RunBehaviour.
Context `{Platform}.

Lemma run_behaviour env events :
  capable env = true ->
  exists w,
    run env events
      = ({| className := bodyClassName env; statsShown := true; guiShown := true |},
         Running w) /\
    runInvariant env w /\ behaviourInvariant env w.
Proof.
  intros Hcap.
  destruct (init_capable_behaviour env Hcap) as (w0 & Hinit & Hinv & Hkept & Hzero & _).
  unfold run. rewrite Hinit. eexists. split; [reflexivity|]. split.
  - apply dispatchAll_runInvariant. by apply render_runInvariant.
  - apply dispatchAll_behaviour.
    + apply render_consistent. apply Hinv.
    + apply render_behaviour; [apply Hinv | exact Hkept].
Qed.

(** The settings after a rebuild and after a frame. *)
Lemma dispatch_settings w e :
  consistent w ->
  cubeNum (pool (dispatch w e)) = cubeNumAfter (cubeNum (pool w)) [e] /\
  useModel (pool (dispatch w e)) = useModelAfter (useModel (pool w)) [e].
Proof.
  intros Hc. destruct e as [value|value|d]; simpl.
  - destruct (resetInstance_result (set_cubeNum value (pool w)) (consistent_refs w Hc))
      as (p' & Hrun & _ & _ & _ & _ & Hmodel & Hnum).
    unfold onPool, zoom. simpl. by rewrite Hrun.
  - destruct (resetInstance_result (set_useModel value (pool w)) (consistent_refs w Hc))
      as (p' & Hrun & _ & _ & _ & _ & Hmodel & Hnum).
    unfold onPool, zoom. simpl. by rewrite Hrun.
  - destruct (animationFrameRequests w) as [|k]; [done|].
    destruct (render_frame d (set_animationFrameRequests k w)) as ((Hmodel&Hnum&_) & _).
    done.
Qed.

Lemma dispatchAll_settings events w :
  consistent w ->
  cubeNum (pool (dispatchAll events w)) = cubeNumAfter (cubeNum (pool w)) events /\
  useModel (pool (dispatchAll events w)) = useModelAfter (useModel (pool w)) events.
Proof.
  revert w. induction events as [|e events IH]; intros w Hc; [done|].
  destruct (dispatch_settings w e Hc) as [Hnum Hmodel].
  destruct (IH (dispatch w e) (dispatch_consistent w e Hc)) as [Hnum' Hmodel'].
  simpl in *. by rewrite Hnum', Hmodel', Hnum, Hmodel.
Qed.

Lemma drawLoop_Normal cameraMatrix lightDirection geometry objs enc p cmds :
  fst (drawLoop cameraMatrix lightDirection geometry objs enc p) = Normal cmds ->
  Forall (fun obj => is_Some (vertexUniform obj)) objs.
Proof.
  revert enc p. induction objs as [|obj rest IH]; intros enc p; simpl; [constructor|].
  js_unfold. destruct (vertexUniform obj) as [i|] eqn:Hi; simpl; [|done].
  intros Hrun. constructor; [by rewrite Hi | by eapply IH].
Qed.

Lemma pendingAfter_Some d ticks : pendingAfter (Some d :: ticks) = pendingAfter ticks.
Proof.
  unfold pendingAfter.
  destruct (decide (Forall is_Some ticks)) as [Hall|Hnot].
  - rewrite !bool_decide_true; [done|done|]. constructor; [by eexists|done].
  - rewrite !bool_decide_false; [done|done|].
    intros Hall. by apply Forall_cons in Hall as [_ Hall].
Qed.

Lemma pendingAfter_None ticks : pendingAfter (None :: ticks) = 0.
Proof.
  unfold pendingAfter. rewrite bool_decide_false; [done|].
  intros Hall. apply Forall_cons in Hall as [[? [=]] _].
Qed.

(** Frames and pending callbacks, with a callback pending. *)
Lemma dispatchAll_presented events w :
  consistent w -> animationFrameRequests w = 1 ->
  map presented (committed (dispatchAll events w))
    = map presented (committed w) ++ acquired (ticksOf events) /\
  animationFrameRequests (dispatchAll events w) = pendingAfter (ticksOf events).
Proof.
  revert w. induction events as [|e events IH]; intros w Hc Hone.
  - simpl. by rewrite app_nil_r.
  - destruct e as [value|value|[d|]].
    + simpl.
      destruct (onPool_committed resetInstance (set_pool (set_cubeNum value (pool w)) w))
        as [Hsame Hreq].
      destruct (IH (dispatch w (num_onFinishChange value))) as [Hframes Hpending].
      * by apply dispatch_consistent.
      * simpl. by rewrite Hreq.
      * simpl in Hframes, Hpending. by rewrite Hframes, Hpending, Hsame.
    + simpl.
      destruct (onPool_committed resetInstance (set_pool (set_useModel value (pool w)) w))
        as [Hsame Hreq].
      destruct (IH (dispatch w (useModel_onFinishChange value))) as [Hframes Hpending].
      * by apply dispatch_consistent.
      * simpl. by rewrite Hreq.
      * simpl in Hframes, Hpending. by rewrite Hframes, Hpending, Hsame.
    + simpl. rewrite Hone.
      destruct (render_Some_exact d (set_animationFrameRequests 0 w) Hc)
        as (w' & lh & Hrun & _ & _ & _ & _ & _ & Hreq & Hcommitted).
      rewrite Hrun. simpl in *.
      destruct (IH w') as [Hframes Hpending].
      * pose proof (render_consistent (Some d) (set_animationFrameRequests 0 w) Hc) as Hc'.
        by rewrite Hrun in Hc'.
      * exact Hreq.
      * rewrite Hframes, Hpending, Hcommitted, map_app. simpl.
        rewrite <- app_assoc. split; [done|]. by rewrite pendingAfter_Some.
    + change (dispatchAll (animationFrame None :: events) w)
        with (dispatchAll events (dispatch w (animationFrame None))).
      assert (Hw' : dispatch w (animationFrame None)
                    = updated (set_animationFrameRequests 0 w)).
      { unfold dispatch. rewrite Hone. by rewrite render_None. }
      rewrite Hw'.
      destruct (idle_forever events (updated (set_animationFrameRequests 0 w)) eq_refl)
        as [Hsame Hzero].
      rewrite Hsame, Hzero. simpl. rewrite app_nil_r. split; [done|].
      by rewrite pendingAfter_None.
Qed.

End RunBehaviour.

Section PlacementProofs.
Context `{Platform}.

Lemma placedAs_animate t k o obj :
  placedAs o obj -> placedAs o (animate t k obj).
Proof.
  intros (Hx&Hy&Hz&Hr&Hsx&Hsy&Hsz).
  destruct (animate_placement t k obj) as (Hx'&Hy'&Hz'&Hr'&Hsx'&Hsy'&Hsz'&_).
  unfold placedAs. by rewrite Hx', Hy', Hz', Hr', Hsx', Hsy', Hsz'.
Qed.

Lemma placedFromDraws_animate t p :
  placedFromDraws p -> placedFromDraws (set_cubeList (animateLoop t 0 (cubeList p)) p).
Proof.
  intros [Hle Hobjs]. split; [exact Hle|]. simpl. intros k obj Hk.
  destruct (cubeList p !! k) as [o|] eqn:Ho.
  - rewrite (animateLoop_lookup _ _ _ _ _ Ho) in Hk. injection Hk as <-.
    apply placedAs_animate. by apply Hobjs.
  - apply lookup_ge_None in Ho. apply lookup_lt_Some in Hk.
    rewrite animateLoop_length in Hk. lia.
Qed.

(** A frame draws no random number and leaves the objects where they
    are. *)
Lemma render_placed d w :
  placedFromDraws (pool w) -> placedFromDraws (pool (snd (render d w))).
Proof.
  intros Hplaced.
  destruct (render_frame d w) as ((Hmodel&Hnum&Hlist&_&_&Hvals&Hdrawn&_) & _).
  pose proof (placedFromDraws_animate (time w) (pool w) Hplaced) as [Hle Hobjs].
  simpl in *. unfold placedFromDraws. rewrite Hmodel, Hnum, Hlist, Hvals, Hdrawn.
  by split.
Qed.

(** A rebuild places every object anew, from [5 * cubeNum] draws. *)
Lemma rebuild_placed w :
  consistent w ->
  let p' := pool (snd (onPool resetInstance w)) in
  placedFromDraws p' /\
  randomDrawn p' = randomDrawn (pool w) + 5 * cubeNum (pool w) /\
  randomValues p' = randomValues (pool w) /\
  cubeNum p' = cubeNum (pool w).
Proof.
  intros Hc.
  destruct (resetInstance_result (pool w) (consistent_refs w Hc))
    as (p' & Hrun & Hlist & _ & Hdrawn & Hvals & Hmodel & Hnum).
  unfold onPool, zoom. rewrite Hrun. simpl.
  split; [|by repeat split]. unfold placedFromDraws.
  rewrite Hlist, Hdrawn, Hvals, Hmodel, Hnum. split; [lia|].
  intros k obj Hk. unfold placedObjects in Hk. rewrite list_lookup_imap in Hk.
  destruct (_ !! k) as [u|] in Hk; [|done].
  simpl in Hk. injection Hk as <-.
  replace (randomDrawn (pool w) + 5 * cubeNum (pool w) - 5 * cubeNum (pool w) + 5 * k)
    with (randomDrawn (pool w) + 5 * k) by lia.
  by repeat split.
Qed.

Lemma dispatchAll_placed events w :
  consistent w -> placedFromDraws (pool w) ->
  placedFromDraws (pool (dispatchAll events w)) /\
  randomDrawn (pool (dispatchAll events w))
    = randomDrawn (pool w) + 5 * builtAfter (cubeNum (pool w)) events /\
  randomValues (pool (dispatchAll events w)) = randomValues (pool w).
Proof.
  revert w. induction events as [|e events IH]; intros w Hc Hplaced.
  - simpl. split; [done|]. split; [lia|done].
  - pose proof (dispatch_consistent w e Hc) as Hc'.
    destruct e as [value|value|d].
    + destruct (rebuild_placed (set_pool (set_cubeNum value (pool w)) w) Hc)
        as (Hplaced' & Hdrawn & Hvals & Hnum).
      destruct (IH _ Hc' Hplaced') as (Hplaced'' & Hdrawn' & Hvals').
      simpl in *. split; [exact Hplaced''|]. rewrite Hdrawn', Hvals', Hdrawn, Hvals, Hnum.
      split; [lia|done].
    + destruct (rebuild_placed (set_pool (set_useModel value (pool w)) w) Hc)
        as (Hplaced' & Hdrawn & Hvals & Hnum).
      destruct (IH _ Hc' Hplaced') as (Hplaced'' & Hdrawn' & Hvals').
      simpl in *. split; [exact Hplaced''|]. rewrite Hdrawn', Hvals', Hdrawn, Hvals, Hnum.
      split; [lia|done].
    + assert (Hstep : placedFromDraws (pool (dispatch w (animationFrame d))) /\
                      randomDrawn (pool (dispatch w (animationFrame d)))
                        = randomDrawn (pool w) /\
                      randomValues (pool (dispatch w (animationFrame d)))
                        = randomValues (pool w) /\
                      cubeNum (pool (dispatch w (animationFrame d))) = cubeNum (pool w)).
      { simpl. destruct (animationFrameRequests w) as [|k]; [done|].
        destruct (render_frame d (set_animationFrameRequests k w))
          as ((_&Hnum&_&_&_&Hvals&Hdrawn&_) & _).
        split; [by apply (render_placed d (set_animationFrameRequests k w))|].
        done. }
      destruct Hstep as (Hplaced' & Hdrawn & Hvals & Hnum).
      destruct (IH _ Hc' Hplaced') as (Hplaced'' & Hdrawn' & Hvals').
      change (dispatchAll (animationFrame d :: events) w)
        with (dispatchAll events (dispatch w (animationFrame d))).
      split; [exact Hplaced''|]. rewrite Hdrawn', Hvals', Hdrawn, Hvals, Hnum. done.
Qed.

(** The frame counter and the camera: without a pending callback they
    stay, with one they advance once per call of [render]. *)
Lemma idle_clock events w :
  animationFrameRequests w = 0 ->
  time (dispatchAll events w) = time w /\ camera (dispatchAll events w) = camera w.
Proof.
  revert w. induction events as [|e events IH]; intros w Hzero; [done|].
  assert (Hstep : animationFrameRequests (dispatch w e) = 0 /\
                  time (dispatch w e) = time w /\ camera (dispatch w e) = camera w).
  { destruct e as [value|value|d]; simpl.
    - destruct (onPool_committed resetInstance (set_pool (set_cubeNum value (pool w)) w))
        as [_ ->].
      unfold onPool, zoom. by destruct (resetInstance _).
    - destruct (onPool_committed resetInstance (set_pool (set_useModel value (pool w)) w))
        as [_ ->].
      unfold onPool, zoom. by destruct (resetInstance _).
    - by rewrite Hzero. }
  destruct Hstep as (Hzero' & Htime & Hcamera).
  destruct (IH _ Hzero') as [Htime' Hcamera']. simpl in *.
  by rewrite Htime', Hcamera', Htime, Hcamera.
Qed.

Lemma dispatchAll_clock events w :
  consistent w -> animationFrameRequests w = 1 ->
  time (dispatchAll events w)
    = Nat.iter (framesEntered (ticksOf events)) (fun t => t + 1)%float (time w) /\
  camera (dispatchAll events w)
    = Nat.iter (framesEntered (ticksOf events)) (upDate 0.1) (camera w).
Proof.
  revert w. induction events as [|e events IH]; intros w Hc Hone; [done|].
  pose proof (dispatch_consistent w e Hc) as Hc'.
  destruct e as [value|value|[d|]].
  - destruct (IH (dispatch w (num_onFinishChange value)) Hc') as [Htime Hcamera].
    { simpl.
      destruct (onPool_committed resetInstance (set_pool (set_cubeNum value (pool w)) w))
        as [_ ->]. done. }
    simpl in *. rewrite Htime, Hcamera. unfold onPool, zoom. by destruct (resetInstance _).
  - destruct (IH (dispatch w (useModel_onFinishChange value)) Hc') as [Htime Hcamera].
    { simpl.
      destruct (onPool_committed resetInstance (set_pool (set_useModel value (pool w)) w))
        as [_ ->]. done. }
    simpl in *. rewrite Htime, Hcamera. unfold onPool, zoom. by destruct (resetInstance _).
  - change (dispatchAll (animationFrame (Some d) :: events) w)
      with (dispatchAll events (dispatch w (animationFrame (Some d)))).
    change (ticksOf (animationFrame (Some d) :: events)) with (Some d :: ticksOf events).
    assert (Hstep : animationFrameRequests (dispatch w (animationFrame (Some d))) = 1 /\
                    time (dispatch w (animationFrame (Some d))) = (time w + 1)%float /\
                    camera (dispatch w (animationFrame (Some d))) = upDate 0.1 (camera w)).
    { simpl. rewrite Hone.
      destruct (render_Some_exact d (set_animationFrameRequests 0 w) Hc)
        as (w' & lh & Hrun & _ & _ & _ & Hcam & _ & Hreq & _).
      destruct (render_frame (Some d) (set_animationFrameRequests 0 w))
        as (_ & _ & _ & _ & _ & _ & Htime & _).
      rewrite Hrun in *. by repeat split. }
    destruct Hstep as (Hone' & Htime & Hcamera).
    destruct (IH _ Hc' Hone') as [Htime' Hcamera'].
    rewrite Htime', Hcamera', Htime, Hcamera. cbn [framesEntered].
    by rewrite !Nat.iter_succ_r.
  - change (dispatchAll (animationFrame None :: events) w)
      with (dispatchAll events (dispatch w (animationFrame None))).
    assert (Hw' : dispatch w (animationFrame None)
                  = updated (set_animationFrameRequests 0 w)).
    { unfold dispatch. rewrite Hone. by rewrite render_None. }
    rewrite Hw'.
    destruct (idle_clock events (updated (set_animationFrameRequests 0 w)) eq_refl)
      as [-> ->].
    done.
Qed.

End PlacementProofs.

(** ** The properties *)

Section BehaviourTheorems.
Context `{Platform}.

Lemma length_instanceCommands us geometry objs :
  length (flat_map (instanceCommands us geometry) objs) = 2 * length objs.
Proof. induction objs as [|obj objs IH]; simpl; [done|]. rewrite IH. lia. Qed.

(** X3: in a running program the scene follows the GUI. After any events
    [cubeNum] and [useModel] are what the last change of the slider and of
    the checkbox set (the panel's values if there was none), the pool holds
    [cubeNum] objects, and every one of them has the scale of lines 192-197
    for the current [useModel] on its three axes: 4 with the mesh, 2 with
    the cube. *)
Theorem scene_follows_the_gui env events :
  capable env = true ->
  exists w,
    snd (run env events) = Running w /\
    cubeNum (pool w) = cubeNumAfter (panelNum env) events /\
    useModel (pool w) = useModelAfter (panelUseModel env) events /\
    length (cubeList (pool w)) = cubeNum (pool w) /\
    Forall (scaledBy (cubeScaleOf (useModel (pool w)))) (cubeList (pool w)).
Proof.
  intros Hcap.
  destruct (init_capable_behaviour env Hcap)
    as (w0 & Hinit & Hinv & Hkept & Hzero & _ & Hnum & Hmodel & _).
  pose proof (render_runInvariant env (firstDrawable env) w0 Hinv Hzero) as Hinv1.
  pose proof (render_behaviour env (firstDrawable env) w0 (proj1 Hinv) Hkept) as Hkept1.
  destruct (render_frame (firstDrawable env) w0) as ((Hmodel1 & Hnum1 & _) & _).
  set (w1 := snd (render (firstDrawable env) w0)) in *.
  destruct (dispatchAll_settings events w1 (proj1 Hinv1)) as [Hnum' Hmodel'].
  pose proof (dispatchAll_runInvariant env events w1 Hinv1) as (_ & _ & Hlen & _).
  pose proof (dispatchAll_behaviour env events w1 (proj1 Hinv1) Hkept1) as [Hscaled _].
  exists (dispatchAll events w1). unfold run. rewrite Hinit. simpl in *.
  split; [done|]. rewrite Hnum', Hmodel', Hnum1, Hmodel1, Hnum, Hmodel in *. done.
Qed.

(** X4: in a running program the light helper stays as lines 156-162 made
    it. After any events it is turned by [45 * RAD] about X and about Z, its
    other rotation and its scale are those of a new [SceneObject], and its
    [VertexUniform] (never handed to the pool) has the colour of the
    directional light as base colour; [modelMatrix], the two light colours
    and the light direction of that [VertexUniform] are never written, and
    are those of a new [VertexUniform]. *)
Theorem light_helper_stays_as_made env events :
  capable env = true ->
  exists w, snd (run env events) = Running w /\ helperAsMade w.
Proof.
  intros Hcap. destruct (run_behaviour env events Hcap) as (w & Hrun & _ & _ & Hhelper & _).
  exists w. by rewrite Hrun.
Qed.

(** X5: every command buffer a running program has committed is encoded
    with the pipelines of lines 108-119 ([vertex_main] and [fragment_main]
    for the instances, [vertex_main2] and [fragment_main] for the light
    helper), and binds no GPU buffer for two purposes: the vertex buffers of
    the cube and of the mesh, the light helper's uniform buffer and the
    uniform buffers of the instances drawn are pairwise distinct. The same
    holds of the buffers of the current world, all created through
    [this.gpu]; the cube has the vertex count of [Cube], the mesh that of the
    loaded model. *)
Theorem frames_well_encoded env events :
  capable env = true ->
  exists w,
    snd (run env events) = Running w /\
    Forall (wellEncoded (cube w) (model w)) (committed w) /\
    buffersDistinct [vertexBuffer (cube w); vertexBuffer (model w)] (pool w) /\
    wired env w.
Proof.
  intros Hcap.
  destruct (run_behaviour env events Hcap)
    as (w & Hrun & _ & _ & _ & Hbufs & Hwired & Hframes & _).
  exists w. by rewrite Hrun.
Qed.


(** X7: in a running program a frame with a drawable commits one command
    buffer that presents that drawable. Its first pass sets the pipeline of
    the instances, the depth state and the vertex buffer of the geometry
    chosen by [useModel], and then, for every live object in pool order,
    binds the buffer of the object's [VertexUniform] at index 1 and draws the
    geometry's vertices as triangles: [3 + 2 * cubeNum] commands. Its second
    pass binds the light helper's buffer and draws the cube's vertices. *)
Theorem first_pass_draws_every_instance env events :
  capable env = true ->
  exists w,
    snd (run env events) = Running w /\
    forall d,
      let geometry := if useModel (pool w) then model w else cube w in
      exists w' pass1 pass2,
        render (Some d) w = (Normal tt, w') /\
        committed w' = committed w ++ [{| passes := [pass1; pass2]; presented := d |}] /\
        commands pass1
          = [setRenderPipelineState cubePipeline;
             setDepthStencilState;
             setVertexBuffer (Some (vertexBuffer geometry)) 0 0]
            ++ flat_map (instanceCommands (uniforms (pool w)) geometry)
                 (cubeList (pool w)) /\
        length (commands pass1) = 3 + 2 * cubeNum (pool w) /\
        commands pass2
          = [setRenderPipelineState lightHelperPipeline;
             setDepthStencilState;
             setVertexBuffer (Some (vertexBuffer (cube w))) 0 0;
             setVertexBuffer (bufferOf (uniforms (pool w)) (lightHelper w)) 0 1;
             drawPrimitives WebGPUPrimitiveType.linestrip 0 (cubeVertices env)].
Proof.
  intros Hcap.
  destruct (run_behaviour env events Hcap)
    as (w & Hrun & (Hc & _ & Hlen & _) & _ & _ & _ & (Hp1 & Hp2 & Hcube & _) & _).
  exists w. rewrite Hrun. split; [done|]. intros d geometry.
  destruct (render_Some_exact d w Hc) as (w' & lh & Hr & _ & _ & _ & _ & _ & _ & Hcommitted).
  eexists w', _, _. split; [exact Hr|]. split; [exact Hcommitted|]. simpl.
  rewrite Hp1, Hp2, Hcube, length_instanceCommands, Hlen. done.
Qed.

(** X8: in a running program a frame with a drawable leaves, in the
    [VertexUniform] of every live object, the matrices of that object as the
    frame has turned it: [modelMatrix] is the object's model matrix,
    [mvpMatrix] the product of the camera matrix after [upDate(0.1)] with it,
    and [directionalLightDirection] the light direction computed from [time]
    at the start of the frame. The light helper is moved to 80 times that
    direction (lines 235-237, as in [updated]), and its [VertexUniform] gets
    the product for it at the new position. No write of one object lands in
    the [VertexUniform] of another. *)
Theorem frame_uploads_matrices env events :
  capable env = true ->
  exists w,
    snd (run env events) = Running w /\
    forall d, exists w',
      render (Some d) w = (Normal tt, w') /\
      camera w' = upDate 0.1 (camera w) /\
      lightHelper w' = lightHelper (updated w) /\
      cubeList (pool w') = animateLoop (time w) 0 (cubeList (pool w)) /\
      Forall (holdsMatricesOf (uniforms (pool w')) (getCameraMtx (camera w'))
                (lightDirectionAt (time w)))
        (cubeList (pool w')) /\
      exists i u,
        vertexUniform (lightHelper w') = Some i /\ uniforms (pool w') !! i = Some u /\
        mvpMatrix u
          = mat4_multiply (getCameraMtx (camera w')) (getModelMtx (lightHelper w')).
Proof.
  intros Hcap. destruct (run_behaviour env events Hcap) as (w & Hrun & (Hc & _) & _).
  exists w. rewrite Hrun. split; [done|]. intros d.
  destruct (consistent_bound w Hc) as (Hnd & Hvalid & lh0 & Hlh0 & Hlt & Hout).
  destruct (render_Some_exact d w Hc)
    as (w' & lh & Hr & Hlh & Hlist & Hhelper & Hcam & Hus & _).
  assert (lh0 = lh) as -> by congruence.
  exists w'. split; [exact Hr|]. split; [by rewrite Hcam|]. split; [exact Hhelper|].
  split; [by rewrite Hlist|].
  rewrite Hlist, Hcam, Hus, Hhelper.
  match type of Hus with
  | _ = alter _ _ (uniforms (snd (drawLoop ?a ?b ?c ?d ?e ?f))) =>
      pose proof (drawLoop_written a b c d e f) as Hwritten;
      pose proof (drawLoop_untouched a b c d e f lh) as Hkept
  end.
  assert (Hrefs : map vertexUniform (cubeList (pool (updated w))) = liveRefs (pool w))
    by (simpl; apply animateLoop_refs).
  rewrite Hrefs in Hwritten, Hkept.
  assert (Hvalid' : Forall (fun obj => exists i, vertexUniform obj = Some i /\
                                         i < length (uniforms (pool (updated w))))
                      (cubeList (pool (updated w)))).
  { simpl. eapply animateLoop_Forall; [|exact Hvalid]. intros k o (i & Hi & Hl).
    exists i. by destruct (animate_placement (time w) k o) as (_&_&_&_&_&_&_&->). }
  specialize (Hwritten Hnd Hvalid').
  assert (Hfresh : Some lh ∉ liveRefs (pool w)).
  { intros Hin. apply Hout. apply elem_of_app. by right. }
  specialize (Hkept Hfresh).
  split.
  - rewrite Forall_forall in Hwritten |- *.
    intros obj Hobj. destruct (Hwritten obj Hobj) as (i & u & Hi & Hu & Hfields).
    exists i, u. split; [done|]. split; [|done].
    rewrite list_lookup_alter_ne; [done|]. intros <-.
    apply Hfresh. rewrite <- Hrefs, <- Hi. by apply list_elem_of_fmap_2.
  - destruct (lookup_lt_is_Some_2 _ _ Hlt) as [u Hu].
    exists lh. eexists. split; [done|]. split.
    + rewrite list_lookup_alter_eq, Hkept. simpl. rewrite Hu. reflexivity.
    + reflexivity.
Qed.

(** X9: a running program presents, in order, the drawables acquired up
    to the first failed acquisition, that of tick 0 first, one command buffer
    apiece, and both passes of each command buffer render into the texture
    of the drawable it presents. A frame callback is pending exactly as long
    as no acquisition has failed; GUI events commit nothing. *)
Theorem frames_present_acquired_drawables env events :
  capable env = true ->
  exists w,
    snd (run env events) = Running w /\
    map presented (committed w) = acquired (firstDrawable env :: ticksOf events) /\
    Forall targetsPresented (committed w) /\
    animationFrameRequests w = pendingAfter (firstDrawable env :: ticksOf events).
Proof.
  intros Hcap.
  destruct (init_capable_behaviour env Hcap)
    as (w0 & Hinit & (Hc & _) & _ & Hzero & Hnone & _).
  destruct (run_behaviour env events Hcap) as (w & Hrun & _ & _ & _ & _ & _ & _ & Htargets).
  exists w. rewrite Hrun. split; [done|].
  assert (Hw : w = dispatchAll events (snd (render (firstDrawable env) w0))).
  { unfold run in Hrun. rewrite Hinit in Hrun. by injection Hrun as <-. }
  enough (map presented (committed w) = acquired (firstDrawable env :: ticksOf events) /\
          animationFrameRequests w = pendingAfter (firstDrawable env :: ticksOf events))
    as [Hframes Hpending] by done.
  rewrite Hw. destruct (firstDrawable env) as [d|].
  - destruct (render_Some_exact d w0 Hc)
      as (w' & lh & Hr & _ & _ & _ & _ & _ & Hreq & Hcommitted).
    pose proof (render_consistent (Some d) w0 Hc) as Hc'.
    rewrite Hr in *. simpl in Hc' |- *.
    destruct (dispatchAll_presented events w' Hc') as [Hframes Hpending];
      [by rewrite Hreq, Hzero|].
    rewrite Hframes, Hpending, Hcommitted, Hnone, pendingAfter_Some. done.
  - rewrite render_None, pendingAfter_None. simpl.
    destruct (idle_forever events (updated w0)) as [Hsame Hidle]; [exact Hzero|].
    rewrite Hsame, Hidle. simpl. by rewrite Hnone.
Qed.

(** X10: [render] runs to its end exactly when [nextDrawable()] returns
    a drawable, every live object is bound to a [VertexUniform] and so is the
    light helper. In every other case it throws the [TypeError] of a property
    access on [null]. *)
Theorem render_completes_iff d w :
  (fst (render d w) = Normal tt <->
   is_Some d /\
   Forall is_Some (liveRefs (pool w)) /\
   is_Some (vertexUniform (lightHelper w))) /\
  (fst (render d w) <> Normal tt -> fst (render d w) = Throw TypeError).
Proof.
  assert (Hlive : Forall is_Some (liveRefs (pool w)) <->
                  Forall (fun obj => is_Some (vertexUniform obj)) (cubeList (pool w))).
  { unfold liveRefs. apply (Forall_fmap vertexUniform is_Some). }
  split.
  - split.
    + destruct d as [d|]; [|by rewrite render_None].
      intros Hrun. split; [by eexists|]. rewrite Hlive. revert Hrun.
      unfold render, onPool. js_unfold. simpl.
      match goal with
      | |- context [drawLoop ?a ?b ?c ?d ?e ?f] =>
          pose proof (drawLoop_Normal a b c d e f) as Hnormal;
          destruct (drawLoop a b c d e f) as [[cmds|e'] p2]
      end; simpl in *; [|done].
      specialize (Hnormal cmds eq_refl).
      apply (Forall_fmap vertexUniform is_Some) in Hnormal.
      rewrite animateLoop_refs in Hnormal.
      apply (Forall_fmap vertexUniform is_Some) in Hnormal.
      destruct (vertexUniform (lightHelper w)) as [lh|]; simpl; [|done].
      intros _. split; [exact Hnormal | by eexists].
    + intros ([dr ->] & Hall & Hlh). apply render_completes; [by apply Hlive | done].
  - pose proof (render_commits d w) as Hcommits.
    destruct (render d w) as [c w']. simpl.
    destruct Hcommits as [(-> & _)|(dr & rest & buf & _ & -> & _)]; [done|].
    by intros [].
Qed.

(** X11: how [init] ends. It shows the error class, and neither the
    statistics nor the GUI, exactly when the API is absent; otherwise it
    leaves the class of [document.body] alone and shows both, whatever
    happens next. It calls [render] exactly in a capable environment: the API
    is there, the shader is fetched, the library has the three functions and
    the mesh loads. Otherwise it ends by [return] (API absent, or a function
    missing from the library) or in a rejected promise (shader not fetched,
    no library, or mesh not loaded), as [rejects] tells. *)
Theorem init_outcome env :
  fst (init env)
    = (if hasWebGPU env
       then {| className := bodyClassName env; statsShown := true; guiShown := true |}
       else {| className := "error"; statsShown := false; guiShown := false |}) /\
  renderEntered (snd (init env)) = capable env /\
  (capable env = false -> snd (init env) = Aborted (rejects env)).
Proof.
  unfold init, capable, rejects.
  destruct (hasWebGPU env); simpl; [|done].
  destruct (shaderFetched env); simpl; [|done].
  destruct (shaderLibrary env) as [library|]; [|done].
  rewrite !functionWithName_Some.
  destruct (bool_decide ("vertex_main" ∈ library)); simpl; [|done].
  destruct (bool_decide ("vertex_main2" ∈ library)); simpl; [|done].
  destruct (bool_decide ("fragment_main" ∈ library)); simpl; [|done].
  destruct (initObjects_spec env) as (p & lh & -> & _).
  destruct (loadedModelVertices env) as [vertices|]; simpl.
  - done.
  - done.
Qed.

(** X12: in a running program the random numbers decide the scene. The
    draws are those of [Math.random], in order; [init] and every change of
    the slider or of the checkbox consume five per object built, and a frame
    none, so that after any events [5 * (panelNum + builtAfter ...)] draws
    are used. The live object at index [k] has the position, the rotation
    about Z and the scale that lines 204-210 compute from the five draws
    that begin at draw [5 * k] of the last rebuild. *)
Theorem placement_follows_the_draws env events :
  capable env = true ->
  exists w,
    snd (run env events) = Running w /\
    randomValues (pool w) = random env /\
    randomDrawn (pool w) = 5 * (panelNum env + builtAfter (panelNum env) events) /\
    forall k obj,
      cubeList (pool w) !! k = Some obj ->
      placedAs (placedObject (cubeScaleOf (useModel (pool w))) (random env)
                  (randomDrawn (pool w) - 5 * cubeNum (pool w) + 5 * k))
        obj.
Proof.
  intros Hcap.
  destruct (init_capable_behaviour env Hcap)
    as (w0 & Hinit & (Hc & _) & _ & _ & _ & Hnum & _ & Hvals & Hplaced & Hdrawn & _).
  pose proof (render_consistent (firstDrawable env) w0 Hc) as Hc1.
  pose proof (render_placed (firstDrawable env) w0 Hplaced) as Hplaced1.
  destruct (render_frame (firstDrawable env) w0)
    as ((_&Hnum1&_&_&_&Hvals1&Hdrawn1&_) & _).
  set (w1 := snd (render (firstDrawable env) w0)) in *.
  destruct (dispatchAll_placed events w1 Hc1 Hplaced1) as ((_ & Hobjs) & Hdrawn' & Hvals').
  exists (dispatchAll events w1). unfold run. rewrite Hinit. simpl in *.
  split; [done|]. split; [congruence|]. split.
  - rewrite Hdrawn', Hdrawn1, Hdrawn, Hnum1, Hnum. lia.
  - replace (random env) with (randomValues (pool (dispatchAll events w1))) by congruence.
    exact Hobjs.
Qed.

(** X13: the frame counter counts the calls of [render]. After any
    events [time] is 0 advanced by 1 once per frame entered, and the camera
    has had [upDate(0.1)] as often: tick 0 and every animation frame up to
    and including the first one whose acquisition failed, which advances
    both although it commits nothing. GUI events advance neither. *)
Theorem frame_counter_counts_calls env events :
  capable env = true ->
  exists w,
    snd (run env events) = Running w /\
    time w
      = Nat.iter (framesEntered (firstDrawable env :: ticksOf events))
          (fun t => t + 1)%float 0%float /\
    camera w
      = Nat.iter (framesEntered (firstDrawable env :: ticksOf events))
          (upDate 0.1) (newCamera (isIPhone env)).
Proof.
  intros Hcap.
  destruct (init_capable_behaviour env Hcap)
    as (w0 & Hinit & (Hc & _) & _ & Hzero & _ & _ & _ & _ & _ & _ & Htime & Hcamera & _).
  exists (dispatchAll events (snd (render (firstDrawable env) w0))).
  unfold run. rewrite Hinit. split; [done|].
  destruct (firstDrawable env) as [d|].
  - destruct (render_Some_exact d w0 Hc) as (w' & lh & Hrun & _ & _ & _ & Hcam & _ & Hreq & _).
    destruct (render_frame (Some d) w0) as (_ & _ & _ & _ & _ & _ & Htime' & _).
    pose proof (render_consistent (Some d) w0 Hc) as Hc'.
    rewrite Hrun in *. simpl in Hc', Htime', Hcam. cbn [snd framesEntered].
    destruct (dispatchAll_clock events w' Hc') as [-> ->]; [by rewrite Hreq, Hzero|].
    by rewrite Htime', Hcam, Htime, Hcamera, !Nat.iter_succ_r.
  - rewrite render_None. simpl.
    destruct (idle_clock events (updated w0) Hzero) as [-> ->].
    simpl. by rewrite Htime, Hcamera.
Qed.

(** X14: in a running program the [VertexUniform] of every live object
    holds the two light colours of [Main] (lines 223-224): the ambient
    colour [COLOR_AMBIENT_LIGHT] and the colour of the directional light
    [COLOR_DIRECTIONAL_LIGHT]. A recycled [VertexUniform] gets them anew at
    each rebuild, and a frame leaves them alone. *)
Theorem instances_hold_the_light_colours env events :
  capable env = true ->
  exists w,
    snd (run env events) = Running w /\
    Forall (litAs (uniforms (pool w))) (cubeList (pool w)).
Proof.
  intros Hcap.
  destruct (init_capable_behaviour env Hcap)
    as (w0 & Hinit & (Hc & _) & _ & _ & _ & _ & _ & _ & _ & _ & _ & _ & Hlit).
  exists (dispatchAll events (snd (render (firstDrawable env) w0))).
  unfold run. rewrite Hinit. split; [done|].
  apply dispatchAll_lit; [by apply render_consistent | by apply render_lit].
Qed.


End BehaviourTheorems.

Section BehaviourWitnesses.
#[local] Existing Instance demoPlatform.

(** Two live objects, an empty free list and three [VertexUniform]s, and
    four objects asked for: slots 0 and 1 are recycled in order, 3 and 4
    constructed. *)
Lemma rebuild_recycles_in_order_witness :
  Forall is_Some (cubeUniformList (set_cubeNum 4 demoPool)
                  ++ liveRefs (set_cubeNum 4 demoPool)) /\
  exists p',
    resetInstance (set_cubeNum 4 demoPool) = (Normal tt, p') /\
    liveRefs p' = [Some 0; Some 1; Some 3; Some 4] /\
    cubeUniformList p' = [].
Proof.
  assert (Hrefs : Forall is_Some (cubeUniformList (set_cubeNum 4 demoPool)
                                  ++ liveRefs (set_cubeNum 4 demoPool)))
    by (simpl; repeat constructor; by eexists).
  split; [exact Hrefs|].
  destruct (rebuild_recycles_in_order (set_cubeNum 4 demoPool) Hrefs)
    as (p' & Hrun & Hlive & Hfree & _).
  exists p'. split; [exact Hrun|]. split.
  - rewrite Hlive. reflexivity.
  - rewrite Hfree. reflexivity.
Defined.

(** The second of two objects, built from draws 15 to 19 of [demoDraws]:
    7/8, 0, 1/8 for the position. *)
Lemma rebuild_places_from_draws_witness :
  Forall is_Some (cubeUniformList demoPool ++ liveRefs demoPool) /\
  exists p',
    resetInstance demoPool = (Normal tt, p') /\
    length (cubeList p') = 2 /\
    randomDrawn p' = 20 /\
    forall obj,
      cubeList p' !! 1 = Some obj ->
      x obj = 37.5%float /\ y obj = (-50)%float /\ z obj = (-37.5)%float /\
      scaleX obj = 2%float.
Proof.
  assert (Hrefs : Forall is_Some (cubeUniformList demoPool ++ liveRefs demoPool))
    by (simpl; repeat constructor; by eexists).
  split; [exact Hrefs|].
  destruct (rebuild_places_from_draws demoPool Hrefs)
    as (p' & Hrun & Hlen & Hdrawn & _ & Hobjs).
  exists p'. split; [exact Hrun|]. split; [exact Hlen|]. split; [exact Hdrawn|].
  intros obj Hobj. rewrite (Hobjs 1 obj Hobj). by vm_compute.
Defined.

Lemma scene_follows_the_gui_witness :
  capable (demoEnv 3 demoDraws) = true /\
  exists w,
    snd (run (demoEnv 3 demoDraws) demoEvents) = Running w /\
    cubeNum (pool w) = 2 /\ useModel (pool w) = true /\
    length (cubeList (pool w)) = cubeNum (pool w) /\
    Forall (scaledBy (cubeScaleOf (useModel (pool w)))) (cubeList (pool w)).
Proof.
  split; [reflexivity|].
  apply (scene_follows_the_gui (demoEnv 3 demoDraws) demoEvents). reflexivity.
Defined.

Lemma light_helper_stays_as_made_witness :
  capable (demoEnv 3 demoDraws) = true /\
  exists w, snd (run (demoEnv 3 demoDraws) demoEvents) = Running w /\ helperAsMade w.
Proof.
  split; [reflexivity|].
  apply (light_helper_stays_as_made (demoEnv 3 demoDraws) demoEvents). reflexivity.
Defined.

Lemma frames_well_encoded_witness :
  capable (demoEnv 3 demoDraws) = true /\
  exists w,
    snd (run (demoEnv 3 demoDraws) demoEvents) = Running w /\
    Forall (wellEncoded (cube w) (model w)) (committed w) /\
    buffersDistinct [vertexBuffer (cube w); vertexBuffer (model w)] (pool w) /\
    wired (demoEnv 3 demoDraws) w.
Proof.
  split; [reflexivity|].
  apply (frames_well_encoded (demoEnv 3 demoDraws) demoEvents). reflexivity.
Defined.

Lemma first_pass_draws_every_instance_witness :
  capable (demoEnv 3 demoDraws) = true /\
  exists w,
    snd (run (demoEnv 3 demoDraws) demoEvents) = Running w /\
    forall d,
      let geometry := if useModel (pool w) then model w else cube w in
      exists w' pass1 pass2,
        render (Some d) w = (Normal tt, w') /\
        committed w' = committed w ++ [{| passes := [pass1; pass2]; presented := d |}] /\
        commands pass1
          = [setRenderPipelineState cubePipeline;
             setDepthStencilState;
             setVertexBuffer (Some (vertexBuffer geometry)) 0 0]
            ++ flat_map (instanceCommands (uniforms (pool w)) geometry)
                 (cubeList (pool w)) /\
        length (commands pass1) = 3 + 2 * cubeNum (pool w) /\
        commands pass2
          = [setRenderPipelineState lightHelperPipeline;
             setDepthStencilState;
             setVertexBuffer (Some (vertexBuffer (cube w))) 0 0;
             setVertexBuffer (bufferOf (uniforms (pool w)) (lightHelper w)) 0 1;
             drawPrimitives WebGPUPrimitiveType.linestrip 0 36].
Proof.
  split; [reflexivity|].
  apply (first_pass_draws_every_instance (demoEnv 3 demoDraws) demoEvents). reflexivity.
Defined.

Lemma frame_uploads_matrices_witness :
  capable (demoEnv 3 demoDraws) = true /\
  exists w,
    snd (run (demoEnv 3 demoDraws) demoEvents) = Running w /\
    forall d, exists w',
      render (Some d) w = (Normal tt, w') /\
      camera w' = upDate 0.1 (camera w) /\
      lightHelper w' = lightHelper (updated w) /\
      cubeList (pool w') = animateLoop (time w) 0 (cubeList (pool w)) /\
      Forall (holdsMatricesOf (uniforms (pool w')) (getCameraMtx (camera w'))
                (lightDirectionAt (time w)))
        (cubeList (pool w')) /\
      exists i u,
        vertexUniform (lightHelper w') = Some i /\ uniforms (pool w') !! i = Some u /\
        mvpMatrix u
          = mat4_multiply (getCameraMtx (camera w')) (getModelMtx (lightHelper w')).
Proof.
  split; [reflexivity|].
  apply (frame_uploads_matrices (demoEnv 3 demoDraws) demoEvents). reflexivity.
Defined.

(** Tick 0 and the three frames of [demoEvents] present textures 0 to 3. *)
Lemma frames_present_acquired_drawables_witness :
  capable (demoEnv 3 demoDraws) = true /\
  exists w,
    snd (run (demoEnv 3 demoDraws) demoEvents) = Running w /\
    map presented (committed w)
      = [{| texture := 0 |}; {| texture := 1 |}; {| texture := 2 |}; {| texture := 3 |}] /\
    Forall targetsPresented (committed w) /\
    animationFrameRequests w = 1.
Proof.
  split; [reflexivity|].
  apply (frames_present_acquired_drawables (demoEnv 3 demoDraws) demoEvents). reflexivity.
Defined.

(** [init] builds 3 objects, the events 5, 5 and 2 more: 75 draws. *)
Lemma placement_follows_the_draws_witness :
  capable (demoEnv 3 demoDraws) = true /\
  exists w,
    snd (run (demoEnv 3 demoDraws) demoEvents) = Running w /\
    randomValues (pool w) = demoDraws /\
    randomDrawn (pool w) = 75 /\
    forall k obj,
      cubeList (pool w) !! k = Some obj ->
      placedAs (placedObject (cubeScaleOf (useModel (pool w))) demoDraws
                  (randomDrawn (pool w) - 5 * cubeNum (pool w) + 5 * k))
        obj.
Proof.
  split; [reflexivity|].
  apply (placement_follows_the_draws (demoEnv 3 demoDraws) demoEvents). reflexivity.
Defined.

Lemma frame_counter_counts_calls_witness :
  capable (demoEnv 3 demoDraws) = true /\
  exists w,
    snd (run (demoEnv 3 demoDraws) demoEvents) = Running w /\
    time w = 4%float /\ camera w = 4.
Proof.
  split; [reflexivity|].
  destruct (frame_counter_counts_calls (demoEnv 3 demoDraws) demoEvents eq_refl)
    as (w & Hrun & Htime & Hcamera).
  exists w. split; [exact Hrun|]. split.
  - rewrite Htime. by vm_compute.
  - rewrite Hcamera. reflexivity.
Defined.

Lemma instances_hold_the_light_colours_witness :
  capable (demoEnv 3 demoDraws) = true /\
  exists w,
    snd (run (demoEnv 3 demoDraws) demoEvents) = Running w /\
    Forall (litAs (uniforms (pool w))) (cubeList (pool w)).
Proof.
  split; [reflexivity|].
  apply (instances_hold_the_light_colours (demoEnv 3 demoDraws) demoEvents). reflexivity.
Defined.

End BehaviourWitnesses.
